(** * Clinic administration dashboard: list, form and validation logic

    A shallow embedding of the two paginated resource screens of the
    dashboard, the hospital screen ([HospitalManagement], API backed
    variant) and the staff screen ([UserManagement]), together with the
    properties their specification states about them.

    JavaScript values are modelled as follows.  A string is a sequence of
    code units; the development covers code units below 256, one [ascii]
    each.  An object used as a record or dictionary is a [gmap] from
    property names to values, a missing property reading as [VUndef].
    React state cells are the fields of a state record and every handler
    is a function on that record; a handler that talks to the network is
    split at its [await]. *)

From Stdlib Require Import ZArith Ascii String List Bool Lia.
From stdpp Require Import gmap strings list fin_maps.

Local Open Scope Z_scope.

(* ===================================================================== *)
(** * JavaScript strings, character classes and regular expressions *)
(* ===================================================================== *)

Module Js.

(** ** Characters *)

Definition code (c : ascii) : nat := nat_of_ascii c.

(** [\d]: an ASCII digit. *)
Definition is_digit (c : ascii) : bool :=
  (48 <=? code c)%nat && (code c <=? 57)%nat.

(** [\s], and the characters [trim] removes: tab, line feed, vertical tab,
    form feed, carriage return, space and no-break space are the ones
    below 256. *)
Definition is_space (c : ascii) : bool :=
  ((9 <=? code c)%nat && (code c <=? 13)%nat)
  || (code c =? 32)%nat || (code c =? 160)%nat.

(** The class [[-()\s]] of the phone separators. *)
Definition is_separator (c : ascii) : bool :=
  (code c =? 45)%nat || (code c =? 40)%nat || (code c =? 41)%nat
  || is_space c.

(** The class [[^\s@]]. *)
Definition not_space_at (c : ascii) : bool :=
  negb (is_space c) && negb (code c =? 64)%nat.

Definition is_char (a c : ascii) : bool := (code c =? code a)%nat.

(** ** Strings *)

Definition chars (s : string) : list ascii := list_ascii_of_string s.
Definition of_chars (l : list ascii) : string := string_of_list_ascii l.

(** Truthiness of a string: every string but the empty one. *)
Definition nonempty (s : string) : bool :=
  match s with EmptyString => false | String _ _ => true end.

(** [s.replace(/[-()\s]/g, '')] *)
Definition strip_separators (s : string) : string :=
  of_chars (List.filter (fun c => negb (is_separator c)) (chars s)).

Fixpoint drop_space (l : list ascii) : list ascii :=
  match l with
  | c :: l' => if is_space c then drop_space l' else l
  | [] => []
  end.

(** [s.trim()] *)
Definition trim (s : string) : string :=
  of_chars (rev (drop_space (rev (drop_space (chars s))))).

(** ** Clock times

    The time pickers store [time.toTimeString().split(' ')[0].substring(0, 5)],
    the two digits of the hour, a colon, the two digits of the minute. *)

Definition digitChar (n : nat) : ascii := ascii_of_nat (48 + n).

Definition twoDigits (n : nat) : list ascii :=
  [digitChar (n / 10); digitChar (n mod 10)].

Definition hhmm (h m : nat) : string :=
  of_chars (twoDigits h ++ ":"%char :: twoDigits m).

Definition minuteOfDay (h m : nat) : Z := Z.of_nat (60 * h + m).

(** A [Date] constructor reads clock times when it places [hhmm h m] at
    minute [60 h + m] of one and the same day. *)
Definition readsClock (dateOf : string -> option Z) : Prop :=
  exists midnight, forall h m, (h < 24)%nat -> (m < 60)%nat ->
    dateOf (hhmm h m) = Some (midnight + 60000 * minuteOfDay h m).

Definition digitValue (c : ascii) : option nat :=
  if is_digit c then Some (code c - 48)%nat else None.

(** One such constructor: it takes the form [HH:mm] and nothing else, in a
    time zone without offset. *)
Definition isoClockDate (s : string) : option Z :=
  match chars s with
  | [a; b; colon; c; d] =>
      match digitValue a, digitValue b, digitValue c, digitValue d with
      | Some a, Some b, Some c, Some d =>
          let h := (10 * a + b)%nat in
          let m := (10 * c + d)%nat in
          if is_char ":" colon && (h <? 24)%nat && (m <? 60)%nat
          then Some (60000 * minuteOfDay h m) else None
      | _, _, _, _ => None
      end
  | _ => None
  end.

(** ** Regular expressions

    The patterns of the source are all anchored at both ends, so
    [RegExp.prototype.test] is a match of the whole string.  It is computed
    with derivatives. *)

Inductive regex : Type :=
| RNone
| REps
| RSet (p : ascii -> bool)
| RSeq (r1 r2 : regex)
| RAlt (r1 r2 : regex)
| RStar (r : regex).

(** [r+] *)
Definition RPlus (r : regex) : regex := RSeq r (RStar r).

(** [r{n}] *)
Fixpoint RExactly (n : nat) (r : regex) : regex :=
  match n with O => REps | S n' => RSeq r (RExactly n' r) end.

(** [r{0,n}] *)
Fixpoint RAtMost (n : nat) (r : regex) : regex :=
  match n with O => REps | S n' => RAlt REps (RSeq r (RAtMost n' r)) end.

(** [r{lo,hi}] *)
Definition RBetween (lo hi : nat) (r : regex) : regex :=
  RSeq (RExactly lo r) (RAtMost (hi - lo) r).

Fixpoint nullable (r : regex) : bool :=
  match r with
  | RNone => false
  | REps => true
  | RSet _ => false
  | RSeq r1 r2 => nullable r1 && nullable r2
  | RAlt r1 r2 => nullable r1 || nullable r2
  | RStar _ => true
  end.

Fixpoint deriv (c : ascii) (r : regex) : regex :=
  match r with
  | RNone => RNone
  | REps => RNone
  | RSet p => if p c then REps else RNone
  | RSeq r1 r2 =>
      if nullable r1
      then RAlt (RSeq (deriv c r1) r2) (deriv c r2)
      else RSeq (deriv c r1) r2
  | RAlt r1 r2 => RAlt (deriv c r1) (deriv c r2)
  | RStar r1 => RSeq (deriv c r1) (RStar r1)
  end.

Fixpoint matches (r : regex) (l : list ascii) : bool :=
  match l with
  | [] => nullable r
  | c :: l' => matches (deriv c r) l'
  end.

(** [/^r$/.test(s)] *)
Definition test (r : regex) (s : string) : bool := matches r (chars s).

(** The three patterns of the validators. *)

(** [/^\d{6}$/] *)
Definition pin_code_re : regex := RExactly 6 (RSet is_digit).

(** [/^\d{10,12}$/] *)
Definition phone_re : regex := RBetween 10 12 (RSet is_digit).

(** [/^[^\s@]+@[^\s@]+\.[^\s@]+$/] *)
Definition email_re : regex :=
  RSeq (RPlus (RSet not_space_at))
    (RSeq (RSet (is_char "@"))
       (RSeq (RPlus (RSet not_space_at))
          (RSeq (RSet (is_char "."))
             (RPlus (RSet not_space_at))))).

(** ** The language of a regular expression *)

Inductive star (L : list ascii -> Prop) : list ascii -> Prop :=
| star_nil : star L []
| star_cons c u v : L (c :: u) -> star L v -> star L (c :: u ++ v).

Fixpoint lang (r : regex) : list ascii -> Prop :=
  match r with
  | RNone => fun _ => False
  | REps => fun l => l = []
  | RSet p => fun l => exists c, l = [c] /\ p c = true
  | RSeq r1 r2 => fun l => exists u v, l = u ++ v /\ lang r1 u /\ lang r2 v
  | RAlt r1 r2 => fun l => lang r1 l \/ lang r2 l
  | RStar r1 => star (lang r1)
  end.

(** ** More string and array methods *)

(** One code unit of [toLowerCase], below 256: the letters [A-Z] and the
    accented capitals from 192 to 222, the sign at 215 apart. *)
Definition lowerChar (c : ascii) : ascii :=
  let n := code c in
  if ((65 <=? n)%nat && (n <=? 90)%nat)
     || ((192 <=? n)%nat && (n <=? 222)%nat && negb (n =? 215)%nat)
  then ascii_of_nat (n + 32) else c.

(** [s.toLowerCase()] *)
Definition toLowerCase (s : string) : string :=
  of_chars (map lowerChar (chars s)).

Fixpoint startsWith (p l : list ascii) : bool :=
  match p, l with
  | [], _ => true
  | a :: p', b :: l' => Ascii.eqb a b && startsWith p' l'
  | _ :: _, [] => false
  end.

Fixpoint includesChars (p l : list ascii) : bool :=
  startsWith p l
  || match l with
     | [] => false
     | _ :: l' => includesChars p l'
     end.

(** [s.includes(p)] *)
Definition includes (s p : string) : bool := includesChars (chars p) (chars s).

(** An index argument of [slice]: counted from the end when negative,
    capped by the length. *)
Definition sliceIndex (len k : Z) : Z :=
  if k <? 0 then Z.max (len + k) 0 else Z.min k len.

(** [l.slice(start, stop)] *)
Definition slice {A : Type} (l : list A) (start stop : Z) : list A :=
  let len := Z.of_nat (length l) in
  let a := sliceIndex len start in
  let b := sliceIndex len stop in
  firstn (Z.to_nat (b - a)) (skipn (Z.to_nat a) l).

(** [segs.join(sep)] for a separator of one character. *)
Fixpoint joinChars (sep : ascii) (segs : list (list ascii)) : list ascii :=
  match segs with
  | [] => []
  | [seg] => seg
  | seg :: rest => seg ++ sep :: joinChars sep rest
  end.

(** [s.split(sep)] for a separator of one character: never empty. *)
Fixpoint splitChars (sep : ascii) (l : list ascii) : list (list ascii) :=
  match l with
  | [] => [[]]
  | c :: l' =>
      if Ascii.eqb c sep then [] :: splitChars sep l'
      else match splitChars sep l' with
           | seg :: segs => (c :: seg) :: segs
           | [] => [[c]]
           end
  end.

End Js.

(* ===================================================================== *)
(** * The numbered buttons of the pagination control *)
(* ===================================================================== *)

Module Pagination.

(** The body of the [Array.from] callback: the page shown by button [i]. *)
Definition pageNumber (totalPages currentPage i : Z) : Z :=
  if totalPages <=? 5 then i + 1
  else if currentPage <=? 3 then i + 1
  else if currentPage >=? totalPages - 2 then totalPages - 4 + i
  else currentPage - 2 + i.

(** [Array.from({ length: Math.min(totalPages, 5) }, (_, i) => ...)]; a
    length that is not positive gives the empty array. *)
Definition pageButtons (totalPages currentPage : Z) : list Z :=
  map (fun i => pageNumber totalPages currentPage (Z.of_nat i))
      (seq 0 (Z.to_nat (Z.min totalPages 5))).

(** The numbered buttons on screen: the whole control sits under the guard
    [totalPages > 1 && (...)]. *)
Definition paginationControl (totalPages currentPage : Z) : list Z :=
  if totalPages >? 1 then pageButtons totalPages currentPage else [].

(** [Math.ceil(totalCount / itemsPerPage)], the page size being positive. *)
Definition totalPages (totalCount itemsPerPage : Z) : Z :=
  (totalCount + itemsPerPage - 1) / itemsPerPage.

(** The pages [a, a+1, ..., a+n-1]. *)
Definition pagesFrom (a : Z) (n : nat) : list Z :=
  map (fun i => a + Z.of_nat i) (seq 0 n).

(** The first entry of "Showing a to b of n entries":
    [rows.length > 0 ? (currentPage - 1) * itemsPerPage + 1 : 0]. *)
Definition showingFrom (rows : nat) (currentPage itemsPerPage : Z) : Z :=
  if (0 <? rows)%nat then (currentPage - 1) * itemsPerPage + 1 else 0.

(** The last entry: [Math.min(currentPage * itemsPerPage, totalCount)]. *)
Definition showingTo (currentPage itemsPerPage totalCount : Z) : Z :=
  Z.min (currentPage * itemsPerPage) totalCount.

(** The page the "Previous" button asks for; the button is disabled, and
    asks for nothing, on page 1. *)
Definition previousClick (currentPage : Z) : option Z :=
  if currentPage =? 1 then None else Some (currentPage - 1).

(** The page the "Next" button asks for; disabled on the last page. *)
Definition nextClick (totalPages currentPage : Z) : option Z :=
  if currentPage =? totalPages then None else Some (currentPage + 1).

End Pagination.

(* ===================================================================== *)
(** * Values, drafts and the HTTP boundary *)
(* ===================================================================== *)

Module Data.

(** The values a form draft or an entity holds. *)
Inductive value : Type :=
| VUndef
| VStr (s : string)
| VBool (b : bool)
| VObj (o : gmap string string).

(** An object literal with dynamic keys. *)
Abbreviation object := (gmap string value).

(** [o.k]: a missing property reads as [undefined]. *)
Definition prop (o : object) (k : string) : value := default VUndef (o !! k).

(** Truthiness, as [!v] and [v && ...] test it. *)
Definition truthy (v : value) : bool :=
  match v with
  | VUndef => false
  | VStr s => Js.nonempty s
  | VBool b => b
  | VObj _ => true
  end.

(** The text of a value.  The fields the validators read are declared
    [string] by the draft types, so on a draft this is the string itself;
    other values read as [String(v)] writes them. *)
Definition asString (v : value) : string :=
  match v with
  | VStr s => s
  | VUndef => "undefined"
  | VBool true => "true"
  | VBool false => "false"
  | VObj _ => "[object Object]"
  end.

(** A hospital record as the API returns it: every field is a string. *)
Abbreviation hospital := (gmap string string).

(** A destructured field with the default [''] for a missing property. *)
Definition orEmpty (h : hospital) (k : string) : string := default "" (h !! k).

(** [`${h.k}`]: a missing property is spelled out. *)
Definition fieldText (h : hospital) (k : string) : string :=
  default "undefined" (h !! k).

(** The validation mapping, field name to message. *)
Abbreviation errors := (gmap string string).

(** [validation[name]] used as a condition. *)
Definition hasError (validation : errors) (name : string) : bool :=
  match validation !! name with Some msg => Js.nonempty msg | None => false end.

(** [if (c) errors.k = msg] *)
Definition setIf (c : bool) (k msg : string) (e : errors) : errors :=
  if c then <[k := msg]> e else e.

(** A value placed in a request body. *)
Inductive arg : Type :=
| Plain (v : value)
| NewDate (v : value).   (* [new Date(v)] *)

Inductive method : Type := GET | POST | PUT | DELETE.

(** A call of the HTTP client.  [undefined] query parameters are [None]. *)
Record request : Type := Request {
  r_method : method;
  r_url : string;
  r_page : option Z;
  r_limit : option Z;
  r_search : option string;
  r_hospital_id : option string;
  r_body : option (gmap string arg)
}.

(** The part of a list response the screens read, [data?.data?.X]. *)
Record listing (entity : Type) : Type := Listing {
  l_records : option (list entity);
  l_totalCount : option Z;
  l_page : option Z
}.
Arguments Listing {entity} _ _ _.
Arguments l_records {entity} _.
Arguments l_totalCount {entity} _.
Arguments l_page {entity} _.

(** The outcome of awaiting a call: the promise resolves with a status and
    a body, or rejects. *)
Inductive reply (entity : Type) : Type :=
| Resolved (status : Z) (data : listing entity)
| Rejected.
Arguments Resolved {entity} _ _.
Arguments Rejected {entity}.

(** [x || d] on a number: [0] and [undefined] are falsy. *)
Definition orNumber (x : option Z) (d : Z) : Z :=
  match x with
  | Some n => if n =? 0 then d else n
  | None => d
  end.

(** [s.trim() || undefined] *)
Definition searchParam (searchTerm : string) : option string :=
  let t := Js.trim searchTerm in if Js.nonempty t then Some t else None.

(** [s || undefined] *)
Definition orUndefined (s : string) : option string :=
  if Js.nonempty s then Some s else None.

(** [response.status === 200 || response.status === 201] *)
Definition isSuccess (status : Z) : bool := (status =? 200) || (status =? 201).

End Data.

(* ===================================================================== *)
(** * The hospital screen (paginated, API backed) *)
(* ===================================================================== *)

Module Hospital.
Import Data.

(** The [useState] cells of the component. *)
Record state : Type := State {
  hospitals : list hospital;
  isModalOpen : bool;
  searchTerm : string;
  editingHospital : option hospital;
  currentPage : Z;
  isLoading : bool;
  error : option string;
  totalCount : Z;
  validation : errors;
  formData : object
}.

Definition setHospitals v st := State v (isModalOpen st) (searchTerm st) (editingHospital st) (currentPage st) (isLoading st) (error st) (totalCount st) (validation st) (formData st).
Definition setIsModalOpen v st := State (hospitals st) v (searchTerm st) (editingHospital st) (currentPage st) (isLoading st) (error st) (totalCount st) (validation st) (formData st).
Definition setSearchTerm v st := State (hospitals st) (isModalOpen st) v (editingHospital st) (currentPage st) (isLoading st) (error st) (totalCount st) (validation st) (formData st).
Definition setEditingHospital v st := State (hospitals st) (isModalOpen st) (searchTerm st) v (currentPage st) (isLoading st) (error st) (totalCount st) (validation st) (formData st).
Definition setCurrentPage v st := State (hospitals st) (isModalOpen st) (searchTerm st) (editingHospital st) v (isLoading st) (error st) (totalCount st) (validation st) (formData st).
Definition setIsLoading v st := State (hospitals st) (isModalOpen st) (searchTerm st) (editingHospital st) (currentPage st) v (error st) (totalCount st) (validation st) (formData st).
Definition setError v st := State (hospitals st) (isModalOpen st) (searchTerm st) (editingHospital st) (currentPage st) (isLoading st) v (totalCount st) (validation st) (formData st).
Definition setTotalCount v st := State (hospitals st) (isModalOpen st) (searchTerm st) (editingHospital st) (currentPage st) (isLoading st) (error st) v (validation st) (formData st).
Definition setValidation v st := State (hospitals st) (isModalOpen st) (searchTerm st) (editingHospital st) (currentPage st) (isLoading st) (error st) (totalCount st) v (formData st).
Definition setFormData v st := State (hospitals st) (isModalOpen st) (searchTerm st) (editingHospital st) (currentPage st) (isLoading st) (error st) (totalCount st) (validation st) v.

Definition itemsPerPage : Z := 10.

(** [initialFormData]; [today] is what [getTodayDate()] returns at the
    render that builds it. *)
Definition initialFormData (today : string) : object :=
  list_to_map
    [ ("registration_id", VStr "");
      ("registration_date", VStr today);
      ("clinic_name", VStr "");
      ("speciality", VStr "");
      ("logo", VStr "");
      ("email", VStr "");
      ("address", VStr "");
      ("address2", VStr "");
      ("pin_code", VStr "");
      ("country", VStr "");
      ("state", VStr "");
      ("city", VStr "");
      ("phone_number", VStr "");
      ("mobile_number", VStr "");
      ("working_hours_from", VStr "");
      ("working_hours_to", VStr "") ].

(** The component as it mounts. *)
Definition initialState (today : string) : state :=
  State [] false "" None 1 false None 0 ∅ (initialFormData today).

Definition handleInputChange (name value : string) (st : state) : state :=
  let st := setFormData (<[name := VStr value]> (formData st)) st in
  (* Clear validation error when field is edited *)
  if hasError (validation st) name
  then setValidation (<[name := ""]> (validation st)) st
  else st.

(** The "Create Hospital" button. *)
Definition openCreate (st : state) : state := setIsModalOpen true st.

Section Validation.

(** [dateOf s] is the time value of [new Date(`1970-01-01T${s}`)], [None]
    for an invalid date.  What the constructor accepts beyond the ISO
    forms is left to the JavaScript engine, so it is a parameter. *)
Variable dateOf : string -> option Z.

(** [a >= b] on two dates: false as soon as one of them is invalid. *)
Definition dateGe (a b : option Z) : bool :=
  match a, b with
  | Some x, Some y => y <=? x
  | _, _ => false
  end.

(** The [errors] object [validateForm] builds. *)
Definition validationErrors (formData : object) : errors :=
  let f := prop formData in
  let e : errors := ∅ in
  (* Required fields validation *)
  let e := setIf (negb (truthy (f "clinic_name")))
             "clinic_name" "Clinic Name is required" e in
  let e := setIf (negb (truthy (f "address")))
             "address" "Address is required" e in
  let e := setIf (negb (truthy (f "pin_code")))
             "pin_code" "Pin Code is required" e in
  (* Pin code format validation *)
  let e := setIf (truthy (f "pin_code")
                  && negb (Js.test Js.pin_code_re (asString (f "pin_code"))))
             "pin_code" "Pin Code must be a 6-digit number" e in
  (* Phone number validation *)
  let e := setIf (truthy (f "phone_number")
                  && negb (Js.test Js.phone_re
                             (Js.strip_separators (asString (f "phone_number")))))
             "phone_number" "Please enter a valid phone number" e in
  (* Mobile number validation *)
  let e := setIf (truthy (f "mobile_number")
                  && negb (Js.test Js.phone_re
                             (Js.strip_separators (asString (f "mobile_number")))))
             "mobile_number" "Please enter a valid mobile number" e in
  (* Email validation *)
  let e := setIf (truthy (f "email")
                  && negb (Js.test Js.email_re (asString (f "email"))))
             "email" "Please enter a valid email address" e in
  (* Working hours validation *)
  let e := setIf (truthy (f "working_hours_from") && truthy (f "working_hours_to")
                  && dateGe (dateOf (asString (f "working_hours_from")))
                            (dateOf (asString (f "working_hours_to"))))
             "working_hours_to"
             "Working Hours To must be later than Working Hours From" e in
  e.

(** [validateForm]: stores the errors and tells whether there are none. *)
Definition validateForm (st : state) : state * bool :=
  let e := validationErrors (formData st) in
  (setValidation e st, bool_decide (e = ∅)).

(** [onChange] of the registration date picker, for a date picked;
    [date] is [date.toISOString().split('T')[0]]. *)
Definition pickRegistrationDate (date : string) (st : state) : state :=
  setFormData (<["registration_date" := VStr date]> (formData st)) st.

(** [onChange] of the "Working Hours From" picker, for a time picked;
    [timeString] is the [HH:mm] text of the time. *)
Definition pickWorkingHoursFrom (timeString : string) (st : state) : state :=
  let st' := setFormData (<["working_hours_from" := VStr timeString]> (formData st)) st in
  (* Clear validation error *)
  if hasError (validation st) "working_hours_to"
  then setValidation (<["working_hours_to" := ""]> (validation st')) st'
  else st'.

(** [onChange] of the "Working Hours To" picker, for a time picked. *)
Definition pickWorkingHoursTo (timeString : string) (st : state) : state :=
  let st' := setFormData (<["working_hours_to" := VStr timeString]> (formData st)) st in
  (* Validate working hours if both fields have values *)
  if truthy (prop (formData st) "working_hours_from") && Js.nonempty timeString
  then
    if dateGe (dateOf (asString (prop (formData st) "working_hours_from")))
              (dateOf timeString)
    then setValidation
           (<["working_hours_to" :=
                "Working Hours To must be later than Working Hours From"]>
              (validation st')) st'
    else setValidation (<["working_hours_to" := ""]> (validation st')) st'
  else st'.

(** The [hospitalData] object of [handleSubmit]. *)
Definition hospitalData (formData : object) : gmap string arg :=
  let f := prop formData in
  list_to_map
    [ ("registration_date", NewDate (f "registration_date"));
      ("clinic_name", Plain (f "clinic_name"));
      ("speciality", Plain (f "speciality"));
      ("logo", Plain (f "logo"));
      ("email", Plain (f "email"));
      ("address", Plain (f "address"));
      ("address2", Plain (f "address2"));
      ("pin_code", Plain (f "pin_code"));
      ("country", Plain (f "country"));
      ("state", Plain (f "state"));
      ("city", Plain (f "city"));
      ("phone_number", Plain (f "phone_number"));
      ("mobile_number", Plain (f "mobile_number"));
      ("working_hours_from", Plain (f "working_hours_from"));
      ("working_hours_to", Plain (f "working_hours_to")) ].

Definition handleCloseModal (today : string) (st : state) : state :=
  let st := setIsModalOpen false st in
  let st := setEditingHospital None st in
  let st := setFormData (initialFormData today) st in
  setValidation ∅ st.

(** [fetchHospitals] up to its [await]: the flags it sets and the call it
    makes.  [term] is the [searchTerm] of the render whose closure runs. *)
Definition fetchBegin (page : Z) (term : string) (st : state) : state * request :=
  let st := setIsLoading true st in
  let st := setError None st in
  (st, Request GET "/hospital" (Some page) (Some itemsPerPage)
         (searchParam term) None None).

(** [fetchHospitals] from its [await] on. *)
Definition fetchEnd (page : Z) (r : reply hospital) (st : state) : state :=
  let st :=
    match r with
    | Resolved _ data =>
        let st := setHospitals (default [] (l_records data)) st in
        let st := setTotalCount (orNumber (l_totalCount data) 0) st in
        setCurrentPage (orNumber (l_page data) page) st
    | Rejected =>
        setError (Some "Error loading hospital data. Please try again later.") st
    end in
  setIsLoading false st.

(** The server, seen from one handler that runs alone. *)
Variable net : request -> reply hospital.

(** [fetchHospitals(page)] run to its end; also the calls it made. *)
Definition fetchHospitals (page : Z) (st : state) : state * list request :=
  let '(st1, rq) := fetchBegin page (searchTerm st) st in
  (fetchEnd page (net rq) st1, [rq]).

Definition handlePageChange (page : Z) (st : state) : state * list request :=
  fetchHospitals page (setCurrentPage page st).

(** The call [handleSubmit] makes once the draft is valid. *)
Definition saveRequest (st : state) : request :=
  match editingHospital st with
  | Some h =>
      Request PUT ("/hospital/" +:+ fieldText h "id") None None None None
        (Some (hospitalData (formData st)))
  | None =>
      Request POST "/hospital" None None None None
        (Some (hospitalData (formData st)))
  end.

(** [handleSubmit] run to its end; also the calls it made, in order. *)
Definition handleSubmit (today : string) (st : state) : state * list request :=
  let '(st1, ok) := validateForm st in
  if negb ok then (st1, [])
  else
    let st2 := setError None (setIsLoading true st1) in
    let rq := saveRequest st in
    match net rq with
    | Resolved status _ =>
        let '(st3, sent) :=
          if isSuccess status then fetchHospitals (currentPage st) st2
          else (st2, []) in
        let st4 := handleCloseModal today st3 in
        (setIsLoading false st4, rq :: sent)
    | Rejected =>
        let st3 := setError (Some "Error saving hospital data. Please try again.") st2 in
        (setIsLoading false st3, [rq])
    end.

(** [handleDelete] run to its end; [confirmed] is the answer to
    [window.confirm]. *)
Definition handleDelete (confirmed : bool) (id : string) (st : state)
  : state * list request :=
  if confirmed then
    let st1 := setError None (setIsLoading true st) in
    let rq := Request DELETE ("/hospital/" +:+ id) None None None None None in
    match net rq with
    | Resolved _ _ =>
        (* Refresh the current page after deletion *)
        let '(st2, sent) := fetchHospitals (currentPage st) st1 in
        (setIsLoading false st2, rq :: sent)
    | Rejected =>
        let st2 := setError (Some "Error deleting hospital. Please try again.") st1 in
        (setIsLoading false st2, [rq])
    end
  else (st, []).

End Validation.

Definition handleEdit (h : hospital) (st : state) : state :=
  let st := setEditingHospital (Some h) st in
  let st :=
    setFormData
      (list_to_map
         [ ("registration_id", VStr "");
           ("registration_date", VStr (orEmpty h "registration_date"));
           ("clinic_name", VStr (orEmpty h "clinic_name"));
           ("speciality", VStr (orEmpty h "speciality"));
           ("logo", VStr (orEmpty h "logo"));
           ("email", VStr (orEmpty h "email"));
           ("address", VStr (orEmpty h "address"));
           ("address2", VStr (orEmpty h "address2"));
           ("pin_code", VStr (orEmpty h "pin_code"));
           ("country", VStr (orEmpty h "country"));
           ("state", VStr (orEmpty h "state"));
           ("city", VStr (orEmpty h "city"));
           ("phone_number", VStr (orEmpty h "phone_number"));
           ("mobile_number", VStr (orEmpty h "mobile_number"));
           ("working_hours_from", VStr (orEmpty h "working_hours_from"));
           ("working_hours_to", VStr (orEmpty h "working_hours_to")) ])
      st in
  (* Clear any previous validation errors *)
  let st := setValidation ∅ st in
  setIsModalOpen true st.

End Hospital.

(* ===================================================================== *)
(** * The staff screen *)
(* ===================================================================== *)

Module Users.
Import Data.

(** A staff record as the API returns it. *)
Abbreviation user := (gmap string value).

(** The [useState] cells of the component. *)
Record state : Type := State {
  users : list user;
  hospitals : list hospital;
  isModalOpen : bool;
  searchTerm : string;
  selectedHospital : string;
  editingUser : option user;
  currentPage : Z;
  isLoading : bool;
  error : option string;
  totalCount : Z;
  validation : errors;
  formData : object
}.

Definition setUsers v st := State v (hospitals st) (isModalOpen st) (searchTerm st) (selectedHospital st) (editingUser st) (currentPage st) (isLoading st) (error st) (totalCount st) (validation st) (formData st).
Definition setIsModalOpen v st := State (users st) (hospitals st) v (searchTerm st) (selectedHospital st) (editingUser st) (currentPage st) (isLoading st) (error st) (totalCount st) (validation st) (formData st).
Definition setSearchTerm v st := State (users st) (hospitals st) (isModalOpen st) v (selectedHospital st) (editingUser st) (currentPage st) (isLoading st) (error st) (totalCount st) (validation st) (formData st).
Definition setSelectedHospital v st := State (users st) (hospitals st) (isModalOpen st) (searchTerm st) v (editingUser st) (currentPage st) (isLoading st) (error st) (totalCount st) (validation st) (formData st).
Definition setEditingUser v st := State (users st) (hospitals st) (isModalOpen st) (searchTerm st) (selectedHospital st) v (currentPage st) (isLoading st) (error st) (totalCount st) (validation st) (formData st).
Definition setCurrentPage v st := State (users st) (hospitals st) (isModalOpen st) (searchTerm st) (selectedHospital st) (editingUser st) v (isLoading st) (error st) (totalCount st) (validation st) (formData st).
Definition setIsLoading v st := State (users st) (hospitals st) (isModalOpen st) (searchTerm st) (selectedHospital st) (editingUser st) (currentPage st) v (error st) (totalCount st) (validation st) (formData st).
Definition setError v st := State (users st) (hospitals st) (isModalOpen st) (searchTerm st) (selectedHospital st) (editingUser st) (currentPage st) (isLoading st) v (totalCount st) (validation st) (formData st).
Definition setTotalCount v st := State (users st) (hospitals st) (isModalOpen st) (searchTerm st) (selectedHospital st) (editingUser st) (currentPage st) (isLoading st) (error st) v (validation st) (formData st).
Definition setValidation v st := State (users st) (hospitals st) (isModalOpen st) (searchTerm st) (selectedHospital st) (editingUser st) (currentPage st) (isLoading st) (error st) (totalCount st) v (formData st).
Definition setFormData v st := State (users st) (hospitals st) (isModalOpen st) (searchTerm st) (selectedHospital st) (editingUser st) (currentPage st) (isLoading st) (error st) (totalCount st) (validation st) v.

Definition itemsPerPage : Z := 10.

Definition initialFormData : object :=
  list_to_map
    [ ("_id", VStr "");
      ("title", VStr "");
      ("first_name", VStr "");
      ("last_name", VStr "");
      ("hospital_id", VStr "");
      ("hospital_details", VObj ∅);
      ("gender", VStr "Male");
      ("email_id", VStr "");
      ("mobile_number", VStr "");
      ("phone_number", VStr "");
      ("qualification", VStr "");
      ("designation", VStr "");
      ("is_doctor", VBool false);
      ("color", VStr "#000000");
      ("staff_status", VStr "Active");
      ("set_availability", VBool false);
      ("user_role", VStr "");
      ("is_admin", VBool false);
      ("photo", VStr "") ].

(** The component as it mounts. *)
Definition initialState : state :=
  State [] [] false "" "" None 1 false None 0 ∅ initialFormData.

Definition handleInputChange (name value : string) (st : state) : state :=
  let st := setFormData (<[name := VStr value]> (formData st)) st in
  if hasError (validation st) name
  then setValidation (<[name := ""]> (validation st)) st
  else st.

Definition handleSelectChange (name value : string) (st : state) : state :=
  setFormData (<[name := VStr value]> (formData st)) st.

Definition handleCheckboxChange (name : string) (checked : bool) (st : state) : state :=
  setFormData (<[name := VBool checked]> (formData st)) st.

(** The "Create User" button. *)
Definition openCreate (st : state) : state := setIsModalOpen true st.

(** The [errors] object [validateForm] builds. *)
Definition validationErrors (formData : object) : errors :=
  let f := prop formData in
  let e : errors := ∅ in
  (* Required fields validation *)
  let e := setIf (negb (truthy (f "first_name")))
             "first_name" "First Name is required" e in
  let e := setIf (negb (truthy (f "last_name")))
             "last_name" "Last Name is required" e in
  let e := setIf (negb (truthy (f "hospital_id")))
             "hospital_id" "Hospital is required" e in
  let e := setIf (negb (truthy (f "email_id")))
             "email_id" "Email is required" e in
  (* Email validation *)
  let e := setIf (truthy (f "email_id")
                  && negb (Js.test Js.email_re (asString (f "email_id"))))
             "email_id" "Please enter a valid email address" e in
  (* Phone number validation *)
  let e := setIf (truthy (f "phone_number")
                  && negb (Js.test Js.phone_re
                             (Js.strip_separators (asString (f "phone_number")))))
             "phone_number" "Please enter a valid phone number" e in
  (* Mobile number validation *)
  let e := setIf (truthy (f "mobile_number")
                  && negb (Js.test Js.phone_re
                             (Js.strip_separators (asString (f "mobile_number")))))
             "mobile_number" "Please enter a valid mobile number" e in
  e.

(** [validateForm]: stores the errors and tells whether there are none. *)
Definition validateForm (st : state) : state * bool :=
  let e := validationErrors (formData st) in
  (setValidation e st, bool_decide (e = ∅)).

Definition handleEdit (u : user) (st : state) : state :=
  let st := setEditingUser (Some u) st in
  let st :=
    setFormData
      (list_to_map
         (map (fun k => (k, prop u k))
            [ "_id"; "title"; "first_name"; "last_name"; "hospital_id";
              "hospital_details"; "gender"; "email_id"; "mobile_number";
              "phone_number"; "qualification"; "designation"; "is_doctor";
              "color"; "staff_status"; "set_availability"; "user_role";
              "is_admin"; "photo" ]))
      st in
  (* Clear any previous validation errors *)
  let st := setValidation ∅ st in
  setIsModalOpen true st.

Definition handleCloseModal (st : state) : state :=
  let st := setIsModalOpen false st in
  let st := setEditingUser None st in
  let st := setFormData initialFormData st in
  setValidation ∅ st.

(** [fetchUsers] up to its [await].  [q] holds the [searchTerm] and the
    [selectedHospital] of the render whose closure runs. *)
Definition fetchBegin (page : Z) (q : string * string) (st : state)
  : state * request :=
  let st := setIsLoading true st in
  let st := setError None st in
  (st, Request GET "/hospitaluser" (Some page) (Some itemsPerPage)
         (searchParam (fst q)) (orUndefined (snd q)) None).

(** [fetchUsers] from its [await] on. *)
Definition fetchEnd (page : Z) (r : reply user) (st : state) : state :=
  let st :=
    match r with
    | Resolved _ data =>
        let st := setUsers (default [] (l_records data)) st in
        let st := setTotalCount (orNumber (l_totalCount data) 0) st in
        setCurrentPage (orNumber (l_page data) page) st
    | Rejected =>
        setError (Some "Error loading user data. Please try again later.") st
    end in
  setIsLoading false st.

Section Alone.

(** The server, seen from one handler that runs alone. *)
Variable net : request -> reply user.

(** [fetchUsers(page)] run to its end; also the calls it made. *)
Definition fetchUsers (page : Z) (st : state) : state * list request :=
  let '(st1, rq) := fetchBegin page (searchTerm st, selectedHospital st) st in
  (fetchEnd page (net rq) st1, [rq]).

Definition handlePageChange (page : Z) (st : state) : state * list request :=
  fetchUsers page (setCurrentPage page st).

(** The call [handleSubmit] makes once the draft is valid: the body is the
    draft itself. *)
Definition saveRequest (st : state) : request :=
  match editingUser st with
  | Some u =>
      Request PUT ("/hospitaluser/" +:+ asString (prop u "_id"))
        None None None None (Some (Plain <$> formData st))
  | None =>
      Request POST "/hospitaluser" None None None None
        (Some (Plain <$> formData st))
  end.

(** [handleSubmit] run to its end; also the calls it made, in order. *)
Definition handleSubmit (st : state) : state * list request :=
  let '(st1, ok) := validateForm st in
  if negb ok then (st1, [])
  else
    let st2 := setError None (setIsLoading true st1) in
    let rq := saveRequest st in
    match net rq with
    | Resolved status _ =>
        let '(st3, sent) :=
          if isSuccess status then fetchUsers (currentPage st) st2
          else (st2, []) in
        let st4 := handleCloseModal st3 in
        (setIsLoading false st4, rq :: sent)
    | Rejected =>
        let st3 := setError (Some "Error saving user data. Please try again.") st2 in
        (setIsLoading false st3, [rq])
    end.

(** [handleDelete] run to its end; [confirmed] is the answer to
    [window.confirm]. *)
Definition handleDelete (confirmed : bool) (id : string) (st : state)
  : state * list request :=
  if confirmed then
    let st1 := setError None (setIsLoading true st) in
    let rq := Request DELETE ("/hospitaluser/" +:+ id) None None None None None in
    match net rq with
    | Resolved _ _ =>
        (* Refresh the current page after deletion *)
        let '(st2, sent) := fetchUsers (currentPage st) st1 in
        (setIsLoading false st2, rq :: sent)
    | Rejected =>
        let st2 := setError (Some "Error deleting user. Please try again.") st1 in
        (setIsLoading false st2, [rq])
    end
  else (st, []).

End Alone.

End Users.

(* ===================================================================== *)
(** * The event loop around a screen: debounce timer and pending calls *)
(* ===================================================================== *)

Module Runtime.
Import Data.

(** What the event loop needs to know of a screen: the dependency array of
    its search effect, the delay and the page the effect asks for, and the
    two halves of its list fetch. *)
Record screen : Type := Screen {
  ui : Type;
  entity : Type;
  query : Type;
  query_eq : EqDecision query;
  queryOf : ui -> query;
  debounceMs : Z;
  debouncePage : Z;
  fetchBegin : Z -> query -> ui -> ui * request;
  fetchEnd : Z -> reply entity -> ui -> ui;
  shown : ui -> list entity
}.
#[global] Existing Instance query_eq.

(** The search effect of the hospital screen, on [[searchTerm]]. *)
Definition hospitalScreen : screen :=
  Screen Hospital.state hospital string _
    Hospital.searchTerm 500 1
    Hospital.fetchBegin Hospital.fetchEnd Hospital.hospitals.

(** The search effect of the staff screen, on
    [[searchTerm, selectedHospital]]. *)
Definition usersScreen : screen :=
  Screen Users.state Users.user (string * string) _
    (fun st => (Users.searchTerm st, Users.selectedHospital st)) 500 1
    Users.fetchBegin Users.fetchEnd Users.users.

Section Loop.

Variable S : screen.

(** A timer set by [setTimeout]: its handle, the time it is due, and the
    query of the render whose closure it will run. *)
Record timer : Type := Timer {
  t_id : nat;
  t_due : Z;
  t_query : query S
}.

(** A list fetch suspended at its [await]. *)
Record call : Type := Call {
  c_id : nat;
  c_page : Z;
  c_request : request
}.

Record world : Type := World {
  now : Z;
  view : ui S;
  timers : list timer;
  armed : option nat;       (* the handle the effect's cleanup will clear *)
  nextTimer : nat;
  inflight : list call;
  nextCall : nat;
  sent : list request       (* every list fetch issued so far, in order *)
}.

(** [clearTimeout(id)] *)
Definition clearTimeout (id : nat) (ts : list timer) : list timer :=
  List.filter (fun tm => negb (Nat.eqb (t_id tm) id)) ts.

(** The cleanup returned by the last run of the effect. *)
Definition runCleanup (w : world) : world :=
  match armed w with
  | Some id =>
      World (now w) (view w) (clearTimeout id (timers w)) None
        (nextTimer w) (inflight w) (nextCall w) (sent w)
  | None => w
  end.

(** The effect body: [setTimeout(() => fetch(1), 500)]. *)
Definition runEffect (w : world) : world :=
  let tm := Timer (nextTimer w) (now w + debounceMs S) (queryOf S (view w)) in
  World (now w) (view w) (timers w ++ [tm]) (Some (nextTimer w))
    (Datatypes.S (nextTimer w)) (inflight w) (nextCall w) (sent w).

(** After a render the effect runs again when its dependencies changed:
    first the old cleanup, then the body. *)
Definition afterRender (before : query S) (w : world) : world :=
  if decide (queryOf S (view w) = before) then w
  else runEffect (runCleanup w).

(** A list fetch starts: its first half runs and the call is pending. *)
Definition startFetch (page : Z) (q : query S) (w : world) : world :=
  let '(v, rq) := fetchBegin S page q (view w) in
  World (now w) v (timers w) (armed w) (nextTimer w)
    (inflight w ++ [Call (nextCall w) page rq]) (Datatypes.S (nextCall w))
    (sent w ++ [rq]).

(** A timer fires: the closure of its render fetches the first page. *)
Definition fire (w : world) (tm : timer) : world :=
  startFetch (debouncePage S) (t_query tm) w.

Definition isDue (t : Z) (tm : timer) : bool := t_due tm <=? t.

(** Time passes until [t]; the timers due by then fire in the order they
    were set. *)
Definition elapse (t : Z) (w : world) : world :=
  let due := List.filter (isDue t) (timers w) in
  let rest := List.filter (fun tm => negb (isDue t tm)) (timers w) in
  fold_left fire due
    (World (Z.max (now w) t) (view w) rest (armed w) (nextTimer w)
       (inflight w) (nextCall w) (sent w)).

Definition pending (w : world) (id : nat) : option call :=
  List.find (fun c => Nat.eqb (c_id c) id) (inflight w).

(** The response of a pending call arrives: the second half of its fetch
    runs. *)
Definition answer (id : nat) (r : reply (entity S)) (w : world) : world :=
  match pending w id with
  | Some c =>
      World (now w) (fetchEnd S (c_page c) r (view w)) (timers w) (armed w)
        (nextTimer w)
        (List.filter (fun c' => negb (Nat.eqb (c_id c') id)) (inflight w))
        (nextCall w) (sent w)
  | None => w
  end.

Inductive event : Type :=
| Act (f : ui S -> ui S)                 (* a handler that only sets state *)
| Load (page : Z)                        (* a handler calls the list fetch *)
| Elapse (t : Z)
| Answer (id : nat) (r : reply (entity S)).

Definition step (e : event) (w : world) : world :=
  match e with
  | Act f =>
      let before := queryOf S (view w) in
      afterRender before
        (World (now w) (f (view w)) (timers w) (armed w) (nextTimer w)
           (inflight w) (nextCall w) (sent w))
  | Load page => startFetch page (queryOf S (view w)) w
  | Elapse t => elapse t w
  | Answer id r => answer id r w
  end.

Definition run (es : list event) (w : world) : world :=
  fold_left (fun w e => step e w) es w.

(** The component mounts at time [t0]: the effect runs for the first time. *)
Definition mount (t0 : Z) (init : ui S) : world :=
  runEffect (World t0 init [] None 0 [] 0 []).

Inductive reachable (init : ui S) : world -> Prop :=
| reach_mount t0 : reachable init (mount t0 init)
| reach_step e w : reachable init w -> reachable init (step e w).

(** Every timer still set is the one the cleanup holds. *)
Definition settled (w : world) : Prop :=
  forall tm, In tm (timers w) -> armed w = Some (t_id tm).

(** The ordering the specification asks for: with two list fetches
    pending, the answer to the older one, arriving after the answer to the
    newer one, leaves the records on display alone. *)
Definition staleAnswerIgnored (w : world) : Prop :=
  forall older newer co cn ro rn,
    pending w older = Some co ->
    pending w newer = Some cn ->
    (older < newer)%nat ->
    shown S (view (answer older ro (answer newer rn w)))
    = shown S (view (answer newer rn w)).

End Loop.

Arguments Timer {S} _ _ _.
Arguments Act {S} _.
Arguments Load {S} _.
Arguments Elapse {S} _.
Arguments Answer {S} _ _.

End Runtime.

(* ===================================================================== *)
(** * The validation rules as the specification words them *)
(* ===================================================================== *)

Module Spec.
Import Js Data.

(** "matches exactly 6 digits" *)
Definition sixDigits (s : string) : Prop :=
  length (chars s) = 6%nat /\ Forall (fun c => is_digit c = true) (chars s).

(** The separator characters: [-], [(], [)] and white space. *)
Definition separator (c : ascii) : Prop :=
  c = "-"%char \/ c = "("%char \/ c = ")"%char \/ is_space c = true.

(** [stripped l r]: [r] is [l] with its separators taken out. *)
Inductive stripped : list ascii -> list ascii -> Prop :=
| stripped_nil : stripped [] []
| stripped_drop c l r : separator c -> stripped l r -> stripped (c :: l) r
| stripped_keep c l r : ~ separator c -> stripped l r -> stripped (c :: l) (c :: r).

(** "matches 10-12 digits after stripping separator characters" *)
Definition phoneDigits (s : string) : Prop :=
  exists digits, stripped (chars s) digits
    /\ (10 <= length digits <= 12)%nat
    /\ Forall (fun c => is_digit c = true) digits.

(** A part of an address: not empty, no white space, no [@]. *)
Definition addressPart (l : list ascii) : Prop :=
  l <> [] /\ Forall (fun c => is_space c = false /\ c <> "@"%char) l.

(** "a simple [local@domain.tld] shape" *)
Definition emailShape (s : string) : Prop :=
  exists loc domain tld,
    chars s = loc ++ "@"%char :: domain ++ "."%char :: tld
    /\ addressPart loc /\ addressPart domain /\ addressPart tld.

(** "the from instant must be strictly less than the to instant": the rule
    is broken by two instants that are not in that order. *)
Definition outOfOrder (from to : option Z) : Prop :=
  exists a b, from = Some a /\ to = Some b /\ ~ a < b.

Definition text (d : object) (k : string) : string := asString (prop d k).
Definition present (d : object) (k : string) : Prop := truthy (prop d k) = true.
Definition missing (d : object) (k : string) : Prop := truthy (prop d k) = false.

(** An optional field is wrong when it is filled in and fails its format. *)
Definition filledBut (d : object) (k : string) (ok : string -> Prop) : Prop :=
  present d k /\ ~ ok (text d k).

(** A required field is wrong when it is missing or fails its format. *)
Definition missingOr (d : object) (k : string) (ok : string -> Prop) : Prop :=
  missing d k \/ ~ ok (text d k).

(** The rules of a hospital draft: the key that reports a rule, and when
    the rule is broken. *)
Definition hospitalRules (dateOf : string -> option Z) (d : object)
  : list (string * Prop) :=
  [ ("clinic_name", missing d "clinic_name");
    ("address", missing d "address");
    ("pin_code", missingOr d "pin_code" sixDigits);
    ("phone_number", filledBut d "phone_number" phoneDigits);
    ("mobile_number", filledBut d "mobile_number" phoneDigits);
    ("email", filledBut d "email" emailShape);
    ("working_hours_to",
      present d "working_hours_from" /\ present d "working_hours_to"
      /\ outOfOrder (dateOf (text d "working_hours_from"))
                    (dateOf (text d "working_hours_to"))) ].

(** The rules of a staff draft. *)
Definition userRules (d : object) : list (string * Prop) :=
  [ ("first_name", missing d "first_name");
    ("last_name", missing d "last_name");
    ("hospital_id", missing d "hospital_id");
    ("email_id", missingOr d "email_id" emailShape);
    ("phone_number", filledBut d "phone_number" phoneDigits);
    ("mobile_number", filledBut d "mobile_number" phoneDigits) ].

(** "[validate(strip(s)) == validate(s)]" for the field [k]: the verdict
    on the field is the same for a value and for the value stripped. *)
Definition stripInvariant (validate : object -> errors) (k : string) : Prop :=
  forall (s : string) (d : object),
    validate (<[k := VStr (strip_separators s)]> d) !! k
    = validate (<[k := VStr s]> d) !! k.

(** A field is missing or invalid when it reports a broken rule. *)
Definition flagged (rules : list (string * Prop)) (k : string) : Prop :=
  exists P : Prop, In (k, P) rules /\ P.

(** The page-window policy: at most five buttons, every page when there
    are at most five, otherwise five pages around the current one, kept
    inside the pages there are. *)
Definition windowPolicy (buttons : list Z) (totalPages currentPage : Z) : Prop :=
  (length buttons <= 5)%nat
  /\ (totalPages <= 5 ->
      buttons = Pagination.pagesFrom 1 (Z.to_nat totalPages))
  /\ (5 < totalPages ->
      buttons
      = Pagination.pagesFrom
          (Z.max 1 (Z.min (currentPage - 2) (totalPages - 4))) 5).

(** "Mutating a field clears that field's existing validation error", and
    nothing else of the mapping or of the draft changes: what an edit of
    the field [f] does to a state whose mapping and draft are read by
    [validation] and [formData]. *)
Definition clearsOwnError {state : Type} (validation : state -> errors)
    (formData : state -> object) (edit : state -> state) (f : string)
    (st : state) : Prop :=
  hasError (validation (edit st)) f = false
  /\ (forall k, k <> f ->
        validation (edit st) !! k = validation st !! k
        /\ formData (edit st) !! k = formData st !! k).

(** The form of the hospital screen as a fresh "create" shows it: the
    initial draft, nothing being edited, no validation error. *)
Definition hospitalFormReset (today : string) (st : Hospital.state) : Prop :=
  Hospital.formData st = Hospital.initialFormData today
  /\ Hospital.editingHospital st = None
  /\ Hospital.validation st = ∅.

(** The same for the staff screen. *)
Definition userFormReset (st : Users.state) : Prop :=
  Users.formData st = Users.initialFormData
  /\ Users.editingUser st = None
  /\ Users.validation st = ∅.

End Spec.

(* ===================================================================== *)
(** * Sample data *)
(* ===================================================================== *)

Module Examples.
Import Data.

Definition today : string := "2025-03-14".

(** A hospital draft that passes validation, typed into the create form. *)
Definition hospitalDraft : Hospital.state :=
  Hospital.handleInputChange "pin_code" "600001"
    (Hospital.handleInputChange "address" "12 Lake Road"
       (Hospital.handleInputChange "clinic_name" "Lakeside Clinic"
          (Hospital.openCreate (Hospital.initialState today)))).

(** A staff draft that passes validation. *)
Definition userDraft : Users.state :=
  Users.handleSelectChange "hospital_id" "h1"
    (Users.handleInputChange "email_id" "asha@lakeside.example"
       (Users.handleInputChange "last_name" "Rao"
          (Users.handleInputChange "first_name" "Asha"
             (Users.openCreate Users.initialState)))).

(** The hospital form with opening time 09:00 picked. *)
Definition opensAtNine : Hospital.state :=
  Hospital.pickWorkingHoursFrom "09:00" hospitalDraft.

(** ... and then the closing time 09:00, which is reported. *)
Definition closesAtNine : Hospital.state :=
  Hospital.pickWorkingHoursTo Js.isoClockDate "09:00" opensAtNine.

(** A server that accepts every call and lists nothing. *)
Definition accepting {entity : Type} (_ : request) : reply entity :=
  Resolved 201 (Listing (Some []) (Some 0) (Some 1)).

Definition apollo : hospital :=
  list_to_map [("id", "1"); ("clinic_name", "Apollo")].

Definition abacus : hospital :=
  list_to_map [("id", "2"); ("clinic_name", "Abacus Care")].

Definition asha : Users.user :=
  list_to_map [("_id", VStr "u1"); ("first_name", VStr "Asha")].

Definition abdul : Users.user :=
  list_to_map [("_id", VStr "u2"); ("first_name", VStr "Abdul")].

(** A successful list response with the given records. *)
Definition listed {entity : Type} (records : list entity) : reply entity :=
  Resolved 200 (Listing (Some records) (Some 1) (Some 1)).

(** Two searches of the hospital screen, "a" and then "ab", each left to
    its debounce, neither answered yet. *)
Definition hospitalRace : Runtime.world Runtime.hospitalScreen :=
  Runtime.run Runtime.hospitalScreen
    [ Runtime.Act (S := Runtime.hospitalScreen) (Hospital.setSearchTerm "a");
      Runtime.Elapse 500;
      Runtime.Act (S := Runtime.hospitalScreen) (Hospital.setSearchTerm "ab");
      Runtime.Elapse 1000 ]
    (Runtime.mount Runtime.hospitalScreen 0 (Hospital.initialState today)).

(** The same two searches on the staff screen. *)
Definition userRace : Runtime.world Runtime.usersScreen :=
  Runtime.run Runtime.usersScreen
    [ Runtime.Act (S := Runtime.usersScreen) (Users.setSearchTerm "a");
      Runtime.Elapse 500;
      Runtime.Act (S := Runtime.usersScreen) (Users.setSearchTerm "ab");
      Runtime.Elapse 1000 ]
    (Runtime.mount Runtime.usersScreen 0 Users.initialState).

End Examples.

(* ===================================================================== *)
(** * Bursts of typing on the event loop *)
(* ===================================================================== *)

Module Bursts.
Import Runtime.

Section Burst.
Variable S : screen.

(** A keystroke: the time it comes and the handler it runs. *)
Definition keystroke : Type := (Z * (ui S -> ui S))%type.

(** The events of a series of keystrokes. *)
Fixpoint typing (keys : list keystroke) : list (event S) :=
  match keys with
  | [] => []
  | (b, f) :: rest => Elapse b :: Act f :: typing rest
  end.

(** Each keystroke comes less than the debounce delay after the one
    before, [last] being the time of that one, and changes the query. *)
Fixpoint rapid (last : Z) (v : ui S) (keys : list keystroke) : Prop :=
  match keys with
  | [] => True
  | (b, f) :: rest =>
      last <= b < last + debounceMs S
      /\ queryOf S (f v) <> queryOf S v
      /\ rapid b (f v) rest
  end.

(** The view and the time after the last keystroke. *)
Fixpoint typed (v : ui S) (keys : list keystroke) : ui S :=
  match keys with
  | [] => v
  | (_, f) :: rest => typed (f v) rest
  end.

Fixpoint lastKey (last : Z) (keys : list keystroke) : Z :=
  match keys with
  | [] => last
  | (b, _) :: rest => lastKey b rest
  end.

(** A world in which a keystroke has just come: the one timer set is the
    one of this very moment, for the query on screen. *)
Definition justTyped (w : world S) : Prop :=
  exists id,
    timers S w = [Timer id (now S w + debounceMs S) (queryOf S (view S w))]
    /\ armed S w = Some id.

(** A timer that is set is the only one, is the one the cleanup holds,
    and is due later than now and no later than the delay from now. *)
Definition oneTimer (w : world S) : Prop :=
  (length (timers S w) <= 1)%nat
  /\ forall tm, In tm (timers S w) ->
       armed S w = Some (t_id S tm)
       /\ now S w < t_due S tm <= now S w + debounceMs S.

End Burst.

(** Search terms typed on the hospital screen, each with its time. *)
Definition hospitalKeys (terms : list (Z * string))
  : list (keystroke hospitalScreen) :=
  map (fun bt => (fst bt, Hospital.setSearchTerm (snd bt))) terms.

(** Search terms typed on the staff screen. *)
Definition userKeys (terms : list (Z * string))
  : list (keystroke usersScreen) :=
  map (fun bt => (fst bt, Users.setSearchTerm (snd bt))) terms.

End Bursts.

(* ===================================================================== *)
(** * The hospital screen that filters and pages in the browser *)
(* ===================================================================== *)

Module ClientList.
Import Data.

Definition itemsPerPage : Z := 10.

(** The callback of [hospitals.filter]: the name or the registration id
    contains the search term, letter case apart. *)
Definition matchesSearch (searchTerm : string) (h : hospital) : bool :=
  Js.includes (Js.toLowerCase (orEmpty h "clinic_name"))
    (Js.toLowerCase searchTerm)
  || Js.includes (Js.toLowerCase (orEmpty h "registration_id"))
       (Js.toLowerCase searchTerm).

Definition filteredHospitals (hospitals : list hospital) (searchTerm : string)
  : list hospital :=
  List.filter (matchesSearch searchTerm) hospitals.

(** [Math.ceil(filteredHospitals.length / itemsPerPage)] *)
Definition totalPages (hospitals : list hospital) (searchTerm : string) : Z :=
  Pagination.totalPages
    (Z.of_nat (length (filteredHospitals hospitals searchTerm))) itemsPerPage.

(** The rows on screen. *)
Definition currentHospitals (hospitals : list hospital) (searchTerm : string)
    (currentPage : Z) : list hospital :=
  Js.slice (filteredHospitals hospitals searchTerm)
    ((currentPage - 1) * itemsPerPage) (currentPage * itemsPerPage).

End ClientList.

(* ===================================================================== *)
(** * The response interceptor of the HTTP client *)
(* ===================================================================== *)

Module Api.

(** What the interceptor does to the page. *)
Inductive effect : Type :=
| Redirect (href : string)       (* [window.location.href = href] *)
| Alert (message : string).      (* [alert(message)] *)

(** What the interceptor reads of a rejected call: the status of the
    response and the [errorMessage] of its body, when there are any. *)
Record axiosError : Type := AxiosError {
  status : option Z;
  errorMessage : option string
}.

(** The text of the alert for a status 500: the last part of the message
    between colons, trimmed. *)
Definition finalMessage (errorMessage : option string) : string :=
  let message :=
    match errorMessage with
    | Some m => if Js.nonempty m then m else "Unknown error"
    | None => "Unknown error"
    end in
  Js.trim (Js.of_chars (List.last (Js.splitChars ":" (Js.chars message)) [])).

(** The rejection handler; the promise it returns rejects in every case. *)
Definition onRejected (e : axiosError) : list effect :=
  match status e with
  | Some code =>
      if code =? 401 then [Redirect "/signin"]
      else if code =? 403 then [Alert "You are not authorized to access this page"]
      else if code =? 400 then [Alert "Bad Request"]
      else if code =? 500 then [Alert (finalMessage (errorMessage e))]
      else []
  | None => []
  end.

End Api.

(* ===================================================================== *)
(** * The page that accepts an invitation *)
(* ===================================================================== *)

Module Invitation.
Import Data.

Record state : Type := State {
  password : string;
  confirmPassword : string;
  error : string;
  loading : bool
}.

(** The outcome of the call: the promise resolves with [data.success], or
    rejects with the message of the response, when it has one. *)
Inductive outcome : Type :=
| Answered (success : bool)
| Failed (message : option string).

(** The body of the call; [id] and [email] are the route parameters. *)
Definition body (id email : value) (st : state) : gmap string arg :=
  list_to_map
    [ ("id", Plain id); ("email", Plain email);
      ("password", Plain (VStr (password st))) ].

(** [handleSubmit] run to its end: the state, the calls made, and the
    route navigated to, if any. *)
Definition handleSubmit (net : request -> outcome) (id email : value)
    (st : state) : state * list request * option string :=
  if negb (String.eqb (password st) (confirmPassword st)) then
    (State (password st) (confirmPassword st) "Passwords do not match" (loading st),
     [], None)
  else if (String.length (password st) <? 6)%nat then
    (State (password st) (confirmPassword st)
       "Password must be at least 6 characters long" (loading st),
     [], None)
  else
    let rq := Request POST "/api/accept-invitation" None None None None
                (Some (body id email st)) in
    match net rq with
    | Answered success =>
        (State (password st) (confirmPassword st) "" false, [rq],
         if success then Some "/" else None)
    | Failed message =>
        let text :=
          match message with
          | Some m => if Js.nonempty m then m else "An error occurred"
          | None => "An error occurred"
          end in
        (State (password st) (confirmPassword st) text false, [rq], None)
    end.

End Invitation.

(* ===================================================================== *)
(** * What a handler leaves alone *)
(* ===================================================================== *)

Module Frames.

(** The part of the hospital screen a list fetch has no business with: the
    modal, the entity being edited, the draft, the mapping and the search
    term. *)
Definition hospitalFormOf (st : Hospital.state) :=
  (Hospital.isModalOpen st, Hospital.editingHospital st, Hospital.formData st,
   Hospital.validation st, Hospital.searchTerm st).

(** The same for the staff screen, with the filter and its options. *)
Definition userFormOf (st : Users.state) :=
  (Users.isModalOpen st, Users.editingUser st, Users.formData st,
   Users.validation st, Users.searchTerm st, Users.selectedHospital st,
   Users.hospitals st).

(** The part of the hospital screen the form has no business with. *)
Definition hospitalListOf (st : Hospital.state) :=
  (Hospital.hospitals st, Hospital.totalCount st, Hospital.currentPage st,
   Hospital.searchTerm st).

Definition userListOf (st : Users.state) :=
  (Users.users st, Users.totalCount st, Users.currentPage st,
   Users.searchTerm st, Users.selectedHospital st, Users.hospitals st).

End Frames.

(* ===================================================================== *)
(** * Facts about strings and patterns *)
(* ===================================================================== *)

Module JsFacts.
Import Js.

Lemma chars_of_chars l : chars (of_chars l) = l.
Proof. apply list_ascii_of_string_of_list_ascii. Qed.

(** ** Derivatives compute the language *)

Lemma nullable_lang r : nullable r = true <-> lang r [].
Proof.
  induction r as [| |p|r1 IH1 r2 IH2|r1 IH1 r2 IH2|r IH]; simpl.
  - split; [discriminate | tauto].
  - tauto.
  - split; [discriminate | intros (c & H & _); discriminate].
  - rewrite andb_true_iff, IH1, IH2. split.
    + intros [H1 H2]. exists [], []. auto.
    + intros (u & v & E & H1 & H2).
      symmetry in E. apply app_eq_nil in E as [-> ->]. auto.
  - rewrite orb_true_iff, IH1, IH2. tauto.
  - split; [intros _; constructor | reflexivity].
Qed.

Lemma deriv_lang c r l : lang (deriv c r) l <-> lang r (c :: l).
Proof.
  revert l.
  induction r as [| |p|r1 IH1 r2 IH2|r1 IH1 r2 IH2|r IH]; intros l; simpl.
  - tauto.
  - split; [tauto | discriminate].
  - destruct (p c) eqn:Hp; simpl.
    + split.
      * intros ->. exists c. auto.
      * intros (c' & E & _). injection E as _ E. exact E.
    + split; [tauto |].
      intros (c' & E & Hc). injection E as -> _. congruence.
  - assert (Hcat : lang (RSeq (deriv c r1) r2) l <->
                   exists u v, l = u ++ v /\ lang r1 (c :: u) /\ lang r2 v).
    { simpl. split; intros (u & v & E & H1 & H2); exists u, v;
        (split; [exact E | split; [apply IH1; exact H1 | exact H2]]). }
    destruct (nullable r1) eqn:Hn.
    + change (lang (RSeq (deriv c r1) r2) l \/ lang (deriv c r2) l <->
              exists u v, c :: l = u ++ v /\ lang r1 u /\ lang r2 v).
      rewrite Hcat, IH2. split.
      * intros [(u & v & -> & H1 & H2) | H2].
        -- exists (c :: u), v. auto.
        -- exists [], (c :: l). split; [reflexivity | split; [| exact H2]].
           apply nullable_lang. exact Hn.
      * intros (u & v & E & H1 & H2). destruct u as [|c' u]; simpl in E.
        -- right. rewrite E. exact H2.
        -- injection E as <- ->. left. exists u, v. auto.
    + rewrite Hcat. split.
      * intros (u & v & -> & H1 & H2). exists (c :: u), v. auto.
      * intros (u & v & E & H1 & H2). destruct u as [|c' u]; simpl in E.
        -- apply nullable_lang in H1. congruence.
        -- injection E as <- ->. exists u, v. auto.
  - rewrite IH1, IH2. tauto.
  - split.
    + intros (u & v & -> & H1 & H2). apply IH in H1.
      change (c :: u ++ v) with (c :: u ++ v). constructor; assumption.
    + intros H. inversion H as [|c' u v H1 H2 E]; subst.
      exists u, v. split; [reflexivity | split; [apply IH; exact H1 | exact H2]].
Qed.

Lemma matches_lang r l : matches r l = true <-> lang r l.
Proof.
  revert r. induction l as [|c l IH]; intros r; simpl.
  - apply nullable_lang.
  - rewrite IH. apply deriv_lang.
Qed.

(** ** The three patterns, in words *)

Lemma lang_exactly p n l :
  lang (RExactly n (RSet p)) l
  <-> length l = n /\ Forall (fun c => p c = true) l.
Proof.
  revert l. induction n as [|n IH]; intros l; simpl.
  - split.
    + intros ->. split; [reflexivity | constructor].
    + intros [H _]. destruct l; [reflexivity | discriminate].
  - split.
    + intros (u & v & -> & (c & -> & Hc) & Hv).
      apply IH in Hv as [Hlen Hall]. simpl. split; [congruence |].
      constructor; assumption.
    + intros [Hlen Hall]. destruct l as [|c l]; [discriminate |].
      inversion Hall as [|? ? Hc Hl]; subst.
      exists [c], l. split; [reflexivity |].
      split; [exists c; auto |]. apply IH. split; [| exact Hl].
      simpl in Hlen. congruence.
Qed.

Lemma lang_atmost p n l :
  lang (RAtMost n (RSet p)) l
  <-> (length l <= n)%nat /\ Forall (fun c => p c = true) l.
Proof.
  revert l. induction n as [|n IH]; intros l; simpl.
  - split.
    + intros ->. split; [reflexivity | constructor].
    + intros [H _]. destruct l; [reflexivity | simpl in H; lia].
  - split.
    + intros [-> | (u & v & -> & (c & -> & Hc) & Hv)].
      * split; [simpl; lia | constructor].
      * apply IH in Hv as [Hlen Hall]. simpl. split; [lia |].
        constructor; assumption.
    + intros [Hlen Hall]. destruct l as [|c l]; [left; reflexivity |].
      right. inversion Hall as [|? ? Hc Hl]; subst.
      exists [c], l. split; [reflexivity |].
      split; [exists c; auto |]. apply IH. split; [| exact Hl].
      simpl in Hlen. lia.
Qed.

Lemma lang_between p lo hi l :
  (lo <= hi)%nat ->
  lang (RBetween lo hi (RSet p)) l
  <-> (lo <= length l <= hi)%nat /\ Forall (fun c => p c = true) l.
Proof.
  intros Hle. unfold RBetween.
  change (lang (RSeq ?a ?b) l)
    with (exists u v, l = u ++ v /\ lang a u /\ lang b v).
  split.
  - intros (u & v & -> & Hu & Hv).
    apply lang_exactly in Hu as [Hlu Hau].
    apply lang_atmost in Hv as [Hlv Hav].
    rewrite length_app. split; [lia |].
    apply Forall_app. auto.
  - intros [Hlen Hall].
    exists (firstn lo l), (skipn lo l).
    split; [symmetry; apply firstn_skipn |].
    rewrite <- (firstn_skipn lo l) in Hall.
    apply Forall_app in Hall as [H1 H2].
    split.
    + apply lang_exactly. split; [| exact H1].
      rewrite length_firstn. lia.
    + apply lang_atmost. split; [| exact H2].
      rewrite length_skipn. lia.
Qed.

Lemma star_set p l :
  star (lang (RSet p)) l <-> Forall (fun c => p c = true) l.
Proof.
  split.
  - induction 1 as [|c u v (c' & E & Hc) _ IH]; [constructor |].
    injection E as -> ->. constructor; assumption.
  - induction 1 as [|c l Hc _ IH]; [constructor |].
    change (c :: l) with (c :: [] ++ l).
    constructor; [exists c; auto | exact IH].
Qed.

Lemma lang_plus p l :
  lang (RPlus (RSet p)) l <-> l <> [] /\ Forall (fun c => p c = true) l.
Proof.
  unfold RPlus.
  change (lang (RSeq ?a ?b) l)
    with (exists u v, l = u ++ v /\ lang a u /\ lang b v).
  split.
  - intros (u & v & -> & (c & -> & Hc) & Hv). apply star_set in Hv.
    split; [discriminate | constructor; assumption].
  - intros [Hne Hall]. destruct l as [|c l]; [congruence |].
    inversion Hall as [|? ? Hc Hl]; subst.
    exists [c], l. split; [reflexivity |].
    split; [exists c; auto | apply star_set; exact Hl].
Qed.

(** ** Character classes, in words *)

Lemma code_is c n : (n < 256)%nat -> code c = n <-> c = ascii_of_nat n.
Proof.
  intros Hn. unfold code. split.
  - intros <-. symmetry. apply ascii_nat_embedding.
  - intros ->. apply nat_ascii_embedding. exact Hn.
Qed.

Lemma is_char_eq a c : is_char a c = true <-> c = a.
Proof.
  unfold is_char, code. rewrite Nat.eqb_eq. split; [| congruence].
  intros H. rewrite <- (ascii_nat_embedding c), <- (ascii_nat_embedding a).
  congruence.
Qed.

Lemma is_separator_spec c : is_separator c = true <-> Spec.separator c.
Proof.
  unfold is_separator, Spec.separator.
  rewrite !orb_true_iff, !Nat.eqb_eq.
  rewrite (code_is c 45), (code_is c 40), (code_is c 41) by lia.
  tauto.
Qed.

Lemma not_space_at_spec c :
  not_space_at c = true <-> is_space c = false /\ c <> "@"%char.
Proof.
  unfold not_space_at.
  rewrite andb_true_iff, !negb_true_iff, Nat.eqb_neq.
  rewrite (code_is c 64) by lia. tauto.
Qed.

Lemma stripped_filter l r :
  Spec.stripped l r
  <-> r = List.filter (fun c => negb (is_separator c)) l.
Proof.
  split.
  - induction 1 as [|c l r Hc _ IH|c l r Hc _ IH]; simpl.
    + reflexivity.
    + apply is_separator_spec in Hc. rewrite Hc. exact IH.
    + destruct (is_separator c) eqn:E.
      * apply is_separator_spec in E. contradiction.
      * simpl. congruence.
  - intros ->. induction l as [|c l IH]; simpl; [constructor |].
    destruct (is_separator c) eqn:E; simpl.
    + apply Spec.stripped_drop; [apply is_separator_spec; exact E | exact IH].
    + apply Spec.stripped_keep; [| exact IH].
      rewrite <- is_separator_spec. congruence.
Qed.

(** ** The tests of the validators against the wording of the rules *)

Lemma test_pin_code s : test pin_code_re s = true <-> Spec.sixDigits s.
Proof.
  unfold test, pin_code_re, Spec.sixDigits.
  rewrite matches_lang. apply lang_exactly.
Qed.

Lemma test_phone s :
  test phone_re (strip_separators s) = true <-> Spec.phoneDigits s.
Proof.
  unfold test, phone_re, Spec.phoneDigits, strip_separators.
  rewrite matches_lang, chars_of_chars, lang_between by lia.
  split.
  - intros [Hlen Hall]. eexists. split; [apply stripped_filter; reflexivity |].
    split; assumption.
  - intros (digits & Hs & Hlen & Hall).
    apply stripped_filter in Hs. subst digits. split; assumption.
Qed.

Lemma addressPart_lang l :
  lang (RPlus (RSet not_space_at)) l <-> Spec.addressPart l.
Proof.
  rewrite lang_plus. unfold Spec.addressPart.
  rewrite !Forall_forall.
  split; intros [Hne Hall]; (split; [exact Hne |]); intros c Hc;
    apply not_space_at_spec; apply Hall; exact Hc.
Qed.

Lemma test_email s : test email_re s = true <-> Spec.emailShape s.
Proof.
  unfold test, email_re, Spec.emailShape.
  rewrite matches_lang.
  split.
  - intros (loc & r1 & E1 & Hloc & at_ & r2 & E2 & Hat & domain & r3 & E3
            & Hdom & dot & tld & E4 & Hdot & Htld).
    destruct Hat as (c1 & -> & Hc1). destruct Hdot as (c2 & -> & Hc2).
    apply is_char_eq in Hc1, Hc2. subst.
    exists loc, domain, tld. split; [exact E1 |].
    split; [| split]; apply addressPart_lang; assumption.
  - intros (loc & domain & tld & E & Hloc & Hdom & Htld).
    apply addressPart_lang in Hloc, Hdom, Htld.
    exists loc, ("@"%char :: domain ++ "."%char :: tld).
    split; [exact E |]. split; [exact Hloc |].
    exists ["@"%char], (domain ++ "."%char :: tld).
    split; [reflexivity |].
    split; [exists "@"%char; split; [reflexivity | apply is_char_eq; reflexivity] |].
    exists domain, ("."%char :: tld).
    split; [reflexivity |]. split; [exact Hdom |].
    exists ["."%char], tld. split; [reflexivity |].
    split; [exists "."%char; split; [reflexivity | apply is_char_eq; reflexivity] |].
    exact Htld.
Qed.

(** Stripping the separators twice is stripping them once. *)
Lemma strip_separators_idem s :
  strip_separators (strip_separators s) = strip_separators s.
Proof.
  unfold strip_separators. rewrite chars_of_chars.
  f_equal. induction (chars s) as [|c l IH]; simpl; [reflexivity |].
  destruct (is_separator c) eqn:E; simpl; [exact IH |].
  rewrite E. simpl. f_equal. exact IH.
Qed.

End JsFacts.

(* ===================================================================== *)
(** * The pagination window *)
(* ===================================================================== *)

Section PageWindow.
Import Pagination.

Lemma pageButtons_all totalPages currentPage :
  totalPages <= 5 ->
  pageButtons totalPages currentPage = pagesFrom 1 (Z.to_nat totalPages).
Proof.
  intros Hle. unfold pageButtons, pagesFrom.
  rewrite Z.min_l by exact Hle.
  apply map_ext. intros i. unfold pageNumber.
  destruct (Z.leb_spec totalPages 5); lia.
Qed.

Lemma pageButtons_window totalPages currentPage :
  5 < totalPages ->
  pageButtons totalPages currentPage
  = pagesFrom (if currentPage <=? 3 then 1
               else if currentPage >=? totalPages - 2 then totalPages - 4
               else currentPage - 2) 5.
Proof.
  intros Hlt. unfold pageButtons, pagesFrom.
  rewrite Z.min_r by lia.
  apply map_ext. intros i. unfold pageNumber.
  destruct (Z.leb_spec totalPages 5); [lia |].
  destruct (currentPage <=? 3); [lia |].
  destruct (currentPage >=? totalPages - 2); lia.
Qed.

(** The expression that lists the buttons follows the policy for every
    number of pages from one on. *)
Lemma pageButtons_policy totalPages currentPage :
  1 <= totalPages ->
  1 <= currentPage <= totalPages ->
  Spec.windowPolicy (pageButtons totalPages currentPage) totalPages currentPage.
Proof.
  intros Htotal Hcur. split; [| split].
  - unfold pageButtons. rewrite length_map, length_seq. lia.
  - apply pageButtons_all.
  - intros Hlt. rewrite pageButtons_window by exact Hlt. f_equal.
    destruct (Z.leb_spec currentPage 3); [lia |].
    destruct (Z.geb_spec currentPage (totalPages - 2)); lia.
Qed.

(** C2, as stated, fails for a single page: the control is under the
    guard [totalPages > 1] and shows no button at all, not the button of
    page 1. *)
Lemma single_page_shows_no_button :
  ~ Spec.windowPolicy (paginationControl 1 1) 1 1.
Proof.
  intros (_ & Hall & _). specialize (Hall ltac:(lia)). discriminate Hall.
Qed.

(** C2, amended.  With at least two pages and the current page among
    them, the control shows at most five numbered buttons: every page when
    there are at most five, otherwise five consecutive pages inside
    [1, totalPages] that start two before the current page, clamped to
    pages 1..5 near the start and to the last five near the end.  With
    twelve pages the windows for the current pages 1, 10 and 6 are 1..5,
    8..12 and 4..8.  With a single page the control is not shown. *)
Theorem page_window (totalPages currentPage : Z) :
  2 <= totalPages ->
  1 <= currentPage <= totalPages ->
  let buttons := paginationControl totalPages currentPage in
  Spec.windowPolicy buttons totalPages currentPage
  /\ (5 < totalPages ->
      let first := Z.max 1 (Z.min (currentPage - 2) (totalPages - 4)) in
      1 <= first /\ first + 4 <= totalPages
      /\ first <= currentPage <= first + 4
      /\ (currentPage <= 3 -> first = 1)
      /\ (totalPages - 2 <= currentPage -> first = totalPages - 4)
      /\ (3 < currentPage < totalPages - 2 -> first = currentPage - 2))
  /\ paginationControl 12 1 = [1; 2; 3; 4; 5]
  /\ paginationControl 12 10 = [8; 9; 10; 11; 12]
  /\ paginationControl 12 6 = [4; 5; 6; 7; 8]
  /\ paginationControl 1 1 = [].
Proof.
  intros Htotal Hcur buttons. subst buttons.
  split; [| split; [| repeat split; reflexivity]].
  - unfold paginationControl.
    destruct (Z.gtb_spec totalPages 1); [| lia].
    apply pageButtons_policy; lia.
  - intros Hlt first. subst first. lia.
Qed.

Lemma page_window_witness :
  paginationControl 12 6 = pagesFrom 4 5
  /\ paginationControl 4 2 = pagesFrom 1 4.
Proof.
  destruct (page_window 12 6 ltac:(lia) ltac:(lia)) as ((_ & _ & Hwin) & _).
  destruct (page_window 4 2 ltac:(lia) ltac:(lia)) as ((_ & Hall & _) & _).
  split; [exact (Hwin ltac:(lia)) | exact (Hall ltac:(lia))].
Defined.

End PageWindow.

(* ===================================================================== *)
(** * The validators *)
(* ===================================================================== *)

Module ValidationFacts.
Import Js Data JsFacts.

Lemma lookup_setIf_eq c k msg (e : errors) :
  setIf c k msg e !! k = if c then Some msg else e !! k.
Proof. destruct c; simpl; [apply lookup_insert_eq | reflexivity]. Qed.

Lemma lookup_setIf_ne c k k' msg (e : errors) :
  k <> k' -> setIf c k msg e !! k' = e !! k'.
Proof. intros H. destruct c; simpl; [apply lookup_insert_ne; exact H | reflexivity]. Qed.

Lemma prop_insert_eq (d : object) k v : prop (<[k := v]> d) k = v.
Proof. unfold prop. rewrite lookup_insert_eq. reflexivity. Qed.

Lemma prop_insert_ne (d : object) k k' v :
  k <> k' -> prop (<[k := v]> d) k' = prop d k'.
Proof. intros H. unfold prop. rewrite lookup_insert_ne by exact H. reflexivity. Qed.

(** Reading one key of an [errors] object built by a chain of [setIf]. *)
Ltac read_errors :=
  repeat first
    [ rewrite lookup_setIf_eq
    | rewrite lookup_setIf_ne by (discriminate || congruence) ];
  rewrite ?lookup_empty.

Lemma dateGe_outOfOrder a b : Hospital.dateGe a b = true <-> Spec.outOfOrder a b.
Proof.
  unfold Hospital.dateGe, Spec.outOfOrder. destruct a as [x|], b as [y|].
  - rewrite Z.leb_le. split.
    + intros H. exists x, y. repeat split; lia.
    + intros (x' & y' & E1 & E2 & H). injection E1 as <-. injection E2 as <-. lia.
  - split; [discriminate | intros (? & ? & _ & E & _); discriminate].
  - split; [discriminate | intros (? & ? & E & _); discriminate].
  - split; [discriminate | intros (? & ? & E & _); discriminate].
Qed.

(** A required field with a format: missing, or filled in and wrong. *)
Lemma required_format_flag (t ok : bool) (P : Prop) (m1 m2 : string) :
  (ok = true <-> P) ->
  is_Some (if t && negb ok then Some m2 else if negb t then Some m1 else None)
  <-> t = false \/ (t = true /\ ~ P).
Proof.
  intros H. destruct t, ok; simpl; rewrite ?is_Some_alt; intuition congruence.
Qed.

Lemma optional_format_flag (t ok : bool) (P : Prop) (m : string) :
  (ok = true <-> P) ->
  is_Some (if t && negb ok then Some m else None) <-> t = true /\ ~ P.
Proof.
  intros H. destruct t, ok; simpl; rewrite ?is_Some_alt; intuition congruence.
Qed.

Lemma required_flag (t : bool) (m : string) :
  is_Some (if negb t then Some m else None) <-> t = false.
Proof. destruct t; simpl; rewrite ?is_Some_alt; intuition congruence. Qed.

Section HospitalKeys.
Variable dateOf : string -> option Z.
Variable d : object.
Let e := Hospital.validationErrors dateOf d.

Lemma hospital_clinic_name :
  is_Some (e !! "clinic_name") <-> Spec.missing d "clinic_name".
Proof.
  subst e. unfold Hospital.validationErrors. read_errors.
  apply required_flag.
Qed.

Lemma hospital_address :
  is_Some (e !! "address") <-> Spec.missing d "address".
Proof.
  subst e. unfold Hospital.validationErrors. read_errors.
  apply required_flag.
Qed.

Lemma hospital_pin_code :
  is_Some (e !! "pin_code") <-> Spec.missingOr d "pin_code" Spec.sixDigits.
Proof.
  subst e. unfold Hospital.validationErrors. read_errors.
  rewrite required_format_flag by apply test_pin_code.
  unfold Spec.missingOr, Spec.missing, Spec.text.
  destruct (truthy (prop d "pin_code")); intuition congruence.
Qed.

Lemma hospital_phone_number :
  is_Some (e !! "phone_number")
  <-> Spec.filledBut d "phone_number" Spec.phoneDigits.
Proof.
  subst e. unfold Hospital.validationErrors. read_errors.
  apply optional_format_flag, test_phone.
Qed.

Lemma hospital_mobile_number :
  is_Some (e !! "mobile_number")
  <-> Spec.filledBut d "mobile_number" Spec.phoneDigits.
Proof.
  subst e. unfold Hospital.validationErrors. read_errors.
  apply optional_format_flag, test_phone.
Qed.

Lemma hospital_email :
  is_Some (e !! "email") <-> Spec.filledBut d "email" Spec.emailShape.
Proof.
  subst e. unfold Hospital.validationErrors. read_errors.
  apply optional_format_flag, test_email.
Qed.

Lemma hospital_working_hours_to :
  is_Some (e !! "working_hours_to")
  <-> Spec.present d "working_hours_from" /\ Spec.present d "working_hours_to"
      /\ Spec.outOfOrder (dateOf (Spec.text d "working_hours_from"))
                         (dateOf (Spec.text d "working_hours_to")).
Proof.
  subst e. unfold Hospital.validationErrors. read_errors.
  rewrite <- dateGe_outOfOrder. unfold Spec.present, Spec.text.
  destruct (truthy (prop d "working_hours_from")),
           (truthy (prop d "working_hours_to")),
           (Hospital.dateGe _ _);
    simpl; rewrite ?is_Some_alt; intuition congruence.
Qed.

Lemma hospital_other_key k :
  ~ In k ["clinic_name"; "address"; "pin_code"; "phone_number";
          "mobile_number"; "email"; "working_hours_to"] ->
  e !! k = None.
Proof.
  intros Hk. simpl in Hk.
  subst e. unfold Hospital.validationErrors.
  repeat rewrite lookup_setIf_ne by (intros E; apply Hk; rewrite <- E; auto 10).
  apply lookup_empty.
Qed.

End HospitalKeys.

Section UserKeys.
Variable d : object.
Let e := Users.validationErrors d.

Lemma user_first_name :
  is_Some (e !! "first_name") <-> Spec.missing d "first_name".
Proof.
  subst e. unfold Users.validationErrors. read_errors. apply required_flag.
Qed.

Lemma user_last_name :
  is_Some (e !! "last_name") <-> Spec.missing d "last_name".
Proof.
  subst e. unfold Users.validationErrors. read_errors. apply required_flag.
Qed.

Lemma user_hospital_id :
  is_Some (e !! "hospital_id") <-> Spec.missing d "hospital_id".
Proof.
  subst e. unfold Users.validationErrors. read_errors. apply required_flag.
Qed.

Lemma user_email_id :
  is_Some (e !! "email_id") <-> Spec.missingOr d "email_id" Spec.emailShape.
Proof.
  subst e. unfold Users.validationErrors. read_errors.
  rewrite required_format_flag by apply test_email.
  unfold Spec.missingOr, Spec.missing, Spec.text.
  destruct (truthy (prop d "email_id")); intuition congruence.
Qed.

Lemma user_phone_number :
  is_Some (e !! "phone_number")
  <-> Spec.filledBut d "phone_number" Spec.phoneDigits.
Proof.
  subst e. unfold Users.validationErrors. read_errors.
  apply optional_format_flag, test_phone.
Qed.

Lemma user_mobile_number :
  is_Some (e !! "mobile_number")
  <-> Spec.filledBut d "mobile_number" Spec.phoneDigits.
Proof.
  subst e. unfold Users.validationErrors. read_errors.
  apply optional_format_flag, test_phone.
Qed.

Lemma user_other_key k :
  ~ In k ["first_name"; "last_name"; "hospital_id"; "email_id";
          "phone_number"; "mobile_number"] ->
  e !! k = None.
Proof.
  intros Hk. simpl in Hk.
  subst e. unfold Users.validationErrors.
  repeat rewrite lookup_setIf_ne by (intros E; apply Hk; rewrite <- E; auto 10).
  apply lookup_empty.
Qed.

End UserKeys.

(** The keys of the hospital validator are the fields that break a rule. *)
Lemma hospital_flagged dateOf (d : object) k :
  is_Some (Hospital.validationErrors dateOf d !! k)
  <-> Spec.flagged (Spec.hospitalRules dateOf d) k.
Proof.
  split.
  - intros Hk.
    destruct (in_dec string_dec k
                ["clinic_name"; "address"; "pin_code"; "phone_number";
                 "mobile_number"; "email"; "working_hours_to"]) as [Hin | Hout].
    + simpl in Hin.
      destruct Hin as [<-|[<-|[<-|[<-|[<-|[<-|[<-|[]]]]]]]];
        eexists; (split; [simpl; eauto 10 |]).
      * apply hospital_clinic_name in Hk. exact Hk.
      * apply hospital_address in Hk. exact Hk.
      * apply hospital_pin_code in Hk. exact Hk.
      * apply hospital_phone_number in Hk. exact Hk.
      * apply hospital_mobile_number in Hk. exact Hk.
      * apply hospital_email in Hk. exact Hk.
      * apply hospital_working_hours_to in Hk. exact Hk.
    + rewrite hospital_other_key in Hk by exact Hout.
      destruct Hk; discriminate.
  - intros (P & Hin & HP). simpl in Hin.
    destruct Hin as [E|[E|[E|[E|[E|[E|[E|[]]]]]]]];
      injection E as <- <-.
    + apply hospital_clinic_name, HP.
    + apply hospital_address, HP.
    + apply hospital_pin_code, HP.
    + apply hospital_phone_number, HP.
    + apply hospital_mobile_number, HP.
    + apply hospital_email, HP.
    + apply hospital_working_hours_to, HP.
Qed.

(** The keys of the staff validator are the fields that break a rule. *)
Lemma user_flagged (d : object) k :
  is_Some (Users.validationErrors d !! k)
  <-> Spec.flagged (Spec.userRules d) k.
Proof.
  split.
  - intros Hk.
    destruct (in_dec string_dec k
                ["first_name"; "last_name"; "hospital_id"; "email_id";
                 "phone_number"; "mobile_number"]) as [Hin | Hout].
    + simpl in Hin.
      destruct Hin as [<-|[<-|[<-|[<-|[<-|[<-|[]]]]]]];
        eexists; (split; [simpl; eauto 10 |]).
      * apply user_first_name in Hk. exact Hk.
      * apply user_last_name in Hk. exact Hk.
      * apply user_hospital_id in Hk. exact Hk.
      * apply user_email_id in Hk. exact Hk.
      * apply user_phone_number in Hk. exact Hk.
      * apply user_mobile_number in Hk. exact Hk.
    + rewrite user_other_key in Hk by exact Hout.
      destruct Hk; discriminate.
  - intros (P & Hin & HP). simpl in Hin.
    destruct Hin as [E|[E|[E|[E|[E|[E|[]]]]]]];
      injection E as <- <-.
    + apply user_first_name, HP.
    + apply user_last_name, HP.
    + apply user_hospital_id, HP.
    + apply user_email_id, HP.
    + apply user_phone_number, HP.
    + apply user_mobile_number, HP.
Qed.

Lemma not_empty_flag (e : errors) : e <> ∅ <-> exists k, is_Some (e !! k).
Proof.
  split.
  - intros Hne. destruct (map_choose e Hne) as (k & msg & Hk).
    exists k. rewrite Hk. eauto.
  - intros (k & msg & Hk) ->. rewrite lookup_empty in Hk. discriminate.
Qed.

End ValidationFacts.

Section ValidatorClaims.
Import Js Data JsFacts ValidationFacts.

(** C3.  The keys of the mapping a validator returns are exactly the
    fields that are missing or invalid under the rules of the resource, so
    the mapping is not empty as soon as one field is; the pin code 123456
    gets no key, and 12345, 1234567 and 12a456 each get the pin code
    error. *)
Theorem validate_reports_exactly (dateOf : string -> option Z) (d : object) :
  (forall k, is_Some (Hospital.validationErrors dateOf d !! k)
             <-> Spec.flagged (Spec.hospitalRules dateOf d) k)
  /\ (forall k, is_Some (Users.validationErrors d !! k)
                <-> Spec.flagged (Spec.userRules d) k)
  /\ (Hospital.validationErrors dateOf d <> ∅
      <-> exists k, Spec.flagged (Spec.hospitalRules dateOf d) k)
  /\ (Users.validationErrors d <> ∅
      <-> exists k, Spec.flagged (Spec.userRules d) k)
  /\ Hospital.validationErrors dateOf (<["pin_code" := VStr "123456"]> d)
       !! "pin_code" = None
  /\ Hospital.validationErrors dateOf (<["pin_code" := VStr "12345"]> d)
       !! "pin_code" = Some "Pin Code must be a 6-digit number"
  /\ Hospital.validationErrors dateOf (<["pin_code" := VStr "1234567"]> d)
       !! "pin_code" = Some "Pin Code must be a 6-digit number"
  /\ Hospital.validationErrors dateOf (<["pin_code" := VStr "12a456"]> d)
       !! "pin_code" = Some "Pin Code must be a 6-digit number".
Proof.
  split; [intros k; apply hospital_flagged |].
  split; [intros k; apply user_flagged |].
  split.
  { rewrite not_empty_flag. split; intros [k Hk]; exists k;
      apply hospital_flagged; exact Hk. }
  split.
  { rewrite not_empty_flag. split; intros [k Hk]; exists k;
      apply user_flagged; exact Hk. }
  repeat split; unfold Hospital.validationErrors; read_errors;
    rewrite prop_insert_eq; reflexivity.
Qed.

(** C4, as stated, fails: a value made of separators only is reported,
    the same value stripped is empty and is not. *)
Lemma strip_changes_verdict :
  ~ Spec.stripInvariant (Hospital.validationErrors isoClockDate) "phone_number"
  /\ ~ Spec.stripInvariant Users.validationErrors "mobile_number".
Proof.
  split; intros H; specialize (H "-" ∅); vm_compute in H; discriminate H.
Qed.

(** C4, amended.  For a phone or mobile value that is empty or keeps at
    least one character once its separators are stripped, validating the
    draft with the stripped value gives the same mapping as validating it
    with the value itself. *)
Theorem strip_keeps_verdict (dateOf : string -> option Z) (s : string)
    (d : object) (k : string) :
  k = "phone_number" \/ k = "mobile_number" ->
  s = "" \/ strip_separators s <> "" ->
  Hospital.validationErrors dateOf (<[k := VStr (strip_separators s)]> d)
  = Hospital.validationErrors dateOf (<[k := VStr s]> d)
  /\ Users.validationErrors (<[k := VStr (strip_separators s)]> d)
     = Users.validationErrors (<[k := VStr s]> d).
Proof.
  intros Hk [-> | Hs]; [split; reflexivity |].
  assert (Hfull : nonempty (strip_separators s) = nonempty s).
  { destruct s as [|c s]; [reflexivity |].
    destruct (strip_separators (String c s)); [congruence | reflexivity]. }
  unfold Hospital.validationErrors, Users.validationErrors.
  destruct Hk as [-> | ->];
    rewrite ?prop_insert_eq; rewrite ?prop_insert_ne by discriminate;
    simpl truthy; simpl asString;
    rewrite strip_separators_idem, Hfull; split; reflexivity.
Qed.

Lemma strip_keeps_verdict_witness :
  Hospital.validationErrors isoClockDate
    (<["phone_number" := VStr (strip_separators "(044) 2345-6789")]> ∅)
  = Hospital.validationErrors isoClockDate
      (<["phone_number" := VStr "(044) 2345-6789"]> ∅).
Proof.
  apply (strip_keeps_verdict isoClockDate "(044) 2345-6789" ∅ "phone_number").
  - left. reflexivity.
  - right. vm_compute. discriminate.
Defined.

End ValidatorClaims.

Section WorkingHours.
Import Js Data JsFacts ValidationFacts.

(** [isoClockDate] reads every clock time of the day. *)
Lemma isoClockDate_readsClock : readsClock isoClockDate.
Proof.
  exists 0. intros h m Hh Hm.
  assert (Hall :
    forallb (fun h => forallb (fun m =>
      match isoClockDate (hhmm h m) with
      | Some t => t =? 0 + 60000 * minuteOfDay h m
      | None => false
      end) (seq 0 60)) (seq 0 24) = true) by (vm_compute; reflexivity).
  rewrite forallb_forall in Hall.
  specialize (Hall h). rewrite in_seq in Hall.
  specialize (Hall ltac:(lia)).
  rewrite forallb_forall in Hall.
  specialize (Hall m). rewrite in_seq in Hall.
  specialize (Hall ltac:(lia)).
  destruct (isoClockDate (hhmm h m)) as [t|]; [| discriminate].
  apply Z.eqb_eq in Hall. congruence.
Qed.

(** The working-hours key of a draft whose two bounds are clock times. *)
Lemma working_hours_to_clock dateOf (d : object) h1 m1 h2 m2 :
  readsClock dateOf ->
  (h1 < 24)%nat -> (m1 < 60)%nat -> (h2 < 24)%nat -> (m2 < 60)%nat ->
  prop d "working_hours_from" = VStr (hhmm h1 m1) ->
  prop d "working_hours_to" = VStr (hhmm h2 m2) ->
  Hospital.validationErrors dateOf d !! "working_hours_to"
  = if minuteOfDay h2 m2 <=? minuteOfDay h1 m1
    then Some "Working Hours To must be later than Working Hours From"
    else None.
Proof.
  intros [midnight Hclock] Hh1 Hm1 Hh2 Hm2 Hfrom Hto.
  unfold Hospital.validationErrors. read_errors.
  rewrite Hfrom, Hto. simpl asString.
  rewrite !Hclock by assumption.
  change (truthy (VStr (hhmm h1 m1))) with true.
  change (truthy (VStr (hhmm h2 m2))) with true.
  simpl.
  destruct (Z.leb_spec (minuteOfDay h2 m2) (minuteOfDay h1 m1));
    destruct (Z.leb_spec (midnight + 60000 * minuteOfDay h2 m2)
                (midnight + 60000 * minuteOfDay h1 m1));
    try reflexivity; lia.
Qed.

Lemma working_hours_from_free dateOf (d : object) :
  Hospital.validationErrors dateOf d !! "working_hours_from" = None.
Proof. apply hospital_other_key. simpl. intuition discriminate. Qed.

(** C5.  On a constructor that reads clock times, a draft whose two
    working-hours bounds are clock times gets the error on
    [working_hours_to] exactly when "from" is not strictly before "to",
    and never a key [working_hours_from]: 09:00 to 08:00 and 09:00 to 09:00
    are reported on [working_hours_to], 08:00 to 09:00 is not. *)
Theorem working_hours_order (dateOf : string -> option Z) :
  readsClock dateOf ->
  (forall (d : object) h1 m1 h2 m2,
     (h1 < 24)%nat -> (m1 < 60)%nat -> (h2 < 24)%nat -> (m2 < 60)%nat ->
     prop d "working_hours_from" = VStr (hhmm h1 m1) ->
     prop d "working_hours_to" = VStr (hhmm h2 m2) ->
     let e := Hospital.validationErrors dateOf d in
     e !! "working_hours_from" = None
     /\ (e !! "working_hours_to" = None
         <-> minuteOfDay h1 m1 < minuteOfDay h2 m2)
     /\ (e !! "working_hours_to"
         = Some "Working Hours To must be later than Working Hours From"
         <-> ~ minuteOfDay h1 m1 < minuteOfDay h2 m2))
  /\ (forall d : object,
        let validate from to :=
          Hospital.validationErrors dateOf
            (<["working_hours_to" := VStr to]>
               (<["working_hours_from" := VStr from]> d)) in
        validate "09:00" "08:00" !! "working_hours_to"
        = Some "Working Hours To must be later than Working Hours From"
        /\ validate "09:00" "08:00" !! "working_hours_from" = None
        /\ validate "09:00" "09:00" !! "working_hours_to"
           = Some "Working Hours To must be later than Working Hours From"
        /\ validate "09:00" "09:00" !! "working_hours_from" = None
        /\ validate "08:00" "09:00" !! "working_hours_to" = None
        /\ validate "08:00" "09:00" !! "working_hours_from" = None).
Proof.
  intros Hclock. split.
  - intros d h1 m1 h2 m2 Hh1 Hm1 Hh2 Hm2 Hfrom Hto e. subst e.
    split; [apply working_hours_from_free |].
    rewrite (working_hours_to_clock dateOf d h1 m1 h2 m2) by assumption.
    destruct (Z.leb_spec (minuteOfDay h2 m2) (minuteOfDay h1 m1));
      split; split; intros; try reflexivity; try discriminate; lia.
  - intros d validate. subst validate. cbv beta.
    assert (Hat : forall h1 h2,
      (h1 < 24)%nat -> (h2 < 24)%nat ->
      Hospital.validationErrors dateOf
        (<["working_hours_to" := VStr (hhmm h2 0)]>
           (<["working_hours_from" := VStr (hhmm h1 0)]> d))
        !! "working_hours_to"
      = if minuteOfDay h2 0 <=? minuteOfDay h1 0
        then Some "Working Hours To must be later than Working Hours From"
        else None).
    { intros h1 h2 Hh1 Hh2. apply working_hours_to_clock; try assumption; try lia.
      - rewrite prop_insert_ne by discriminate. apply prop_insert_eq.
      - apply prop_insert_eq. }
    repeat split; try apply working_hours_from_free.
    + apply (Hat 9%nat 8%nat); lia.
    + apply (Hat 9%nat 9%nat); lia.
    + apply (Hat 8%nat 9%nat); lia.
Qed.

Lemma working_hours_order_witness :
  Hospital.validationErrors isoClockDate
    (<["working_hours_to" := VStr "17:30"]>
       (<["working_hours_from" := VStr "08:15"]> ∅))
    !! "working_hours_to" = None.
Proof.
  destruct (working_hours_order isoClockDate isoClockDate_readsClock)
    as [Hrule _].
  apply (Hrule
           (<["working_hours_to" := VStr "17:30"]>
              (<["working_hours_from" := VStr "08:15"]> ∅))
           8%nat 15%nat 17%nat 30%nat);
    try lia; reflexivity.
Defined.

End WorkingHours.

(* ===================================================================== *)
(** * The form controller *)
(* ===================================================================== *)

Section FormController.
Import Data ValidationFacts.

Lemma hasError_cleared (v : errors) name : hasError (<[name := ""]> v) name = false.
Proof. unfold hasError. rewrite lookup_insert_eq. reflexivity. Qed.

(** [handleInputChange] of the hospital screen: the edited field loses its
    error, every other entry of the mapping and of the draft stays, and so
    does the rest of the state. *)
Lemma hospital_input_change_frame name value (st : Hospital.state) :
  let st' := Hospital.handleInputChange name value st in
  hasError (Hospital.validation st') name = false
  /\ Hospital.formData st' !! name = Some (VStr value)
  /\ (forall k, k <> name ->
        Hospital.validation st' !! k = Hospital.validation st !! k
        /\ Hospital.formData st' !! k = Hospital.formData st !! k)
  /\ Hospital.setValidation (Hospital.validation st)
       (Hospital.setFormData (Hospital.formData st) st') = st.
Proof.
  unfold Hospital.handleInputChange. simpl.
  destruct (hasError (Hospital.validation st) name) eqn:E; simpl.
  - split; [apply hasError_cleared |].
    split; [apply lookup_insert_eq |].
    split; [| destruct st; reflexivity].
    intros k Hk. rewrite !lookup_insert_ne by congruence. auto.
  - split; [exact E |].
    split; [apply lookup_insert_eq |].
    split; [| destruct st; reflexivity].
    intros k Hk. rewrite !lookup_insert_ne by congruence. auto.
Qed.

(** The same for [handleInputChange] of the staff screen. *)
Lemma user_input_change_frame name value (st : Users.state) :
  let st' := Users.handleInputChange name value st in
  hasError (Users.validation st') name = false
  /\ Users.formData st' !! name = Some (VStr value)
  /\ (forall k, k <> name ->
        Users.validation st' !! k = Users.validation st !! k
        /\ Users.formData st' !! k = Users.formData st !! k)
  /\ Users.setValidation (Users.validation st)
       (Users.setFormData (Users.formData st) st') = st.
Proof.
  unfold Users.handleInputChange. simpl.
  destruct (hasError (Users.validation st) name) eqn:E; simpl.
  - split; [apply hasError_cleared |].
    split; [apply lookup_insert_eq |].
    split; [| destruct st; reflexivity].
    intros k Hk. rewrite !lookup_insert_ne by congruence. auto.
  - split; [exact E |].
    split; [apply lookup_insert_eq |].
    split; [| destruct st; reflexivity].
    intros k Hk. rewrite !lookup_insert_ne by congruence. auto.
Qed.

(** The select and checkbox handlers of the staff screen set the draft
    and nothing else: after a submit of the empty draft, choosing a
    hospital leaves "Hospital is required" in place. *)
Lemma select_change_keeps_error :
  (forall name value st,
     Users.validation (Users.handleSelectChange name value st)
     = Users.validation st)
  /\ (forall name checked st,
        Users.validation (Users.handleCheckboxChange name checked st)
        = Users.validation st)
  /\ (let st := fst (Users.validateForm Users.initialState) in
      Users.validation st !! "hospital_id" = Some "Hospital is required"
      /\ hasError
           (Users.validation (Users.handleSelectChange "hospital_id" "h1" st))
           "hospital_id" = true).
Proof.
  split; [reflexivity |]. split; [reflexivity |].
  vm_compute. repeat split; reflexivity.
Qed.

(** Picking the opening time touches one entry of the mapping, the one of
    [working_hours_to], which it clears. *)
Lemma pick_from_effect t (st : Hospital.state) :
  let st' := Hospital.pickWorkingHoursFrom t st in
  Hospital.formData st' = <["working_hours_from" := VStr t]> (Hospital.formData st)
  /\ hasError (Hospital.validation st') "working_hours_to" = false
  /\ (forall k, k <> "working_hours_to" ->
        Hospital.validation st' !! k = Hospital.validation st !! k).
Proof.
  unfold Hospital.pickWorkingHoursFrom.
  destruct (hasError (Hospital.validation st) "working_hours_to") eqn:E; simpl.
  - split; [reflexivity |]. split; [apply hasError_cleared |].
    intros k Hk. apply lookup_insert_ne. congruence.
  - split; [reflexivity |]. split; [exact E | reflexivity].
Qed.

(** Picking the closing time compares it with the opening time when there
    is one, and sets or clears the entry of [working_hours_to] by the
    outcome. *)
Lemma pick_to_effect dateOf t (st : Hospital.state) :
  let st' := Hospital.pickWorkingHoursTo dateOf t st in
  let from := prop (Hospital.formData st) "working_hours_from" in
  Hospital.formData st' = <["working_hours_to" := VStr t]> (Hospital.formData st)
  /\ (forall k, k <> "working_hours_to" ->
        Hospital.validation st' !! k = Hospital.validation st !! k)
  /\ (if truthy from && Js.nonempty t
      then hasError (Hospital.validation st') "working_hours_to"
           = Hospital.dateGe (dateOf (asString from)) (dateOf t)
      else Hospital.validation st' = Hospital.validation st).
Proof.
  unfold Hospital.pickWorkingHoursTo.
  destruct (truthy (prop (Hospital.formData st) "working_hours_from")
            && Js.nonempty t); simpl; [| auto].
  destruct (Hospital.dateGe _ _); simpl.
  - split; [reflexivity |]. split.
    + intros k Hk. apply lookup_insert_ne. congruence.
    + unfold hasError. rewrite lookup_insert_eq. reflexivity.
  - split; [reflexivity |]. split.
    + intros k Hk. apply lookup_insert_ne. congruence.
    + apply hasError_cleared.
Qed.

(** C6, as stated, fails on the working-hours pickers of the hospital
    form: with 09:00 to 09:00 reported, picking the closing time 08:00
    leaves the error of that field in place, and picking another opening
    time rewrites the entry of the other field.  It fails as well on the
    hospital select of the staff form, which keeps its error. *)
Lemma picker_does_not_clear_own_error :
  ~ Spec.clearsOwnError Hospital.validation Hospital.formData
      (Hospital.pickWorkingHoursTo Js.isoClockDate "08:00")
      "working_hours_to" Examples.closesAtNine
  /\ ~ Spec.clearsOwnError Hospital.validation Hospital.formData
         (Hospital.pickWorkingHoursFrom "10:00")
         "working_hours_from" Examples.closesAtNine
  /\ ~ Spec.clearsOwnError Users.validation Users.formData
         (Users.handleSelectChange "hospital_id" "h1")
         "hospital_id" (fst (Users.validateForm Users.initialState)).
Proof.
  split; [| split].
  - intros [H _]. vm_compute in H. discriminate H.
  - intros [_ H]. destruct (H "working_hours_to") as [H' _]; [discriminate |].
    vm_compute in H'. discriminate H'.
  - intros [H _]. vm_compute in H. discriminate H.
Qed.

(** C6, amended.  A field edited through [handleInputChange], on either
    screen, takes the value, loses its validation error, and every other
    entry of the mapping, every other field of the draft and the rest of
    the state stay as they were.  On the hospital form the pickers of the
    working hours act on the entry of [working_hours_to] and on no other:
    picking the opening time clears it; picking the closing time, when an
    opening time is there, sets it if the opening time is not before the
    closing time and clears it otherwise. *)
Theorem input_change_clears_own_error :
  (forall name value (st : Hospital.state),
     let st' := Hospital.handleInputChange name value st in
     Spec.clearsOwnError Hospital.validation Hospital.formData
       (Hospital.handleInputChange name value) name st
     /\ Hospital.formData st' !! name = Some (VStr value)
     /\ Hospital.setValidation (Hospital.validation st)
          (Hospital.setFormData (Hospital.formData st) st') = st)
  /\ (forall name value (st : Users.state),
        let st' := Users.handleInputChange name value st in
        Spec.clearsOwnError Users.validation Users.formData
          (Users.handleInputChange name value) name st
        /\ Users.formData st' !! name = Some (VStr value)
        /\ Users.setValidation (Users.validation st)
             (Users.setFormData (Users.formData st) st') = st)
  /\ (forall t (st : Hospital.state),
        let st' := Hospital.pickWorkingHoursFrom t st in
        Hospital.formData st'
        = <["working_hours_from" := VStr t]> (Hospital.formData st)
        /\ hasError (Hospital.validation st') "working_hours_to" = false
        /\ (forall k, k <> "working_hours_to" ->
              Hospital.validation st' !! k = Hospital.validation st !! k))
  /\ (forall dateOf t (st : Hospital.state),
        let st' := Hospital.pickWorkingHoursTo dateOf t st in
        let from := prop (Hospital.formData st) "working_hours_from" in
        Hospital.formData st'
        = <["working_hours_to" := VStr t]> (Hospital.formData st)
        /\ (forall k, k <> "working_hours_to" ->
              Hospital.validation st' !! k = Hospital.validation st !! k)
        /\ (if truthy from && Js.nonempty t
            then hasError (Hospital.validation st') "working_hours_to"
                 = Hospital.dateGe (dateOf (asString from)) (dateOf t)
            else Hospital.validation st' = Hospital.validation st)).
Proof.
  split; [| split; [| split]].
  - intros name value st st'.
    destruct (hospital_input_change_frame name value st) as (H1 & H2 & H3 & H4).
    split; [split; assumption |]. split; assumption.
  - intros name value st st'.
    destruct (user_input_change_frame name value st) as (H1 & H2 & H3 & H4).
    split; [split; assumption |]. split; assumption.
  - intros t st. apply pick_from_effect.
  - intros dateOf t st. apply pick_to_effect.
Qed.

End FormController.

Section SubmitAndClose.
Import Data ValidationFacts.

Lemma hospital_submit_invalid dateOf net today (st : Hospital.state) :
  Hospital.validationErrors dateOf (Hospital.formData st) <> ∅ ->
  Hospital.handleSubmit dateOf net today st
  = (Hospital.setValidation
       (Hospital.validationErrors dateOf (Hospital.formData st)) st, []).
Proof.
  intros Hbad. unfold Hospital.handleSubmit, Hospital.validateForm.
  rewrite bool_decide_eq_false_2 by exact Hbad. reflexivity.
Qed.

Lemma user_submit_invalid net (st : Users.state) :
  Users.validationErrors (Users.formData st) <> ∅ ->
  Users.handleSubmit net st
  = (Users.setValidation (Users.validationErrors (Users.formData st)) st, []).
Proof.
  intros Hbad. unfold Users.handleSubmit, Users.validateForm.
  rewrite bool_decide_eq_false_2 by exact Hbad. reflexivity.
Qed.

(** A valid hospital draft: the save call goes out first. *)
Lemma hospital_submit_valid dateOf net today (st : Hospital.state) :
  Hospital.validationErrors dateOf (Hospital.formData st) = ∅ ->
  exists more,
    snd (Hospital.handleSubmit dateOf net today st)
    = Hospital.saveRequest st :: more.
Proof.
  intros Hok. unfold Hospital.handleSubmit, Hospital.validateForm.
  rewrite bool_decide_eq_true_2 by exact Hok. simpl.
  destruct (net (Hospital.saveRequest st)) as [status data|]; [| eauto].
  destruct (isSuccess status); simpl; eauto.
Qed.

Lemma user_submit_valid net (st : Users.state) :
  Users.validationErrors (Users.formData st) = ∅ ->
  exists more,
    snd (Users.handleSubmit net st) = Users.saveRequest st :: more.
Proof.
  intros Hok. unfold Users.handleSubmit, Users.validateForm.
  rewrite bool_decide_eq_true_2 by exact Hok. simpl.
  destruct (net (Users.saveRequest st)) as [status data|]; [| eauto].
  destruct (isSuccess status); simpl; eauto.
Qed.

Lemma hospital_submit_closes dateOf net today (st : Hospital.state) status data :
  Hospital.validationErrors dateOf (Hospital.formData st) = ∅ ->
  net (Hospital.saveRequest st) = Resolved status data ->
  let st' := fst (Hospital.handleSubmit dateOf net today st) in
  Spec.hospitalFormReset today st' /\ Hospital.isModalOpen st' = false.
Proof.
  intros Hok Hnet. unfold Hospital.handleSubmit, Hospital.validateForm.
  rewrite bool_decide_eq_true_2 by exact Hok. simpl. rewrite Hnet.
  destruct (isSuccess status); simpl; repeat split; reflexivity.
Qed.

Lemma user_submit_closes net (st : Users.state) status data :
  Users.validationErrors (Users.formData st) = ∅ ->
  net (Users.saveRequest st) = Resolved status data ->
  let st' := fst (Users.handleSubmit net st) in
  Spec.userFormReset st' /\ Users.isModalOpen st' = false.
Proof.
  intros Hok Hnet. unfold Users.handleSubmit, Users.validateForm.
  rewrite bool_decide_eq_true_2 by exact Hok. simpl. rewrite Hnet.
  destruct (isSuccess status); simpl; repeat split; reflexivity.
Qed.

End SubmitAndClose.

Section FormClaims.
Import Data ValidationFacts.

(** C7.  Closing the modal, by the cancel button or at the end of a
    submit the server accepted, leaves the initial draft (with today's
    date as registration date), no entity being edited and an empty
    validation mapping, and the modal closed; the "create" button that
    follows opens the form on exactly that. *)
Theorem close_modal_resets :
  (forall today st,
     let st' := Hospital.handleCloseModal today st in
     Spec.hospitalFormReset today st'
     /\ Hospital.isModalOpen st' = false
     /\ Hospital.formData st' !! "registration_date" = Some (VStr today)
     /\ Spec.hospitalFormReset today (Hospital.openCreate st'))
  /\ (forall st,
        let st' := Users.handleCloseModal st in
        Spec.userFormReset st'
        /\ Users.isModalOpen st' = false
        /\ Spec.userFormReset (Users.openCreate st'))
  /\ (forall dateOf net today st status data,
        Hospital.validationErrors dateOf (Hospital.formData st) = ∅ ->
        net (Hospital.saveRequest st) = Resolved status data ->
        let st' := fst (Hospital.handleSubmit dateOf net today st) in
        Spec.hospitalFormReset today st'
        /\ Hospital.isModalOpen st' = false
        /\ Spec.hospitalFormReset today (Hospital.openCreate st'))
  /\ (forall net st status data,
        Users.validationErrors (Users.formData st) = ∅ ->
        net (Users.saveRequest st) = Resolved status data ->
        let st' := fst (Users.handleSubmit net st) in
        Spec.userFormReset st'
        /\ Users.isModalOpen st' = false
        /\ Spec.userFormReset (Users.openCreate st')).
Proof.
  split; [| split; [| split]].
  - intros today st st'. subst st'. repeat split; reflexivity.
  - intros st st'. subst st'. repeat split; reflexivity.
  - intros dateOf net today st status data Hok Hnet st'.
    destruct (hospital_submit_closes dateOf net today st status data Hok Hnet)
      as [Hreset Hclosed].
    fold st' in Hreset, Hclosed.
    split; [exact Hreset |]. split; [exact Hclosed |].
    destruct Hreset as (Hd & He & Hv). repeat split; assumption.
  - intros net st status data Hok Hnet st'.
    destruct (user_submit_closes net st status data Hok Hnet)
      as [Hreset Hclosed].
    fold st' in Hreset, Hclosed.
    split; [exact Hreset |]. split; [exact Hclosed |].
    destruct Hreset as (Hd & He & Hv). repeat split; assumption.
Qed.

Lemma close_modal_resets_witness :
  Spec.hospitalFormReset Examples.today
    (fst (Hospital.handleSubmit Js.isoClockDate Examples.accepting
            Examples.today Examples.hospitalDraft))
  /\ Spec.userFormReset
       (fst (Users.handleSubmit Examples.accepting Examples.userDraft)).
Proof.
  destruct close_modal_resets as (_ & _ & Hhospital & Huser).
  split.
  - apply (Hhospital Js.isoClockDate Examples.accepting Examples.today
             Examples.hospitalDraft 201
             (Listing (Some []) (Some 0) (Some 1)));
      vm_compute; reflexivity.
  - apply (Huser Examples.accepting Examples.userDraft 201
             (Listing (Some []) (Some 0) (Some 1)));
      vm_compute; reflexivity.
Defined.

(** C8.  A draft on which the validator returns a mapping that is not
    empty makes [handleSubmit] issue no call at all and change nothing but
    the validation mapping, which becomes that mapping: the list, the
    entity being edited and the loading and error flags stay.  A call is
    issued only for a draft on which the validator returns the empty
    mapping, and then the first call is the create or update call. *)
Theorem invalid_draft_blocks_submit :
  (forall dateOf net today (st : Hospital.state),
     let e := Hospital.validationErrors dateOf (Hospital.formData st) in
     let out := Hospital.handleSubmit dateOf net today st in
     (e <> ∅ -> snd out = [] /\ fst out = Hospital.setValidation e st)
     /\ (snd out <> [] -> e = ∅)
     /\ (e = ∅ -> exists more, snd out = Hospital.saveRequest st :: more))
  /\ (forall net (st : Users.state),
        let e := Users.validationErrors (Users.formData st) in
        let out := Users.handleSubmit net st in
        (e <> ∅ -> snd out = [] /\ fst out = Users.setValidation e st)
        /\ (snd out <> [] -> e = ∅)
        /\ (e = ∅ -> exists more, snd out = Users.saveRequest st :: more)).
Proof.
  split.
  - intros dateOf net today st e out. subst e out.
    split; [| split].
    + intros Hbad. rewrite hospital_submit_invalid by exact Hbad. auto.
    + intros Hsent.
      destruct (decide (Hospital.validationErrors dateOf (Hospital.formData st) = ∅))
        as [Hok | Hbad]; [exact Hok |].
      rewrite hospital_submit_invalid in Hsent by exact Hbad.
      contradiction.
    + apply hospital_submit_valid.
  - intros net st e out. subst e out.
    split; [| split].
    + intros Hbad. rewrite user_submit_invalid by exact Hbad. auto.
    + intros Hsent.
      destruct (decide (Users.validationErrors (Users.formData st) = ∅))
        as [Hok | Hbad]; [exact Hok |].
      rewrite user_submit_invalid in Hsent by exact Hbad.
      contradiction.
    + apply user_submit_valid.
Qed.

Lemma invalid_draft_blocks_submit_witness :
  snd (Hospital.handleSubmit Js.isoClockDate Examples.accepting Examples.today
         (Hospital.handleInputChange "pin_code" "12a456" Examples.hospitalDraft))
  = []
  /\ snd (Users.handleSubmit Examples.accepting Users.initialState) = [].
Proof.
  destruct invalid_draft_blocks_submit as (Hhospital & Huser).
  split.
  - apply (Hhospital Js.isoClockDate Examples.accepting Examples.today
             (Hospital.handleInputChange "pin_code" "12a456"
                Examples.hospitalDraft)).
    vm_compute. discriminate.
  - apply (Huser Examples.accepting Users.initialState).
    vm_compute. discriminate.
Defined.

(** C10.  On the hospital screen the body of the create and of the update
    call has no key [registration_id], whatever the draft, and the edit
    form opens with [registration_id] set to the empty string, whatever
    the hospital holds there: no call of [handleSubmit] writes that
    field. *)
Theorem registration_id_not_written :
  (forall d : object, Hospital.hospitalData d !! "registration_id" = None)
  /\ (forall st : Hospital.state,
        r_body (Hospital.saveRequest st)
        = Some (Hospital.hospitalData (Hospital.formData st))
        /\ match Hospital.editingHospital st with
           | Some h =>
               r_method (Hospital.saveRequest st) = PUT
               /\ r_url (Hospital.saveRequest st) = "/hospital/" +:+ fieldText h "id"
           | None =>
               r_method (Hospital.saveRequest st) = POST
               /\ r_url (Hospital.saveRequest st) = "/hospital"
           end)
  /\ (forall (h : hospital) (st : Hospital.state),
        Hospital.formData (Hospital.handleEdit h st) !! "registration_id"
        = Some (VStr "")
        /\ Hospital.editingHospital (Hospital.handleEdit h st) = Some h)
  /\ (forall dateOf net today st,
        Forall (fun rq =>
                  match r_body rq with
                  | Some body => body !! "registration_id" = None
                  | None => True
                  end)
          (snd (Hospital.handleSubmit dateOf net today st))).
Proof.
  assert (Hdata : forall d : object,
            Hospital.hospitalData d !! "registration_id" = None).
  { intros d. unfold Hospital.hospitalData. reflexivity. }
  split; [exact Hdata |]. split; [| split].
  - intros st. unfold Hospital.saveRequest.
    destruct (Hospital.editingHospital st); simpl; auto.
  - intros h st. split; reflexivity.
  - intros dateOf net today st.
    unfold Hospital.handleSubmit, Hospital.validateForm.
    destruct (bool_decide _); simpl; [| constructor].
    assert (Hsave : match r_body (Hospital.saveRequest st) with
                    | Some body => body !! "registration_id" = None
                    | None => True
                    end).
    { unfold Hospital.saveRequest.
      destruct (Hospital.editingHospital st); simpl; apply Hdata. }
    destruct (net (Hospital.saveRequest st)) as [status data|].
    + destruct (isSuccess status); simpl.
      * constructor; [exact Hsave |]. constructor; [exact I | constructor].
      * constructor; [exact Hsave | constructor].
    + simpl. constructor; [exact Hsave | constructor].
Qed.

End FormClaims.

(* ===================================================================== *)
(** * The event loop: debounce and pending responses *)
(* ===================================================================== *)

Module RuntimeFacts.
Import Data Runtime.

Section Loop.
Variable S : screen.

Lemma filter_none {A} (f : A -> bool) (l : list A) :
  (forall x, In x l -> f x = false) -> List.filter f l = [].
Proof.
  induction l as [|x l IH]; intros H; simpl; [reflexivity |].
  rewrite (H x) by (left; reflexivity).
  apply IH. intros y Hy. apply H. right. exact Hy.
Qed.

(** ** Every timer still set is the one the cleanup holds *)

Lemma settled_cleanup (w : world S) : settled S w -> timers S (runCleanup S w) = [].
Proof.
  intros Hs. unfold runCleanup. destruct (armed S w) as [id|] eqn:E; simpl.
  - apply filter_none. intros tm Hin.
    specialize (Hs tm Hin). rewrite E in Hs. injection Hs as ->.
    rewrite Nat.eqb_refl. reflexivity.
  - destruct (timers S w) as [|tm ts] eqn:Et; [reflexivity |].
    specialize (Hs tm). rewrite Et, E in Hs.
    specialize (Hs (or_introl eq_refl)). discriminate.
Qed.

Lemma settled_mount t0 init : settled S (mount S t0 init).
Proof.
  intros tm [<- | []]. reflexivity.
Qed.

Lemma startFetch_timers page q (w : world S) :
  timers S (startFetch S page q w) = timers S w
  /\ armed S (startFetch S page q w) = armed S w.
Proof.
  unfold startFetch. destruct (fetchBegin S page q (view S w)). auto.
Qed.

Lemma fold_fire_timers (due : list (timer S)) (w : world S) :
  timers S (fold_left (fire S) due w) = timers S w
  /\ armed S (fold_left (fire S) due w) = armed S w.
Proof.
  revert w. induction due as [|tm due IH]; intros w; simpl; [auto |].
  destruct (IH (fire S w tm)) as [-> ->]. apply startFetch_timers.
Qed.

Lemma settled_step e (w : world S) : settled S w -> settled S (step S e w).
Proof.
  intros Hs. destruct e as [f | page | t | id r]; simpl.
  - unfold afterRender. simpl.
    destruct (decide (queryOf S (f (view S w)) = queryOf S (view S w))).
    + exact Hs.
    + set (w' := World S (now S w) (f (view S w)) (timers S w) (armed S w)
                   (nextTimer S w) (inflight S w) (nextCall S w) (sent S w)).
      assert (Hs' : settled S w') by exact Hs.
      intros tm Hin. unfold runEffect in *. simpl in *.
      rewrite (settled_cleanup w' Hs') in Hin.
      destruct Hin as [<- | []]. reflexivity.
  - intros tm. destruct (startFetch_timers page (queryOf S (view S w)) w)
      as [-> ->]. apply Hs.
  - unfold elapse. intros tm.
    destruct (fold_fire_timers (List.filter (isDue S t) (timers S w))
                (World S (Z.max (now S w) t) (view S w)
                   (List.filter (fun tm => negb (isDue S t tm)) (timers S w))
                   (armed S w) (nextTimer S w) (inflight S w) (nextCall S w)
                   (sent S w))) as [-> ->].
    simpl. intros Hin. apply filter_In in Hin as [Hin _]. apply Hs, Hin.
  - unfold answer. destruct (pending S w id); [| exact Hs].
    exact Hs.
Qed.

Lemma reachable_settled init (w : world S) : reachable S init w -> settled S w.
Proof.
  induction 1 as [t0 | e w _ IH]; [apply settled_mount | apply settled_step, IH].
Qed.

(** ** One burst of two changes of the query *)

(** A change of the query on a settled world: the timer that was set is
    cleared, one timer is set for the new query. *)
Lemma act_changes_query (f : ui S -> ui S) (w : world S) :
  settled S w ->
  queryOf S (f (view S w)) <> queryOf S (view S w) ->
  step S (Act f) w
  = World S (now S w) (f (view S w))
      [Timer (nextTimer S w) (now S w + debounceMs S) (queryOf S (f (view S w)))]
      (Some (nextTimer S w)) (Datatypes.S (nextTimer S w))
      (inflight S w) (nextCall S w) (sent S w).
Proof.
  intros Hs Hq. simpl. unfold afterRender. simpl.
  destruct (decide (queryOf S (f (view S w)) = queryOf S (view S w)));
    [contradiction |].
  set (w' := World S (now S w) (f (view S w)) (timers S w) (armed S w)
               (nextTimer S w) (inflight S w) (nextCall S w) (sent S w)).
  assert (Hs' : settled S w') by exact Hs.
  unfold runEffect. rewrite (settled_cleanup w' Hs').
  unfold runCleanup. subst w'. simpl.
  destruct (armed S w); reflexivity.
Qed.

(** Before its timer is due nothing fires. *)
Lemma elapse_early t tm (w : world S) :
  timers S w = [tm] -> t < t_due S tm ->
  elapse S t w
  = World S (Z.max (now S w) t) (view S w) [tm] (armed S w) (nextTimer S w)
      (inflight S w) (nextCall S w) (sent S w).
Proof.
  intros Ht Hlt. unfold elapse. rewrite Ht. simpl. unfold isDue.
  destruct (Z.leb_spec (t_due S tm) t); [lia |]. reflexivity.
Qed.

(** Once its timer is due it fires, once. *)
Lemma elapse_due t tm (w : world S) :
  timers S w = [tm] -> t_due S tm <= t ->
  elapse S t w
  = startFetch S (debouncePage S) (t_query S tm)
      (World S (Z.max (now S w) t) (view S w) [] (armed S w) (nextTimer S w)
         (inflight S w) (nextCall S w) (sent S w)).
Proof.
  intros Ht Hle. unfold elapse. rewrite Ht. simpl. unfold isDue.
  destruct (Z.leb_spec (t_due S tm) t); [| lia]. reflexivity.
Qed.

Lemma sent_startFetch page q (w : world S) :
  sent S (startFetch S page q w)
  = sent S w ++ [snd (fetchBegin S page q (view S w))]
  /\ timers S (startFetch S page q w) = timers S w.
Proof.
  unfold startFetch. destruct (fetchBegin S page q (view S w)). auto.
Qed.

(** Two changes of the query less than the delay apart, then quiet: the
    first timer is cleared before it is due, and the one fetch that goes
    out is the second timer's, for the second query. *)
Lemma debounce_burst (f1 f2 : ui S -> ui S) (b t : Z) (w : world S) :
  settled S w ->
  queryOf S (f1 (view S w)) <> queryOf S (view S w) ->
  queryOf S (f2 (f1 (view S w))) <> queryOf S (f1 (view S w)) ->
  now S w <= b < now S w + debounceMs S ->
  b + debounceMs S <= t ->
  let w2 := run S [Act f1; Elapse b] w in
  let w3 := step S (Act f2) w2 in
  let w4 := step S (Elapse t) w3 in
  sent S w3 = sent S w
  /\ timers S w3
     = [Timer (Datatypes.S (nextTimer S w)) (b + debounceMs S)
          (queryOf S (f2 (f1 (view S w))))]
  /\ sent S w4
     = sent S w
       ++ [snd (fetchBegin S (debouncePage S) (queryOf S (f2 (f1 (view S w))))
                  (f2 (f1 (view S w))))]
  /\ timers S w4 = [].
Proof.
  intros Hs Hq1 Hq2 Hb Ht w2 w3 w4.
  assert (E2 : w2 = World S b (f1 (view S w))
                 [Timer (nextTimer S w) (now S w + debounceMs S)
                    (queryOf S (f1 (view S w)))]
                 (Some (nextTimer S w)) (Datatypes.S (nextTimer S w))
                 (inflight S w) (nextCall S w) (sent S w)).
  { subst w2.
    change (run S [Act f1; Elapse b] w)
      with (elapse S b (step S (Act f1) w)).
    rewrite (act_changes_query f1 w Hs Hq1).
    erewrite elapse_early; [| reflexivity | simpl; lia].
    simpl. f_equal. lia. }
  assert (Hs2 : settled S w2).
  { rewrite E2. intros tm [<- | []]. reflexivity. }
  assert (E3 : w3 = World S b (f2 (f1 (view S w)))
                 [Timer (Datatypes.S (nextTimer S w)) (b + debounceMs S)
                    (queryOf S (f2 (f1 (view S w))))]
                 (Some (Datatypes.S (nextTimer S w)))
                 (Datatypes.S (Datatypes.S (nextTimer S w)))
                 (inflight S w) (nextCall S w) (sent S w)).
  { subst w3. rewrite (act_changes_query f2 w2 Hs2) by (rewrite E2; exact Hq2).
    rewrite E2. reflexivity. }
  split; [rewrite E3; reflexivity |].
  split; [rewrite E3; reflexivity |].
  subst w4. change (step S (Elapse t) w3) with (elapse S t w3).
  erewrite elapse_due; [| rewrite E3; reflexivity | simpl; lia].
  rewrite E3. simpl.
  match goal with |- context [startFetch S ?p ?q ?x] =>
    destruct (sent_startFetch p q x) as [-> ->] end.
  split; reflexivity.
Qed.

(** ** Responses are applied as they arrive *)

Lemma view_answer id c r (w : world S) :
  pending S w id = Some c ->
  view S (answer S id r w) = fetchEnd S (c_page c) r (view S w).
Proof. intros H. unfold answer. rewrite H. reflexivity. Qed.

Lemma find_filter_other (l : list call) i j :
  i <> j ->
  List.find (fun c => Nat.eqb (c_id c) i)
    (List.filter (fun c => negb (Nat.eqb (c_id c) j)) l)
  = List.find (fun c => Nat.eqb (c_id c) i) l.
Proof.
  intros Hij. induction l as [|c l IH]; simpl; [reflexivity |].
  destruct (Nat.eqb_spec (c_id c) j) as [Ej | Ej]; simpl.
  - destruct (Nat.eqb_spec (c_id c) i); [congruence | exact IH].
  - destruct (Nat.eqb (c_id c) i); [reflexivity | exact IH].
Qed.

(** Answering one call leaves the other calls pending. *)
Lemma pending_answer_other i j r (w : world S) :
  i <> j -> pending S (answer S j r w) i = pending S w i.
Proof.
  intros Hij. unfold answer.
  destruct (pending S w j); [| reflexivity].
  unfold pending. simpl. apply find_filter_other, Hij.
Qed.

(** Of two pending calls, the one answered last decides the view. *)
Lemma last_answer_decides i j ci ri rj (w : world S) :
  i <> j ->
  pending S w i = Some ci ->
  view S (answer S i ri (answer S j rj w))
  = fetchEnd S (c_page ci) ri (view S (answer S j rj w)).
Proof.
  intros Hij Hi. apply view_answer.
  rewrite pending_answer_other by exact Hij. exact Hi.
Qed.

End Loop.

End RuntimeFacts.

Section ListControllerClaims.
Import Data Runtime RuntimeFacts.

(** C9.  On either screen, from any state the screen can reach, a search
    term followed by a second one less than 500 ms later and then by quiet
    sends exactly one list fetch: nothing goes out during the burst, the
    timer of the first term is cleared so that only the timer of the
    second term is left, and when that one fires it asks for page 1 with
    the second term. *)
Theorem debounce_fires_once :
  (forall today (w : world hospitalScreen) term1 term2 b t,
     reachable hospitalScreen (Hospital.initialState today) w ->
     term1 <> Hospital.searchTerm (view _ w) ->
     term2 <> term1 ->
     now _ w <= b < now _ w + 500 ->
     b + 500 <= t ->
     let typed :=
       run hospitalScreen
         [ Act (S := hospitalScreen) (Hospital.setSearchTerm term1);
           Elapse b;
           Act (S := hospitalScreen) (Hospital.setSearchTerm term2) ] w in
     let quiet := step hospitalScreen (Elapse t) typed in
     sent _ typed = sent _ w
     /\ timers _ typed
        = [Timer (S := hospitalScreen) (Datatypes.S (nextTimer _ w)) (b + 500) term2]
     /\ sent _ quiet
        = sent _ w
          ++ [Request GET "/hospital" (Some 1) (Some 10)
                (searchParam term2) None None]
     /\ timers _ quiet = [])
  /\ (forall (w : world usersScreen) term1 term2 b t,
        reachable usersScreen Users.initialState w ->
        term1 <> Users.searchTerm (view _ w) ->
        term2 <> term1 ->
        now _ w <= b < now _ w + 500 ->
        b + 500 <= t ->
        let typed :=
          run usersScreen
            [ Act (S := usersScreen) (Users.setSearchTerm term1);
              Elapse b;
              Act (S := usersScreen) (Users.setSearchTerm term2) ] w in
        let quiet := step usersScreen (Elapse t) typed in
        sent _ typed = sent _ w
        /\ timers _ typed
           = [Timer (S := usersScreen) (Datatypes.S (nextTimer _ w)) (b + 500)
                (term2, Users.selectedHospital (view _ w))]
        /\ sent _ quiet
           = sent _ w
             ++ [Request GET "/hospitaluser" (Some 1) (Some 10)
                   (searchParam term2)
                   (orUndefined (Users.selectedHospital (view _ w))) None]
        /\ timers _ quiet = []).
Proof.
  split.
  - intros today w term1 term2 b t Hreach H1 H2 Hb Ht typed quiet.
    apply reachable_settled in Hreach.
    exact (debounce_burst hospitalScreen
             (Hospital.setSearchTerm term1) (Hospital.setSearchTerm term2)
             b t w Hreach H1 H2 Hb Ht).
  - intros w term1 term2 b t Hreach H1 H2 Hb Ht typed quiet.
    apply reachable_settled in Hreach.
    refine (debounce_burst usersScreen
              (Users.setSearchTerm term1) (Users.setSearchTerm term2)
              b t w Hreach _ _ Hb Ht); simpl; congruence.
Qed.

Lemma debounce_fires_once_witness :
  sent _ (run hospitalScreen
            [ Act (S := hospitalScreen) (Hospital.setSearchTerm "a");
              Elapse 120;
              Act (S := hospitalScreen) (Hospital.setSearchTerm "ab");
              Elapse 620 ]
            (mount hospitalScreen 0 (Hospital.initialState Examples.today)))
  = [Request GET "/hospital" (Some 1) (Some 10) (Some "ab") None None].
Proof.
  destruct debounce_fires_once as [Hhospital _].
  destruct (Hhospital Examples.today
              (mount hospitalScreen 0 (Hospital.initialState Examples.today))
              "a" "ab" 120 620) as (_ & _ & Hsent & _).
  - apply reach_mount.
  - simpl. discriminate.
  - discriminate.
  - simpl. lia.
  - lia.
  - exact Hsent.
Defined.

(** The two searches of the samples: both calls are pending, the term on
    screen is the second one. *)
Lemma race_calls :
  sent _ Examples.hospitalRace
  = [ Request GET "/hospital" (Some 1) (Some 10) (Some "a") None None;
      Request GET "/hospital" (Some 1) (Some 10) (Some "ab") None None ]
  /\ map c_id (inflight _ Examples.hospitalRace) = [0%nat; 1%nat]
  /\ Hospital.searchTerm (view _ Examples.hospitalRace) = "ab"
  /\ sent _ Examples.userRace
     = [ Request GET "/hospitaluser" (Some 1) (Some 10) (Some "a") None None;
         Request GET "/hospitaluser" (Some 1) (Some 10) (Some "ab") None None ]
  /\ map c_id (inflight _ Examples.userRace) = [0%nat; 1%nat]
  /\ Users.searchTerm (view _ Examples.userRace) = "ab".
Proof. vm_compute. repeat split; reflexivity. Qed.

(** C1, as stated, fails: with the searches for "a" and for "ab" both
    pending, the answer to "a" arriving after the answer to "ab" replaces
    the records of "ab". *)
Lemma stale_answer_overwrites :
  ~ staleAnswerIgnored hospitalScreen Examples.hospitalRace
  /\ ~ staleAnswerIgnored usersScreen Examples.userRace.
Proof.
  split; intros H.
  - specialize (H 0%nat 1%nat _ _
                  (Examples.listed [Examples.apollo])
                  (Examples.listed [Examples.abacus])
                  eq_refl eq_refl ltac:(lia)).
    vm_compute in H. discriminate H.
  - specialize (H 0%nat 1%nat _ _
                  (Examples.listed [Examples.asha])
                  (Examples.listed [Examples.abdul])
                  eq_refl eq_refl ltac:(lia)).
    vm_compute in H. discriminate H.
Qed.

(** C1, amended.  A list response is applied when it arrives, whichever
    request it answers: of two pending list fetches, the one answered last
    decides the records on display, be it the newer or the older one. *)
Theorem last_answer_wins :
  (forall (w : world hospitalScreen) older newer co cn so sn
          (old_data new_data : listing hospital),
     pending hospitalScreen w older = Some co ->
     pending hospitalScreen w newer = Some cn ->
     older <> newer ->
     Hospital.hospitals
       (view hospitalScreen (answer hospitalScreen older (Resolved so old_data)
                  (answer hospitalScreen newer (Resolved sn new_data) w)))
     = default [] (l_records old_data)
     /\ Hospital.hospitals
          (view hospitalScreen (answer hospitalScreen newer (Resolved sn new_data)
                     (answer hospitalScreen older (Resolved so old_data) w)))
        = default [] (l_records new_data))
  /\ (forall (w : world usersScreen) older newer co cn so sn
             (old_data new_data : listing Users.user),
        pending usersScreen w older = Some co ->
        pending usersScreen w newer = Some cn ->
        older <> newer ->
        Users.users
          (view usersScreen (answer usersScreen older (Resolved so old_data)
                     (answer usersScreen newer (Resolved sn new_data) w)))
        = default [] (l_records old_data)
        /\ Users.users
             (view usersScreen (answer usersScreen newer (Resolved sn new_data)
                        (answer usersScreen older (Resolved so old_data) w)))
           = default [] (l_records new_data)).
Proof.
  split.
  - intros w older newer co cn so sn old_data new_data Ho Hn Hne. split.
    + rewrite (last_answer_decides hospitalScreen older newer co) by assumption.
      reflexivity.
    + rewrite (last_answer_decides hospitalScreen newer older cn)
        by (assumption || congruence).
      reflexivity.
  - intros w older newer co cn so sn old_data new_data Ho Hn Hne. split.
    + rewrite (last_answer_decides usersScreen older newer co) by assumption.
      reflexivity.
    + rewrite (last_answer_decides usersScreen newer older cn)
        by (assumption || congruence).
      reflexivity.
Qed.

Lemma last_answer_wins_witness :
  Hospital.hospitals
    (view _ (answer hospitalScreen 0 (Examples.listed [Examples.apollo])
               (answer hospitalScreen 1 (Examples.listed [Examples.abacus])
                  Examples.hospitalRace)))
  = [Examples.apollo].
Proof.
  destruct last_answer_wins as [Hhospital _].
  destruct (Hhospital Examples.hospitalRace 0%nat 1%nat
              (Call 0 1 (Request GET "/hospital" (Some 1) (Some 10) (Some "a") None None))
              (Call 1 1 (Request GET "/hospital" (Some 1) (Some 10) (Some "ab") None None))
              200 200
              (Listing (Some [Examples.apollo]) (Some 1) (Some 1))
              (Listing (Some [Examples.abacus]) (Some 1) (Some 1)))
    as [Hold _].
  - vm_compute. reflexivity.
  - vm_compute. reflexivity.
  - discriminate.
  - exact Hold.
Defined.

End ListControllerClaims.

(* ===================================================================== *)
(** * More on the pagination control *)
(* ===================================================================== *)

Section PaginationMore.
Import Pagination.






Lemma totalPages_bounds totalCount itemsPerPage :
  0 < itemsPerPage ->
  (totalPages totalCount itemsPerPage - 1) * itemsPerPage < totalCount
  /\ totalCount <= totalPages totalCount itemsPerPage * itemsPerPage.
Proof.
  intros Hpos. unfold totalPages.
  pose proof (Z.div_mod (totalCount + itemsPerPage - 1) itemsPerPage
                ltac:(lia)) as Hdm.
  pose proof (Z.mod_pos_bound (totalCount + itemsPerPage - 1) itemsPerPage
                Hpos) as Hmod.
  nia.
Qed.



(** X3.  On a page among the pages there are and with rows on screen, the
    text "Showing a to b of n entries" names a range of at most 10 entries
    inside 1..n: exactly 10 on every page but the last, and ending at n on
    the last.  Without rows it starts at 0. *)
Theorem showing_range (rows : nat) (currentPage totalCount : Z) :
  (0 < rows)%nat ->
  1 <= currentPage <= totalPages totalCount 10 ->
  let a := showingFrom rows currentPage 10 in
  let b := showingTo currentPage 10 totalCount in
  1 <= a <= b /\ b <= totalCount /\ b - a + 1 <= 10
  /\ (currentPage < totalPages totalCount 10 -> b - a + 1 = 10)
  /\ (currentPage = totalPages totalCount 10 -> b = totalCount)
  /\ showingFrom 0 currentPage 10 = 0.
Proof.
  intros Hrows Hcur a b. subst a b. unfold showingFrom, showingTo.
  pose proof (totalPages_bounds totalCount 10 ltac:(lia)) as Hceil.
  destruct (Nat.ltb_spec 0 rows); [| lia].
  simpl. lia.
Qed.

Lemma showing_range_witness :
  showingFrom 3 5 10 = 41 /\ showingTo 5 10 43 = 43.
Proof.
  destruct (showing_range 3 5 43 ltac:(lia)) as (_ & _ & _ & _ & Hlast & _).
  - vm_compute. split; discriminate.
  - split; [reflexivity | apply Hlast; reflexivity].
Defined.

(** X4.  On a page among the pages there are, "Previous" is disabled
    exactly on page 1 and "Next" exactly on the last page, and the page an
    enabled one asks for is again among the pages. *)
Theorem nav_buttons_stay_in_range (totalPages currentPage : Z) :
  1 <= currentPage <= totalPages ->
  (previousClick currentPage = None <-> currentPage = 1)
  /\ (nextClick totalPages currentPage = None <-> currentPage = totalPages)
  /\ (forall p, previousClick currentPage = Some p ->
        p = currentPage - 1 /\ 1 <= p <= totalPages)
  /\ (forall p, nextClick totalPages currentPage = Some p ->
        p = currentPage + 1 /\ 1 <= p <= totalPages).
Proof.
  intros Hcur. unfold previousClick, nextClick.
  destruct (Z.eqb_spec currentPage 1), (Z.eqb_spec currentPage totalPages);
    (split; [| split; [| split]]);
    try (split; congruence);
    intros p E; try discriminate E; injection E as <-; lia.
Qed.

Lemma nav_buttons_stay_in_range_witness :
  previousClick 3 = Some 2 /\ nextClick 3 3 = None.
Proof.
  destruct (nav_buttons_stay_in_range 3 3 ltac:(lia)) as (_ & Hnext & _).
  split; [reflexivity | apply Hnext; reflexivity].
Defined.

End PaginationMore.

(* ===================================================================== *)
(** * More on strings and patterns *)
(* ===================================================================== *)

Section StringsMore.
Import Js JsFacts Data.

Lemma drop_space_split l :
  exists lead, l = lead ++ drop_space l
               /\ Forall (fun c => is_space c = true) lead.
Proof.
  induction l as [|c l (lead & E & Hlead)]; simpl.
  - exists []. split; [reflexivity | constructor].
  - destruct (is_space c) eqn:Hc.
    + exists (c :: lead). split; [simpl; congruence | constructor; assumption].
    + exists []. split; [reflexivity | constructor].
Qed.

Lemma drop_space_head l c rest : drop_space l = c :: rest -> is_space c = false.
Proof.
  induction l as [|d l IH]; simpl; [discriminate |].
  destruct (is_space d) eqn:Hd; [exact IH |].
  intros E. injection E as <- _. exact Hd.
Qed.

Lemma drop_space_fixed l :
  (forall c rest, l = c :: rest -> is_space c = false) -> drop_space l = l.
Proof.
  destruct l as [|c l]; intros H; simpl; [reflexivity |].
  rewrite (H c l eq_refl). reflexivity.
Qed.

Lemma drop_space_all l :
  Forall (fun c => is_space c = true) l -> drop_space l = [].
Proof.
  induction 1 as [|c l Hc _ IH]; simpl; [reflexivity |].
  rewrite Hc. exact IH.
Qed.

(** What [trim] leaves: the middle of the string, between white space,
    with no white space at either end. *)
Lemma trim_parts s :
  exists lead trail,
    chars s = lead ++ chars (trim s) ++ trail
    /\ Forall (fun c => is_space c = true) lead
    /\ Forall (fun c => is_space c = true) trail
    /\ (forall c rest, chars (trim s) = c :: rest -> is_space c = false)
    /\ (forall init c, chars (trim s) = init ++ [c] -> is_space c = false).
Proof.
  unfold trim. rewrite chars_of_chars.
  destruct (drop_space_split (chars s)) as (lead & E1 & Hlead).
  set (l1 := drop_space (chars s)) in *.
  destruct (drop_space_split (rev l1)) as (t & E2 & Ht).
  set (l2 := drop_space (rev l1)) in *.
  assert (El1 : l1 = rev l2 ++ rev t).
  { rewrite <- (rev_involutive l1), E2, rev_app_distr. reflexivity. }
  exists lead, (rev t). split; [rewrite E1 at 1; rewrite El1; reflexivity |].
  split; [exact Hlead |].
  split; [apply Forall_rev; exact Ht |].
  split.
  - intros c rest Hc.
    apply (drop_space_head (chars s) c (rest ++ rev t)).
    fold l1. rewrite El1, Hc. reflexivity.
  - intros init c Hc.
    apply (drop_space_head (rev l1) c (rev init)). fold l2.
    rewrite <- (rev_involutive l2), Hc, rev_app_distr. reflexivity.
Qed.

Lemma trim_empty s :
  trim s = "" <-> Forall (fun c => is_space c = true) (chars s).
Proof.
  split.
  - intros E. destruct (trim_parts s) as (lead & trail & Hs & Hl & Ht & _).
    rewrite E in Hs. simpl in Hs. rewrite Hs. apply Forall_app. auto.
  - intros Hall. unfold trim. rewrite (drop_space_all _ Hall). reflexivity.
Qed.

Lemma trim_idem s : trim (trim s) = trim s.
Proof.
  destruct (trim_parts s) as (_ & _ & _ & _ & _ & Hhead & Hlast).
  unfold trim at 1.
  rewrite (drop_space_fixed (chars (trim s))) by exact Hhead.
  rewrite drop_space_fixed.
  - rewrite rev_involutive. unfold of_chars, chars.
    apply string_of_list_ascii_of_string.
  - intros c rest E. apply (Hlast (rev rest) c).
    rewrite <- (rev_involutive (chars (trim s))), E. reflexivity.
Qed.

Lemma nonempty_false s : nonempty s = false <-> s = "".
Proof. destruct s; simpl; split; congruence. Qed.

(** X5.  The search parameter of a list call is the search term without
    the white space around it; a term of white space only sends no search
    parameter at all, so such a term and a term with spaces around it ask
    the server the same as the empty and the trimmed term do. *)
Theorem search_term_is_trimmed (term : string) :
  (searchParam term = None
   <-> Forall (fun c => is_space c = true) (chars term))
  /\ (forall t, searchParam term = Some t ->
        t <> ""
        /\ (exists lead trail,
              chars term = lead ++ chars t ++ trail
              /\ Forall (fun c => is_space c = true) lead
              /\ Forall (fun c => is_space c = true) trail)
        /\ (forall c rest, chars t = c :: rest -> is_space c = false)
        /\ (forall init c, chars t = init ++ [c] -> is_space c = false))
  /\ (forall page st,
        snd (Hospital.fetchBegin page (trim term) st)
        = snd (Hospital.fetchBegin page term st))
  /\ (forall page selected st,
        snd (Users.fetchBegin page (trim term, selected) st)
        = snd (Users.fetchBegin page (term, selected) st)).
Proof.
  assert (Hsame : searchParam (trim term) = searchParam term).
  { unfold searchParam. rewrite trim_idem. reflexivity. }
  split; [| split; [| split]].
  - unfold searchParam. rewrite <- trim_empty.
    destruct (trim term); simpl; split; congruence.
  - intros t Ht. unfold searchParam in Ht.
    destruct (nonempty (trim term)) eqn:Hne; [| discriminate].
    injection Ht as <-.
    split; [intros E; rewrite E in Hne; discriminate |].
    destruct (trim_parts term) as (lead & trail & Hs & Hl & Htr & Hh & Hla).
    split; [exists lead, trail; auto |]. split; assumption.
  - intros page st. unfold Hospital.fetchBegin. simpl. rewrite Hsame. reflexivity.
  - intros page selected st. unfold Users.fetchBegin. simpl.
    rewrite Hsame. reflexivity.
Qed.

Lemma count_at_part l :
  Spec.addressPart l -> count_occ ascii_dec l "@"%char = 0%nat.
Proof.
  intros [_ Hall]. apply count_occ_not_In. intros Hin.
  rewrite List.Forall_forall in Hall. destruct (Hall _ Hin) as [_ Hne].
  congruence.
Qed.

Lemma no_space_part l :
  Spec.addressPart l -> Forall (fun c => is_space c = false) l.
Proof.
  intros [_ Hall]. eapply List.Forall_impl; [| exact Hall].
  intros c [Hc _]. exact Hc.
Qed.

(** X6.  The email pattern accepts exactly the strings made of a local
    part, an [@], a domain, a dot and a last part, each part non-empty
    and free of white space and of [@]; so an accepted address holds
    exactly one [@] and no white space at all. *)
Theorem email_pattern_accepts (s : string) :
  (test email_re s = true <-> Spec.emailShape s)
  /\ (test email_re s = true ->
      count_occ ascii_dec (chars s) "@"%char = 1%nat
      /\ Forall (fun c => is_space c = false) (chars s)).
Proof.
  split; [apply test_email |].
  intros Hok. apply test_email in Hok.
  destruct Hok as (loc & domain & tld & E & Hloc & Hdom & Htld).
  rewrite E. split.
  - rewrite count_occ_app. simpl. rewrite count_occ_app. simpl.
    rewrite !count_at_part by assumption. reflexivity.
  - apply Forall_app. split; [apply no_space_part; exact Hloc |].
    constructor; [reflexivity |].
    apply Forall_app. split; [apply no_space_part; exact Hdom |].
    constructor; [reflexivity | apply no_space_part; exact Htld].
Qed.

Lemma email_pattern_accepts_witness :
  count_occ ascii_dec (chars "asha@lakeside.example") "@"%char = 1%nat.
Proof.
  destruct (email_pattern_accepts "asha@lakeside.example") as [_ H].
  destruct (H ltac:(reflexivity)) as [Hcount _]. exact Hcount.
Defined.

(** X7.  The pin code test accepts exactly the strings of six digits, and
    the phone test, applied after the separators are taken out, exactly
    the strings that hold 10 to 12 digits and separators only; a
    separator more or less anywhere in the value does not change what is
    tested. *)
Theorem pin_and_phone_patterns (s : string) :
  (test pin_code_re s = true <-> Spec.sixDigits s)
  /\ (test phone_re (strip_separators s) = true <-> Spec.phoneDigits s)
  /\ (forall a b c,
        is_separator c = true ->
        strip_separators (of_chars (a ++ c :: b))
        = strip_separators (of_chars (a ++ b)))
  /\ Forall (fun c => is_separator c = false) (chars (strip_separators s)).
Proof.
  split; [apply test_pin_code |]. split; [apply test_phone |]. split.
  - intros a b c Hc. unfold strip_separators. rewrite !chars_of_chars.
    rewrite !List.filter_app. simpl. rewrite Hc. reflexivity.
  - unfold strip_separators. rewrite chars_of_chars.
    apply List.Forall_forall. intros c Hc. apply filter_In in Hc as [_ Hc].
    apply negb_true_iff. exact Hc.
Qed.

End StringsMore.

(* ===================================================================== *)
(** * More on the handlers that call the server *)
(* ===================================================================== *)

Section HandlersMore.
Import Data ValidationFacts Frames.

(** X8.  A list fetch makes one call, for the page asked, 10 entries and
    the trimmed search term, and ends with the loading flag off.  When the
    call is rejected the rows, the count and the page stay and the error
    message is set; when it resolves the error is cleared, the rows are
    those of the response, none if it has none, the count is the one of
    the response or 0, and the page is the one of the response or, when
    it names none, the page asked.  The form is never touched. *)
Theorem list_fetch_outcomes :
  (forall net page (st : Hospital.state),
     let rq := Request GET "/hospital" (Some page) (Some 10)
                 (searchParam (Hospital.searchTerm st)) None None in
     let st' := fst (Hospital.fetchHospitals net page st) in
     snd (Hospital.fetchHospitals net page st) = [rq]
     /\ Hospital.isLoading st' = false
     /\ hospitalFormOf st' = hospitalFormOf st
     /\ match net rq with
        | Rejected =>
            Hospital.hospitals st' = Hospital.hospitals st
            /\ Hospital.totalCount st' = Hospital.totalCount st
            /\ Hospital.currentPage st' = Hospital.currentPage st
            /\ Hospital.error st'
               = Some "Error loading hospital data. Please try again later."
        | Resolved _ data =>
            Hospital.error st' = None
            /\ Hospital.hospitals st' = default [] (l_records data)
            /\ Hospital.totalCount st' = orNumber (l_totalCount data) 0
            /\ Hospital.currentPage st' = orNumber (l_page data) page
        end)
  /\ (forall net page (st : Users.state),
        let rq := Request GET "/hospitaluser" (Some page) (Some 10)
                    (searchParam (Users.searchTerm st))
                    (orUndefined (Users.selectedHospital st)) None in
        let st' := fst (Users.fetchUsers net page st) in
        snd (Users.fetchUsers net page st) = [rq]
        /\ Users.isLoading st' = false
        /\ userFormOf st' = userFormOf st
        /\ match net rq with
           | Rejected =>
               Users.users st' = Users.users st
               /\ Users.totalCount st' = Users.totalCount st
               /\ Users.currentPage st' = Users.currentPage st
               /\ Users.error st'
                  = Some "Error loading user data. Please try again later."
           | Resolved _ data =>
               Users.error st' = None
               /\ Users.users st' = default [] (l_records data)
               /\ Users.totalCount st' = orNumber (l_totalCount data) 0
               /\ Users.currentPage st' = orNumber (l_page data) page
           end).
Proof.
  split.
  - intros net page st rq st'. subst rq st'.
    unfold Hospital.fetchHospitals, Hospital.fetchBegin, Hospital.fetchEnd.
    simpl. split; [reflexivity |].
    destruct (net _) as [status data|]; simpl; repeat split; reflexivity.
  - intros net page st rq st'. subst rq st'.
    unfold Users.fetchUsers, Users.fetchBegin, Users.fetchEnd.
    simpl. split; [reflexivity |].
    destruct (net _) as [status data|]; simpl; repeat split; reflexivity.
Qed.

(** X9.  A click on a page button moves the current page at once and
    fetches that page; when the fetch is rejected the current page is the
    one clicked although the rows are still those of the page before. *)
Theorem page_change_outcomes :
  (forall net page (st : Hospital.state),
     let rq := Request GET "/hospital" (Some page) (Some 10)
                 (searchParam (Hospital.searchTerm st)) None None in
     let st' := fst (Hospital.handlePageChange net page st) in
     snd (Hospital.handlePageChange net page st) = [rq]
     /\ (net rq = Rejected ->
         Hospital.currentPage st' = page
         /\ Hospital.hospitals st' = Hospital.hospitals st)
     /\ (forall status data, net rq = Resolved status data ->
           Hospital.currentPage st' = orNumber (l_page data) page
           /\ Hospital.hospitals st' = default [] (l_records data)))
  /\ (forall net page (st : Users.state),
        let rq := Request GET "/hospitaluser" (Some page) (Some 10)
                    (searchParam (Users.searchTerm st))
                    (orUndefined (Users.selectedHospital st)) None in
        let st' := fst (Users.handlePageChange net page st) in
        snd (Users.handlePageChange net page st) = [rq]
        /\ (net rq = Rejected ->
            Users.currentPage st' = page
            /\ Users.users st' = Users.users st)
        /\ (forall status data, net rq = Resolved status data ->
              Users.currentPage st' = orNumber (l_page data) page
              /\ Users.users st' = default [] (l_records data))).
Proof.
  split.
  - intros net page st rq st'. subst rq st'.
    unfold Hospital.handlePageChange, Hospital.fetchHospitals,
      Hospital.fetchBegin, Hospital.fetchEnd, Hospital.itemsPerPage.
    simpl. split; [reflexivity |]. split.
    + intros E. rewrite E. split; reflexivity.
    + intros status data E. rewrite E. split; reflexivity.
  - intros net page st rq st'. subst rq st'.
    unfold Users.handlePageChange, Users.fetchUsers,
      Users.fetchBegin, Users.fetchEnd, Users.itemsPerPage.
    simpl. split; [reflexivity |]. split.
    + intros E. rewrite E. split; reflexivity.
    + intros status data E. rewrite E. split; reflexivity.
Qed.

Lemma page_change_outcomes_witness :
  Hospital.currentPage
    (fst (Hospital.handlePageChange (fun _ => Rejected) 3
            (Hospital.initialState Examples.today))) = 3.
Proof.
  destruct page_change_outcomes as [Hhospital _].
  destruct (Hhospital (fun _ => Rejected) 3
              (Hospital.initialState Examples.today)) as (_ & Hfail & _).
  destruct (Hfail eq_refl) as [Hpage _]. exact Hpage.
Defined.

(** X10.  A delete the user does not confirm does nothing.  A confirmed
    one calls DELETE on the record; when that is rejected nothing more is
    called, the rows stay and the error message is set; when it resolves
    the current page is fetched again.  Either way the loading flag ends
    off and the form is not touched. *)
Theorem delete_outcomes :
  (forall net id (st : Hospital.state),
     let del := Request DELETE ("/hospital/" +:+ id) None None None None None in
     let out := Hospital.handleDelete net true id st in
     Hospital.handleDelete net false id st = (st, [])
     /\ Hospital.isLoading (fst out) = false
     /\ hospitalFormOf (fst out) = hospitalFormOf st
     /\ (net del = Rejected ->
         snd out = [del]
         /\ Hospital.hospitals (fst out) = Hospital.hospitals st
         /\ Hospital.error (fst out)
            = Some "Error deleting hospital. Please try again.")
     /\ (forall status data, net del = Resolved status data ->
           snd out
           = [del;
              Request GET "/hospital" (Some (Hospital.currentPage st)) (Some 10)
                (searchParam (Hospital.searchTerm st)) None None]))
  /\ (forall net id (st : Users.state),
        let del := Request DELETE ("/hospitaluser/" +:+ id)
                     None None None None None in
        let out := Users.handleDelete net true id st in
        Users.handleDelete net false id st = (st, [])
        /\ Users.isLoading (fst out) = false
        /\ userFormOf (fst out) = userFormOf st
        /\ (net del = Rejected ->
            snd out = [del]
            /\ Users.users (fst out) = Users.users st
            /\ Users.error (fst out)
               = Some "Error deleting user. Please try again.")
        /\ (forall status data, net del = Resolved status data ->
              snd out
              = [del;
                 Request GET "/hospitaluser" (Some (Users.currentPage st))
                   (Some 10) (searchParam (Users.searchTerm st))
                   (orUndefined (Users.selectedHospital st)) None])).
Proof.
  split.
  - intros net id st del out. subst del out.
    unfold Hospital.handleDelete. split; [reflexivity |].
    destruct (net (Request DELETE _ _ _ _ _ _)) as [status data|] eqn:E.
    + unfold Hospital.fetchHospitals, Hospital.fetchBegin, Hospital.fetchEnd,
        hospitalFormOf.
      simpl. split; [reflexivity |]. split.
      * destruct (net (Request GET _ _ _ _ _ _)); reflexivity.
      * split; [discriminate |]. intros ? ? _. reflexivity.
    + simpl. split; [reflexivity |]. split; [reflexivity |].
      split; [auto | discriminate].
  - intros net id st del out. subst del out.
    unfold Users.handleDelete. split; [reflexivity |].
    destruct (net (Request DELETE _ _ _ _ _ _)) as [status data|] eqn:E.
    + unfold Users.fetchUsers, Users.fetchBegin, Users.fetchEnd, userFormOf.
      simpl. split; [reflexivity |]. split.
      * destruct (net (Request GET _ _ _ _ _ _)); reflexivity.
      * split; [discriminate |]. intros ? ? _. reflexivity.
    + simpl. split; [reflexivity |]. split; [reflexivity |].
      split; [auto | discriminate].
Qed.

Lemma delete_outcomes_witness :
  snd (Users.handleDelete (fun _ => Rejected) true "u1" Users.initialState)
  = [Request DELETE "/hospitaluser/u1" None None None None None].
Proof.
  destruct delete_outcomes as [_ Huser].
  destruct (Huser (fun _ => Rejected) "u1" Users.initialState)
    as (_ & _ & _ & Hfail & _).
  destruct (Hfail eq_refl) as [Hsent _]. exact Hsent.
Defined.

End HandlersMore.

(* ===================================================================== *)
(** * More on the create and edit form *)
(* ===================================================================== *)

Section FormMore.
Import Js Data JsFacts ValidationFacts Frames.

(** X11.  The submit of a valid draft always ends with the loading flag
    off.  When the save call is rejected it is the only call, the modal,
    the draft, the entity being edited and the list stay, and the error
    message is set.  When it resolves with a status other than 200 and 201
    the modal closes without any fetch of the list; with 200 or 201 the
    current page is fetched after the save. *)
Theorem submit_outcomes :
  (forall dateOf net today (st : Hospital.state),
     Hospital.validationErrors dateOf (Hospital.formData st) = ∅ ->
     let save := Hospital.saveRequest st in
     let out := Hospital.handleSubmit dateOf net today st in
     Hospital.isLoading (fst out) = false
     /\ (net save = Rejected ->
         snd out = [save]
         /\ Hospital.isModalOpen (fst out) = Hospital.isModalOpen st
         /\ Hospital.formData (fst out) = Hospital.formData st
         /\ Hospital.editingHospital (fst out) = Hospital.editingHospital st
         /\ hospitalListOf (fst out) = hospitalListOf st
         /\ Hospital.error (fst out)
            = Some "Error saving hospital data. Please try again.")
     /\ (forall status data,
           net save = Resolved status data -> isSuccess status = false ->
           snd out = [save]
           /\ hospitalListOf (fst out) = hospitalListOf st
           /\ Hospital.isModalOpen (fst out) = false)
     /\ (forall status data,
           net save = Resolved status data -> isSuccess status = true ->
           snd out
           = [save;
              Request GET "/hospital" (Some (Hospital.currentPage st)) (Some 10)
                (searchParam (Hospital.searchTerm st)) None None]))
  /\ (forall net (st : Users.state),
        Users.validationErrors (Users.formData st) = ∅ ->
        let save := Users.saveRequest st in
        let out := Users.handleSubmit net st in
        Users.isLoading (fst out) = false
        /\ (net save = Rejected ->
            snd out = [save]
            /\ Users.isModalOpen (fst out) = Users.isModalOpen st
            /\ Users.formData (fst out) = Users.formData st
            /\ Users.editingUser (fst out) = Users.editingUser st
            /\ userListOf (fst out) = userListOf st
            /\ Users.error (fst out)
               = Some "Error saving user data. Please try again.")
        /\ (forall status data,
              net save = Resolved status data -> isSuccess status = false ->
              snd out = [save]
              /\ userListOf (fst out) = userListOf st
              /\ Users.isModalOpen (fst out) = false)
        /\ (forall status data,
              net save = Resolved status data -> isSuccess status = true ->
              snd out
              = [save;
                 Request GET "/hospitaluser" (Some (Users.currentPage st))
                   (Some 10) (searchParam (Users.searchTerm st))
                   (orUndefined (Users.selectedHospital st)) None])).
Proof.
  split.
  - intros dateOf net today st Hok save out. subst save out.
    unfold Hospital.handleSubmit, Hospital.validateForm.
    rewrite bool_decide_eq_true_2 by exact Hok. cbv zeta. cbn [negb].
    destruct (net (Hospital.saveRequest st)) as [status data|] eqn:E.
    + split; [destruct (isSuccess status); reflexivity |].
      split; [discriminate |]. split.
      * intros ? ? E' Hs. injection E' as <- <-. rewrite Hs.
        repeat split; reflexivity.
      * intros ? ? E' Hs. injection E' as <- <-. rewrite Hs. reflexivity.
    + split; [reflexivity |]. split; [| split; discriminate].
      intros _. repeat split; reflexivity.
  - intros net st Hok save out. subst save out.
    unfold Users.handleSubmit, Users.validateForm.
    rewrite bool_decide_eq_true_2 by exact Hok. cbv zeta. cbn [negb].
    destruct (net (Users.saveRequest st)) as [status data|] eqn:E.
    + split; [destruct (isSuccess status); reflexivity |].
      split; [discriminate |]. split.
      * intros ? ? E' Hs. injection E' as <- <-. rewrite Hs.
        repeat split; reflexivity.
      * intros ? ? E' Hs. injection E' as <- <-. rewrite Hs. reflexivity.
    + split; [reflexivity |]. split; [| split; discriminate].
      intros _. repeat split; reflexivity.
Qed.

Lemma submit_outcomes_witness :
  snd (Hospital.handleSubmit isoClockDate (fun _ => Rejected) Examples.today
         Examples.hospitalDraft)
  = [Hospital.saveRequest Examples.hospitalDraft].
Proof.
  destruct submit_outcomes as [Hhospital _].
  destruct (Hhospital isoClockDate (fun _ => Rejected) Examples.today
              Examples.hospitalDraft) as (_ & Hfail & _).
  - vm_compute. reflexivity.
  - destruct (Hfail eq_refl) as [Hsent _]. exact Hsent.
Defined.




End FormMore.

Section ValidationMore.
Import Js Data JsFacts ValidationFacts.

Lemma required_format_message (t ok : bool) (P : Prop) (m1 m2 : string) :
  m1 <> m2 ->
  (ok = true <-> P) ->
  let r := if t && negb ok then Some m2 else if negb t then Some m1 else None in
  (r = Some m1 <-> t = false) /\ (r = Some m2 <-> t = true /\ ~ P).
Proof.
  intros Hm H r. subst r.
  destruct t, ok; simpl; split; split;
    try congruence; try tauto; intuition congruence.
Qed.

(** X14.  The pin code of a hospital draft and the email of a staff draft
    carry one of two messages: the "required" one exactly when the field
    is empty, the format one exactly when it is filled in and fails its
    format. *)
Theorem required_field_messages (dateOf : string -> option Z) (d : object) :
  (Hospital.validationErrors dateOf d !! "pin_code"
   = Some "Pin Code is required"
   <-> Spec.missing d "pin_code")
  /\ (Hospital.validationErrors dateOf d !! "pin_code"
      = Some "Pin Code must be a 6-digit number"
      <-> Spec.present d "pin_code"
          /\ ~ Spec.sixDigits (Spec.text d "pin_code"))
  /\ (Users.validationErrors d !! "email_id" = Some "Email is required"
      <-> Spec.missing d "email_id")
  /\ (Users.validationErrors d !! "email_id"
      = Some "Please enter a valid email address"
      <-> Spec.present d "email_id"
          /\ ~ Spec.emailShape (Spec.text d "email_id")).
Proof.
  assert (Hpin := required_format_message
            (truthy (prop d "pin_code"))
            (test pin_code_re (asString (prop d "pin_code")))
            (Spec.sixDigits (Spec.text d "pin_code"))
            "Pin Code is required" "Pin Code must be a 6-digit number"
            ltac:(discriminate) (test_pin_code _)).
  assert (Hmail := required_format_message
            (truthy (prop d "email_id"))
            (test email_re (asString (prop d "email_id")))
            (Spec.emailShape (Spec.text d "email_id"))
            "Email is required" "Please enter a valid email address"
            ltac:(discriminate) (test_email _)).
  cbv zeta in Hpin, Hmail.
  destruct Hpin as [Hp1 Hp2], Hmail as [Hm1 Hm2].
  unfold Hospital.validationErrors, Users.validationErrors.
  split; [| split; [| split]]; read_errors;
    first [exact Hp1 | exact Hp2 | exact Hm1 | exact Hm2].
Qed.

Lemma pin_code_reported dateOf (d : object) :
  is_Some (Hospital.validationErrors dateOf d !! "pin_code") ->
  hasError (Hospital.validationErrors dateOf d) "pin_code" = true.
Proof.
  unfold Hospital.validationErrors, hasError. read_errors.
  destruct (truthy (prop d "pin_code")),
           (test pin_code_re (asString (prop d "pin_code")));
    simpl; intros [m Hm]; try discriminate; reflexivity.
Qed.

Lemma email_id_reported (d : object) :
  is_Some (Users.validationErrors d !! "email_id") ->
  hasError (Users.validationErrors d) "email_id" = true.
Proof.
  unfold Users.validationErrors, hasError. read_errors.
  destruct (truthy (prop d "email_id")),
           (test email_re (asString (prop d "email_id")));
    simpl; intros [m Hm]; try discriminate; reflexivity.
Qed.

(** X15.  Typing a value clears the error of the field without checking
    the value: a pin code that is not six digits, or an email that has
    not the shape of an address, shows no error once typed, and the next
    submit makes no call and reports the field again. *)
Theorem error_returns_on_submit :
  (forall dateOf net today (st : Hospital.state) v,
     ~ Spec.sixDigits v ->
     let st1 := Hospital.handleInputChange "pin_code" v st in
     let out := Hospital.handleSubmit dateOf net today st1 in
     hasError (Hospital.validation st1) "pin_code" = false
     /\ snd out = []
     /\ hasError (Hospital.validation (fst out)) "pin_code" = true)
  /\ (forall net (st : Users.state) v,
        ~ Spec.emailShape v ->
        let st1 := Users.handleInputChange "email_id" v st in
        let out := Users.handleSubmit net st1 in
        hasError (Users.validation st1) "email_id" = false
        /\ snd out = []
        /\ hasError (Users.validation (fst out)) "email_id" = true).
Proof.
  split.
  - intros dateOf net today st v Hv st1 out.
    destruct (hospital_input_change_frame "pin_code" v st)
      as (Hclear & Hval & _).
    fold st1 in Hclear, Hval.
    assert (Hflag : is_Some (Hospital.validationErrors dateOf
                               (Hospital.formData st1) !! "pin_code")).
    { apply hospital_pin_code. right. unfold Spec.text, prop.
      rewrite Hval. exact Hv. }
    assert (Hbad : Hospital.validationErrors dateOf (Hospital.formData st1) <> ∅).
    { apply not_empty_flag. eauto. }
    subst out. rewrite hospital_submit_invalid by exact Hbad.
    split; [exact Hclear |]. split; [reflexivity |].
    apply pin_code_reported, Hflag.
  - intros net st v Hv st1 out.
    destruct (user_input_change_frame "email_id" v st)
      as (Hclear & Hval & _).
    fold st1 in Hclear, Hval.
    assert (Hflag : is_Some (Users.validationErrors
                               (Users.formData st1) !! "email_id")).
    { apply user_email_id. right. unfold Spec.text, prop.
      rewrite Hval. exact Hv. }
    assert (Hbad : Users.validationErrors (Users.formData st1) <> ∅).
    { apply not_empty_flag. eauto. }
    subst out. rewrite user_submit_invalid by exact Hbad.
    split; [exact Hclear |]. split; [reflexivity |].
    apply email_id_reported, Hflag.
Qed.

Lemma error_returns_on_submit_witness :
  hasError
    (Hospital.validation
       (fst (Hospital.handleSubmit isoClockDate Examples.accepting
               Examples.today
               (Hospital.handleInputChange "pin_code" "12a456"
                  Examples.hospitalDraft))))
    "pin_code" = true.
Proof.
  destruct error_returns_on_submit as [Hhospital _].
  destruct (Hhospital isoClockDate Examples.accepting Examples.today
              Examples.hospitalDraft "12a456") as (_ & _ & Hagain).
  - intros H. apply test_pin_code in H. discriminate H.
  - exact Hagain.
Defined.

(** X16.  With an opening time in the draft, picking a closing time
    leaves the entry of [working_hours_to] in the state the validator
    would put it in: the picker reports the field exactly when a submit of
    the draft it leaves would. *)
Theorem closing_time_picker_agrees (dateOf : string -> option Z) (t : string)
    (st : Hospital.state) :
  truthy (prop (Hospital.formData st) "working_hours_from") = true ->
  nonempty t = true ->
  let st' := Hospital.pickWorkingHoursTo dateOf t st in
  hasError (Hospital.validation st') "working_hours_to" = true
  <-> is_Some (Hospital.validationErrors dateOf (Hospital.formData st')
                 !! "working_hours_to").
Proof.
  intros Hfrom Ht st'.
  destruct (pick_to_effect dateOf t st) as (Hdraft & _ & Hentry).
  fold st' in Hdraft, Hentry.
  rewrite Hfrom, Ht in Hentry. simpl in Hentry. rewrite Hentry.
  rewrite hospital_working_hours_to, <- dateGe_outOfOrder.
  unfold Spec.present, Spec.text. rewrite Hdraft.
  rewrite prop_insert_eq, prop_insert_ne by discriminate.
  simpl. rewrite Hfrom, Ht. tauto.
Qed.

Lemma closing_time_picker_agrees_witness :
  is_Some (Hospital.validationErrors isoClockDate
             (Hospital.formData Examples.closesAtNine) !! "working_hours_to").
Proof.
  apply (closing_time_picker_agrees isoClockDate "09:00" Examples.opensAtNine);
    reflexivity.
Defined.

End ValidationMore.

(* ===================================================================== *)
(** * More on the event loop *)
(* ===================================================================== *)

Module LoopMore.
Import Data Runtime RuntimeFacts Bursts.

Section Loop.
Variable S : screen.
Hypothesis delay_positive : 0 < debounceMs S.

Lemma startFetch_now page q (w : world S) :
  now S (startFetch S page q w) = now S w.
Proof. unfold startFetch. destruct (fetchBegin S page q (view S w)). reflexivity. Qed.

Lemma fold_fire_now (due : list (timer S)) (w : world S) :
  now S (fold_left (fire S) due w) = now S w.
Proof.
  revert w. induction due as [|tm due IH]; intros w; simpl; [reflexivity |].
  rewrite IH. apply startFetch_now.
Qed.

Lemma oneTimer_mount t0 init : oneTimer S (mount S t0 init).
Proof.
  split; [simpl; lia |].
  intros tm [<- | []]. simpl. split; [reflexivity | lia].
Qed.

Lemma length_filter_le {A} (f : A -> bool) (l : list A) :
  (length (List.filter f l) <= length l)%nat.
Proof.
  induction l as [|x l IH]; simpl; [lia |].
  destruct (f x); simpl; lia.
Qed.

Lemma oneTimer_step e (w : world S) : oneTimer S w -> oneTimer S (step S e w).
Proof.
  intros [Hlen Hin]. destruct e as [f | page | t | id r]; simpl.
  - unfold afterRender. simpl.
    destruct (decide (queryOf S (f (view S w)) = queryOf S (view S w))).
    + split; [exact Hlen | exact Hin].
    + set (w' := World S (now S w) (f (view S w)) (timers S w) (armed S w)
                   (nextTimer S w) (inflight S w) (nextCall S w) (sent S w)).
      assert (Hs' : settled S w') by (intros tm Htm; apply Hin, Htm).
      assert (Hnow : now S (runCleanup S w') = now S w).
      { unfold runCleanup. destruct (armed S w'); reflexivity. }
      unfold oneTimer, runEffect. simpl.
      rewrite (settled_cleanup S w' Hs'). simpl.
      split; [lia |]. intros tm [<- | []]. simpl.
      split; [reflexivity |]. rewrite Hnow. lia.
  - destruct (startFetch_timers S page (queryOf S (view S w)) w) as [Et Ea].
    unfold oneTimer. rewrite Et, Ea, startFetch_now. split; assumption.
  - unfold elapse, oneTimer.
    match goal with |- context [fold_left (fire S) ?due ?x] =>
      destruct (fold_fire_timers S due x) as [Et Ea];
      rewrite Et, Ea, (fold_fire_now due x) end.
    simpl. split.
    + pose proof (length_filter_le (fun tm => negb (isDue S t tm)) (timers S w)).
      lia.
    + intros tm Htm. apply filter_In in Htm as [Htm Hdue].
      destruct (Hin tm Htm) as [Ha Hb]. split; [exact Ha |].
      unfold isDue in Hdue. apply negb_true_iff, Z.leb_gt in Hdue. lia.
  - unfold answer. destruct (pending S w id); [| split; assumption].
    split; assumption.
Qed.

Lemma reachable_oneTimer init (w : world S) :
  reachable S init w -> oneTimer S w.
Proof.
  induction 1 as [t0 | e w _ IH]; [apply oneTimer_mount | apply oneTimer_step, IH].
Qed.

Lemma reachable_run init es (w : world S) :
  reachable S init w -> reachable S init (run S es w).
Proof.
  revert w. induction es as [|e es IH]; intros w Hw; [exact Hw |].
  apply (IH (step S e w)). apply reach_step, Hw.
Qed.

(** ** A burst of any length *)

Lemma justTyped_settled (w : world S) : justTyped S w -> settled S w.
Proof.
  intros (id & Et & Ea) tm Htm. rewrite Et in Htm.
  destruct Htm as [<- | []]. exact Ea.
Qed.

Lemma act_justTyped (f : ui S -> ui S) (w : world S) :
  settled S w ->
  queryOf S (f (view S w)) <> queryOf S (view S w) ->
  justTyped S (step S (Act f) w)
  /\ view S (step S (Act f) w) = f (view S w)
  /\ now S (step S (Act f) w) = now S w
  /\ sent S (step S (Act f) w) = sent S w.
Proof.
  intros Hs Hq. rewrite (act_changes_query S f w Hs Hq).
  split; [exists (nextTimer S w); split; reflexivity |].
  repeat split; reflexivity.
Qed.

Lemma key_justTyped b (f : ui S -> ui S) (w : world S) :
  justTyped S w ->
  now S w <= b < now S w + debounceMs S ->
  queryOf S (f (view S w)) <> queryOf S (view S w) ->
  let w' := step S (Act f) (step S (Elapse b) w) in
  justTyped S w' /\ view S w' = f (view S w) /\ now S w' = b
  /\ sent S w' = sent S w.
Proof.
  intros (id & Et & Ea) Hb Hq w'.
  assert (E : step S (Elapse b) w
              = World S b (view S w)
                  [Timer id (now S w + debounceMs S) (queryOf S (view S w))]
                  (armed S w) (nextTimer S w) (inflight S w) (nextCall S w)
                  (sent S w)).
  { change (step S (Elapse b) w) with (elapse S b w).
    erewrite elapse_early; [| exact Et | simpl; lia].
    f_equal. lia. }
  subst w'. rewrite E.
  match goal with |- context [step S (Act f) ?x] =>
    destruct (act_justTyped f x) as (H1 & H2 & H3 & H4) end.
  - intros tm Htm. simpl in Htm. destruct Htm as [<- | []]. exact Ea.
  - exact Hq.
  - auto.
Qed.

Lemma rapid_typing (keys : list (keystroke S)) (w : world S) :
  justTyped S w ->
  rapid S (now S w) (view S w) keys ->
  let w' := run S (typing S keys) w in
  justTyped S w'
  /\ view S w' = typed S (view S w) keys
  /\ now S w' = lastKey S (now S w) keys
  /\ sent S w' = sent S w.
Proof.
  revert w. induction keys as [|[b f] keys IH]; intros w Hj Hr.
  - simpl. auto.
  - simpl in Hr. destruct Hr as (Hb & Hq & Hrest).
    destruct (key_justTyped b f w Hj Hb Hq) as (Hj' & Hv & Hn & Hs).
    cbv zeta in Hj', Hv, Hn, Hs.
    specialize (IH (step S (Act f) (step S (Elapse b) w)) Hj').
    rewrite Hv, Hn in IH. specialize (IH Hrest).
    cbv zeta in IH. destruct IH as (I1 & I2 & I3 & I4).
    change (run S (typing S ((b, f) :: keys)) w)
      with (run S (typing S keys) (step S (Act f) (step S (Elapse b) w))).
    cbv zeta. simpl typed. simpl lastKey.
    split; [exact I1 |]. split; [exact I2 |]. split; [exact I3 |].
    rewrite I4. exact Hs.
Qed.

(** A change of the query, then keystrokes each less than the delay after
    the one before, then quiet: one fetch, for the query typed last. *)
Lemma burst_of_any_length (f0 : ui S -> ui S) (keys : list (keystroke S))
    (t : Z) (w : world S) :
  settled S w ->
  queryOf S (f0 (view S w)) <> queryOf S (view S w) ->
  rapid S (now S w) (f0 (view S w)) keys ->
  lastKey S (now S w) keys + debounceMs S <= t ->
  let final := typed S (f0 (view S w)) keys in
  sent S (run S (Act f0 :: typing S keys ++ [Elapse t]) w)
  = sent S w
    ++ [snd (fetchBegin S (debouncePage S) (queryOf S final) final)]
  /\ sent S (run S (Act f0 :: typing S keys) w) = sent S w.
Proof.
  intros Hs Hq Hr Ht final.
  destruct (act_justTyped f0 w Hs Hq) as (Hj & Hv & Hn & Hsent).
  assert (Hr' : rapid S (now S (step S (Act f0) w))
                  (view S (step S (Act f0) w)) keys)
    by (rewrite Hv, Hn; exact Hr).
  destruct (rapid_typing keys (step S (Act f0) w) Hj Hr')
    as (Hj' & Hv' & Hn' & Hs').
  cbv zeta in Hj', Hv', Hn', Hs'.
  change (run S (Act f0 :: typing S keys) w)
    with (run S (typing S keys) (step S (Act f0) w)).
  split; [| congruence].
  change (run S (Act f0 :: typing S keys ++ [Elapse t]) w)
    with (run S (typing S keys ++ [Elapse t]) (step S (Act f0) w)).
  assert (Happ : run S (typing S keys ++ [Elapse t]) (step S (Act f0) w)
                 = elapse S t (run S (typing S keys) (step S (Act f0) w))).
  { unfold run. rewrite fold_left_app. reflexivity. }
  rewrite Happ.
  set (w' := run S (typing S keys) (step S (Act f0) w)) in *.
  destruct Hj' as (id & Et & Ea).
  rewrite (elapse_due S t _ w' Et) by (simpl; rewrite Hn', Hn; lia).
  match goal with |- context [startFetch S ?p ?q ?x] =>
    destruct (sent_startFetch S p q x) as [E _]; rewrite E end.
  cbn [sent view t_query]. rewrite Hs', Hsent, Hv', Hv. reflexivity.
Qed.

End Loop.

End LoopMore.

Section LoopClaimsMore.
Import Data Runtime RuntimeFacts Bursts LoopMore.

(** X17.  On either screen, in every state the screen can reach, at most
    one debounce timer is set; it is the one the cleanup of the effect
    will clear, and it is due after now and at most 500 ms from now. *)
Theorem one_pending_timer :
  (forall today (w : world hospitalScreen),
     reachable hospitalScreen (Hospital.initialState today) w ->
     oneTimer hospitalScreen w)
  /\ (forall w : world usersScreen,
        reachable usersScreen Users.initialState w ->
        oneTimer usersScreen w).
Proof.
  split.
  - intros today w Hw.
    apply (reachable_oneTimer hospitalScreen ltac:(simpl; lia) _ _ Hw).
  - intros w Hw.
    apply (reachable_oneTimer usersScreen ltac:(simpl; lia) _ _ Hw).
Qed.

Lemma one_pending_timer_witness :
  (length (timers _ Examples.hospitalRace) <= 1)%nat.
Proof.
  destruct one_pending_timer as [Hhospital _].
  destruct (Hhospital Examples.today Examples.hospitalRace) as [Hlen _].
  - apply reachable_run, reach_mount.
  - exact Hlen.
Defined.

Lemma last_default {A} (l : list A) y d d' :
  List.last (y :: l) d = List.last (y :: l) d'.
Proof.
  revert y. induction l as [|x l IH]; intros y; [reflexivity |].
  change (List.last (x :: l) d = List.last (x :: l) d'). apply IH.
Qed.

Lemma last_cons {A} (l : list A) x d : List.last (x :: l) d = List.last l x.
Proof.
  destruct l as [|y l]; [reflexivity |].
  change (List.last (y :: l) d = List.last (y :: l) x). apply last_default.
Qed.

Lemma hospital_typed_term v (terms : list (Z * string)) :
  Hospital.searchTerm (typed hospitalScreen v (hospitalKeys terms))
  = List.last (map snd terms) (Hospital.searchTerm v).
Proof.
  revert v. induction terms as [|[b term] terms IH]; intros v; [reflexivity |].
  change (Hospital.searchTerm
            (typed hospitalScreen (Hospital.setSearchTerm term v)
               (hospitalKeys terms))
          = List.last (term :: map snd terms) (Hospital.searchTerm v)).
  rewrite IH. symmetry. apply last_cons.
Qed.

Lemma user_typed_term v (terms : list (Z * string)) :
  Users.searchTerm (typed usersScreen v (userKeys terms))
  = List.last (map snd terms) (Users.searchTerm v)
  /\ Users.selectedHospital (typed usersScreen v (userKeys terms))
     = Users.selectedHospital v.
Proof.
  revert v. induction terms as [|[b term] terms IH]; intros v;
    [split; reflexivity |].
  change (Users.searchTerm
            (typed usersScreen (Users.setSearchTerm term v) (userKeys terms))
          = List.last (term :: map snd terms) (Users.searchTerm v)
          /\ Users.selectedHospital
               (typed usersScreen (Users.setSearchTerm term v) (userKeys terms))
             = Users.selectedHospital v).
  destruct (IH (Users.setSearchTerm term v)) as [-> ->].
  split; [symmetry; apply last_cons | reflexivity].
Qed.

(** X18.  However many search terms are typed, each less than 500 ms
    after the one before and each different from it, nothing is sent
    while they come, and the quiet that follows sends one list fetch, for
    page 1 and the term typed last. *)
Theorem burst_sends_last_term :
  (forall today (w : world hospitalScreen) term0 terms t,
     reachable hospitalScreen (Hospital.initialState today) w ->
     term0 <> Hospital.searchTerm (view _ w) ->
     rapid hospitalScreen (now _ w)
       (Hospital.setSearchTerm term0 (view _ w)) (hospitalKeys terms) ->
     lastKey hospitalScreen (now _ w) (hospitalKeys terms) + 500 <= t ->
     let keys :=
       Act (S := hospitalScreen) (Hospital.setSearchTerm term0)
       :: typing hospitalScreen (hospitalKeys terms) in
     sent _ (run hospitalScreen keys w) = sent _ w
     /\ sent _ (run hospitalScreen (keys ++ [Elapse t]) w)
        = sent _ w
          ++ [Request GET "/hospital" (Some 1) (Some 10)
                (searchParam (List.last (map snd terms) term0)) None None])
  /\ (forall (w : world usersScreen) term0 terms t,
        reachable usersScreen Users.initialState w ->
        term0 <> Users.searchTerm (view _ w) ->
        rapid usersScreen (now _ w)
          (Users.setSearchTerm term0 (view _ w)) (userKeys terms) ->
        lastKey usersScreen (now _ w) (userKeys terms) + 500 <= t ->
        let keys :=
          Act (S := usersScreen) (Users.setSearchTerm term0)
          :: typing usersScreen (userKeys terms) in
        sent _ (run usersScreen keys w) = sent _ w
        /\ sent _ (run usersScreen (keys ++ [Elapse t]) w)
           = sent _ w
             ++ [Request GET "/hospitaluser" (Some 1) (Some 10)
                   (searchParam (List.last (map snd terms) term0))
                   (orUndefined (Users.selectedHospital (view _ w))) None]).
Proof.
  split.
  - intros today w term0 terms t Hw H0 Hr Ht keys. subst keys.
    apply reachable_settled in Hw.
    destruct (burst_of_any_length hospitalScreen
                (Hospital.setSearchTerm term0) (hospitalKeys terms) t w
                Hw H0 Hr Ht) as [Hfinal Hquiet].
    split; [exact Hquiet |].
    change ((Act (S := hospitalScreen) (Hospital.setSearchTerm term0)
             :: typing hospitalScreen (hospitalKeys terms)) ++ [Elapse t])
      with (Act (S := hospitalScreen) (Hospital.setSearchTerm term0)
            :: typing hospitalScreen (hospitalKeys terms) ++ [Elapse t]).
    rewrite Hfinal. f_equal. f_equal.
    change (Request GET "/hospital" (Some 1) (Some 10)
              (searchParam
                 (Hospital.searchTerm
                    (typed hospitalScreen
                       (Hospital.setSearchTerm term0 (view _ w))
                       (hospitalKeys terms)))) None None
            = Request GET "/hospital" (Some 1) (Some 10)
                (searchParam (List.last (map snd terms) term0)) None None).
    rewrite hospital_typed_term. reflexivity.
  - intros w term0 terms t Hw H0 Hr Ht keys. subst keys.
    apply reachable_settled in Hw.
    destruct (burst_of_any_length usersScreen
                (Users.setSearchTerm term0) (userKeys terms) t w
                Hw ltac:(simpl; congruence) Hr Ht) as [Hfinal Hquiet].
    split; [exact Hquiet |].
    change ((Act (S := usersScreen) (Users.setSearchTerm term0)
             :: typing usersScreen (userKeys terms)) ++ [Elapse t])
      with (Act (S := usersScreen) (Users.setSearchTerm term0)
            :: typing usersScreen (userKeys terms) ++ [Elapse t]).
    rewrite Hfinal. f_equal. f_equal.
    destruct (user_typed_term (Users.setSearchTerm term0 (view _ w)) terms)
      as [Eterm Esel].
    change (Request GET "/hospitaluser" (Some 1) (Some 10)
              (searchParam
                 (Users.searchTerm
                    (typed usersScreen (Users.setSearchTerm term0 (view _ w))
                       (userKeys terms))))
              (orUndefined
                 (Users.selectedHospital
                    (typed usersScreen (Users.setSearchTerm term0 (view _ w))
                       (userKeys terms)))) None
            = Request GET "/hospitaluser" (Some 1) (Some 10)
                (searchParam (List.last (map snd terms) term0))
                (orUndefined (Users.selectedHospital (view _ w))) None).
    rewrite Eterm, Esel. reflexivity.
Qed.

Lemma burst_sends_last_term_witness :
  sent _ (run hospitalScreen
            ((Act (S := hospitalScreen) (Hospital.setSearchTerm "a")
              :: typing hospitalScreen
                   (hospitalKeys [(100, "ab"); (300, "abc")]))
             ++ [Elapse 800])
            (mount hospitalScreen 0 (Hospital.initialState Examples.today)))
  = [Request GET "/hospital" (Some 1) (Some 10) (Some "abc") None None].
Proof.
  destruct burst_sends_last_term as [Hhospital _].
  destruct (Hhospital Examples.today
              (mount hospitalScreen 0 (Hospital.initialState Examples.today))
              "a" [(100, "ab"); (300, "abc")] 800) as [_ Hsent].
  - apply reach_mount.
  - simpl. discriminate.
  - simpl. repeat split; (lia || discriminate).
  - simpl. lia.
  - exact Hsent.
Defined.



(** X20.  With two list fetches pending, the answer to one of them,
    whatever it is, turns the loading flag off although the other is
    still pending; and an answer that is a rejection leaves the rows, the
    count and the page as they were and sets the error message. *)
Theorem answer_turns_loading_off :
  (forall (w : world hospitalScreen) i j ci cj r,
     pending hospitalScreen w i = Some ci ->
     pending hospitalScreen w j = Some cj ->
     i <> j ->
     let w' := answer hospitalScreen i r w in
     Hospital.isLoading (view hospitalScreen w') = false
     /\ pending hospitalScreen w' j = Some cj
     /\ (r = Rejected ->
         Frames.hospitalListOf (view hospitalScreen w')
         = Frames.hospitalListOf (view hospitalScreen w)
         /\ Hospital.error (view hospitalScreen w')
            = Some "Error loading hospital data. Please try again later."))
  /\ (forall (w : world usersScreen) i j ci cj r,
        pending usersScreen w i = Some ci ->
        pending usersScreen w j = Some cj ->
        i <> j ->
        let w' := answer usersScreen i r w in
        Users.isLoading (view usersScreen w') = false
        /\ pending usersScreen w' j = Some cj
        /\ (r = Rejected ->
            Frames.userListOf (view usersScreen w')
            = Frames.userListOf (view usersScreen w)
            /\ Users.error (view usersScreen w')
               = Some "Error loading user data. Please try again later.")).
Proof.
  split.
  - intros w i j ci cj r Hi Hj Hne w'. subst w'.
    rewrite (view_answer hospitalScreen i ci r w Hi).
    rewrite pending_answer_other by congruence.
    split; [reflexivity |]. split; [exact Hj |].
    intros ->. split; reflexivity.
  - intros w i j ci cj r Hi Hj Hne w'. subst w'.
    rewrite (view_answer usersScreen i ci r w Hi).
    rewrite pending_answer_other by congruence.
    split; [reflexivity |]. split; [exact Hj |].
    intros ->. split; reflexivity.
Qed.

Lemma answer_turns_loading_off_witness :
  Hospital.isLoading
    (view hospitalScreen
       (answer hospitalScreen 0 Rejected Examples.hospitalRace)) = false
  /\ pending hospitalScreen
       (answer hospitalScreen 0 Rejected Examples.hospitalRace) 1
     = Some (Call 1 1 (Request GET "/hospital" (Some 1) (Some 10)
                         (Some "ab") None None)).
Proof.
  destruct answer_turns_loading_off as [Hhospital _].
  destruct (Hhospital Examples.hospitalRace 0%nat 1%nat
              (Call 0 1 (Request GET "/hospital" (Some 1) (Some 10)
                           (Some "a") None None))
              (Call 1 1 (Request GET "/hospital" (Some 1) (Some 10)
                           (Some "ab") None None))
              Rejected) as (Hoff & Hpending & _).
  - vm_compute. reflexivity.
  - vm_compute. reflexivity.
  - discriminate.
  - split; [exact Hoff | exact Hpending].
Defined.

End LoopClaimsMore.

(* ===================================================================== *)
(** * The list that is filtered and paged in the browser *)
(* ===================================================================== *)

Section ClientListMore.
Import Js JsFacts Data.










Lemma slice_page {A} (l : list A) (p : Z) :
  1 <= p ->
  slice l ((p - 1) * 10) (p * 10)
  = firstn 10 (skipn (10 * Z.to_nat (p - 1)) l).
Proof.
  intros Hp. unfold slice, sliceIndex.
  destruct (Z.ltb_spec ((p - 1) * 10) 0); [lia |].
  destruct (Z.ltb_spec (p * 10) 0); [lia |].
  set (len := length l).
  destruct (Z_le_gt_dec (Z.of_nat len) ((p - 1) * 10)) as [Hout | Hin].
  - rewrite (skipn_all2 l) by (subst len; lia).
    rewrite (skipn_all2 l) by (fold len; lia).
    rewrite !firstn_nil. reflexivity.
  - replace (Z.to_nat (Z.min ((p - 1) * 10) (Z.of_nat len)))
      with (10 * Z.to_nat (p - 1))%nat by lia.
    set (rest := skipn (10 * Z.to_nat (p - 1)) l).
    assert (Hrest : length rest = (len - 10 * Z.to_nat (p - 1))%nat)
      by apply length_skipn.
    destruct (Z_le_gt_dec (p * 10) (Z.of_nat len)) as [Hfull | Hlast].
    + f_equal. lia.
    + rewrite !firstn_all2 by lia. reflexivity.
Qed.

Lemma chunks_concat {A} (n : nat) (l : list A) :
  (length l <= 10 * n)%nat ->
  concat (map (fun i => firstn 10 (skipn (10 * i) l)) (seq 0 n)) = l.
Proof.
  revert l. induction n as [|n IH]; intros l Hlen.
  - destruct l; [reflexivity | simpl in Hlen; lia].
  - rewrite <- cons_seq, <- seq_shift.
    cbn [map concat]. rewrite map_map, Nat.mul_0_r.
    change (skipn 0 l) with l.
    transitivity (firstn 10 l ++ skipn 10 l); [| apply firstn_skipn].
    f_equal.
    transitivity (concat (map (fun i => firstn 10 (skipn (10 * i) (skipn 10 l)))
                            (seq 0 n)));
      [| apply IH; rewrite length_skipn; lia].
    f_equal. apply map_ext. intros i.
    rewrite skipn_skipn. do 2 f_equal. lia.
Qed.

(** X22.  The pages of the list that is paged in the browser cut the
    filtered list into consecutive rows of 10: put one after the other
    they give the filtered list back, every page from 1 to the last has
    between 1 and 10 rows, and a current page beyond the last, as a search
    that narrows the list can leave it, shows no row. *)
Theorem client_pages_partition (hospitals : list hospital) (term : string) :
  let rows := ClientList.filteredHospitals hospitals term in
  let pages := ClientList.totalPages hospitals term in
  concat (map (ClientList.currentHospitals hospitals term)
            (Pagination.pagesFrom 1 (Z.to_nat pages)))
  = rows
  /\ (forall p, 1 <= p <= pages ->
        (1 <= length (ClientList.currentHospitals hospitals term p) <= 10)%nat)
  /\ (forall p, pages < p ->
        ClientList.currentHospitals hospitals term p = []).
Proof.
  intros rows pages.
  pose proof (totalPages_bounds (Z.of_nat (length rows)) 10 ltac:(lia))
    as Hceil.
  assert (Hpages : pages = Pagination.totalPages (Z.of_nat (length rows)) 10)
    by reflexivity.
  rewrite <- Hpages in Hceil.
  assert (Hpage : forall p, 1 <= p ->
            ClientList.currentHospitals hospitals term p
            = firstn 10 (skipn (10 * Z.to_nat (p - 1)) rows)).
  { intros p Hp. apply slice_page. exact Hp. }
  clearbody pages rows.
  split; [| split].
  - unfold Pagination.pagesFrom. rewrite map_map.
    transitivity (concat (map (fun i => firstn 10 (skipn (10 * i) rows))
                            (seq 0 (Z.to_nat pages))));
      [| apply chunks_concat; lia].
    f_equal. apply map_ext. intros i. rewrite Hpage by lia.
    do 3 f_equal. lia.
  - intros p Hp. rewrite Hpage by lia.
    rewrite length_firstn, length_skipn. lia.
  - intros p Hp.
    assert (0 <= pages) by lia.
    rewrite Hpage by lia. rewrite skipn_all2 by lia. apply firstn_nil.
Qed.

End ClientListMore.

(* ===================================================================== *)
(** * The interceptor and the invitation page *)
(* ===================================================================== *)

Section ApiMore.
Import Js JsFacts Data.

Lemma splitChars_cons sep l : exists seg segs, splitChars sep l = seg :: segs.
Proof.
  induction l as [|c l (seg & segs & E)]; simpl; [eauto |].
  rewrite E. destruct (Ascii.eqb c sep); eauto.
Qed.

(** Joining what [split] cut gives the string back. *)
Lemma join_split sep l : joinChars sep (splitChars sep l) = l.
Proof.
  induction l as [|c l IH]; [reflexivity |].
  simpl splitChars. destruct (splitChars_cons sep l) as (seg & segs & E).
  rewrite E in *. destruct (Ascii.eqb_spec c sep) as [-> | Hne].
  - simpl. rewrite <- IH. reflexivity.
  - rewrite <- IH. destruct segs; reflexivity.
Qed.

Lemma split_no_sep sep l seg : In seg (splitChars sep l) -> ~ In sep seg.
Proof.
  revert seg. induction l as [|c l IH]; intros seg; simpl.
  - intros [<- | []]. intros [].
  - destruct (splitChars_cons sep l) as (s0 & segs & E). rewrite E in *.
    destruct (Ascii.eqb_spec c sep) as [-> | Hne].
    + intros [<- | Hin]; [intros [] | apply IH, Hin].
    + intros [<- | Hin].
      * intros [Hc | Hs]; [congruence |]. apply (IH s0); [left; reflexivity | exact Hs].
      * apply IH. right. exact Hin.
Qed.

Lemma join_last sep segs :
  segs <> [] ->
  exists before,
    joinChars sep segs = before ++ List.last segs []
    /\ (before = [] \/ exists b, before = b ++ [sep]).
Proof.
  induction segs as [|seg segs IH]; [congruence |]. intros _.
  destruct segs as [|seg2 rest].
  - exists []. split; [reflexivity | left; reflexivity].
  - destruct IH as (before & E & Hb); [discriminate |].
    change (joinChars sep (seg :: seg2 :: rest))
      with (seg ++ sep :: joinChars sep (seg2 :: rest)).
    change (List.last (seg :: seg2 :: rest) [])
      with (List.last (seg2 :: rest) (@nil ascii)).
    rewrite E. exists (seg ++ sep :: before).
    split; [rewrite <- app_assoc; reflexivity |].
    right. destruct Hb as [-> | (b & ->)].
    + exists seg. reflexivity.
    + exists (seg ++ sep :: b). rewrite <- app_assoc. reflexivity.
Qed.

(** The part of a message after its last colon. *)
Lemma last_segment (l : list ascii) :
  let seg := List.last (splitChars ":" l) [] in
  ~ In ":"%char seg
  /\ exists before,
       l = before ++ seg
       /\ (before = [] \/ exists b, before = b ++ [":"%char]).
Proof.
  intros seg. subst seg.
  destruct (splitChars_cons ":" l) as (s0 & segs & E).
  split.
  - apply (split_no_sep ":" l). rewrite E.
    destruct (exists_last (l := s0 :: segs) ltac:(discriminate))
      as (init & x & Ex).
    rewrite Ex, last_last. apply in_or_app. right. left. reflexivity.
  - destruct (join_last ":" (splitChars ":" l)) as (before & Ej & Hb).
    + rewrite E. discriminate.
    + rewrite join_split in Ej. eauto.
Qed.

Lemma trim_inside s c : In c (chars (trim s)) -> In c (chars s).
Proof.
  destruct (trim_parts s) as (lead & trail & E & _).
  intros Hin. rewrite E. apply in_or_app. right. apply in_or_app. left. exact Hin.
Qed.

(** X23.  For a status 500 the interceptor alerts the part of the
    [errorMessage] after its last colon, without the white space around
    it: the text has no colon and no white space at either end, is the
    whole trimmed message when that has no colon, and is "Unknown error"
    when the body has no message or an empty one.  Statuses other than
    401, 403, 400 and 500 alert nothing. *)
Theorem server_error_alert (m : string) :
  let text := Api.finalMessage (Some m) in
  Api.onRejected (Api.AxiosError (Some 500) (Some m)) = [Api.Alert text]
  /\ ~ In ":"%char (chars text)
  /\ (forall c rest, chars text = c :: rest -> is_space c = false)
  /\ (forall init c, chars text = init ++ [c] -> is_space c = false)
  /\ (m <> "" ->
      exists before seg,
        chars m = before ++ seg
        /\ ~ In ":"%char seg
        /\ (before = [] \/ exists b, before = b ++ [":"%char])
        /\ text = trim (of_chars seg))
  /\ (m <> "" -> ~ In ":"%char (chars m) -> text = trim m)
  /\ Api.finalMessage (Some "") = "Unknown error"
  /\ Api.finalMessage None = "Unknown error"
  /\ (forall code message,
        code <> 401 -> code <> 403 -> code <> 400 -> code <> 500 ->
        Api.onRejected (Api.AxiosError (Some code) message) = []).
Proof.
  intros text. subst text. unfold Api.finalMessage.
  set (message := if nonempty m then m else "Unknown error").
  destruct (last_segment (chars message)) as (Hcolon & before & E & Hb).
  destruct (trim_parts
              (of_chars (List.last (splitChars ":" (chars message)) [])))
    as (_ & _ & _ & _ & _ & Hhead & Hlast).
  split; [reflexivity |].
  split.
  { intros Hin. apply trim_inside in Hin. rewrite chars_of_chars in Hin.
    exact (Hcolon Hin). }
  split; [exact Hhead |]. split; [exact Hlast |].
  split.
  { intros Hm. assert (message = m) as ->.
    { subst message. destruct m; [congruence | reflexivity]. }
    exists before, (List.last (splitChars ":" (chars m)) []). auto. }
  split.
  { intros Hm Hnone. assert (message = m) as Em.
    { subst message. destruct m; [congruence | reflexivity]. }
    rewrite Em in *. f_equal.
    destruct Hb as [-> | (b & ->)].
    - simpl in E. rewrite <- E. apply string_of_list_ascii_of_string.
    - exfalso. apply Hnone. rewrite E.
      apply in_or_app. left. apply in_or_app. right. left. reflexivity. }
  split; [reflexivity |]. split; [reflexivity |].
  intros code msg H1 H2 H3 H4. unfold Api.onRejected. simpl.
  destruct (Z.eqb_spec code 401); [contradiction |].
  destruct (Z.eqb_spec code 403); [contradiction |].
  destruct (Z.eqb_spec code 400); [contradiction |].
  destruct (Z.eqb_spec code 500); [contradiction |]. reflexivity.
Qed.

Lemma server_error_alert_witness :
  Api.finalMessage (Some " Not found ") = trim " Not found ".
Proof.
  destruct (server_error_alert " Not found ")
    as (_ & _ & _ & _ & _ & Hwhole & _).
  apply Hwhole; [discriminate |].
  vm_compute. intuition discriminate.
Defined.

(** X24.  The invitation page calls the server exactly when the two
    passwords are the same and have at least 6 characters; the body then
    carries the password as typed.  A mismatch is reported before the
    length is looked at, and neither check touches the loading flag.
    After a call the flag is off; the page navigates to "/" only when the
    answer says success, and a rejection without a message shows "An
    error occurred". *)
Theorem invitation_submit_guard (net : request -> Invitation.outcome)
    (id email : value) (st : Invitation.state) :
  let out := Invitation.handleSubmit net id email st in
  let st' := fst (fst out) in
  let sent := snd (fst out) in
  let rq := Request POST "/api/accept-invitation" None None None None
              (Some (Invitation.body id email st)) in
  (sent = [rq] \/ sent = [])
  /\ (sent = [rq]
      <-> Invitation.password st = Invitation.confirmPassword st
          /\ (6 <= String.length (Invitation.password st))%nat)
  /\ Invitation.body id email st !! "password"
     = Some (Plain (VStr (Invitation.password st)))
  /\ (Invitation.password st <> Invitation.confirmPassword st ->
      Invitation.error st' = "Passwords do not match"
      /\ Invitation.loading st' = Invitation.loading st)
  /\ (Invitation.password st = Invitation.confirmPassword st ->
      (String.length (Invitation.password st) < 6)%nat ->
      Invitation.error st' = "Password must be at least 6 characters long"
      /\ Invitation.loading st' = Invitation.loading st)
  /\ (sent = [rq] -> Invitation.loading st' = false)
  /\ (snd out = Some "/" <-> sent = [rq] /\ net rq = Invitation.Answered true)
  /\ (sent = [rq] -> net rq = Invitation.Failed None ->
      Invitation.error st' = "An error occurred")
  /\ Invitation.password st' = Invitation.password st
  /\ Invitation.confirmPassword st' = Invitation.confirmPassword st.
Proof.
  intros out st' sent rq. subst out st' sent rq.
  unfold Invitation.handleSubmit.
  destruct (String.eqb_spec (Invitation.password st)
              (Invitation.confirmPassword st)) as [Heq | Hne]; simpl.
  - destruct (Nat.ltb_spec (String.length (Invitation.password st)) 6)
      as [Hshort | Hlong]; simpl.
    + split; [right; reflexivity |].
      split; [split; [discriminate | intros [_ H]; lia] |].
      split; [reflexivity |].
      split; [congruence |]. split; [auto |].
      split; [discriminate |].
      split; [split; [discriminate | intros [H _]; discriminate] |].
      split; [discriminate |]. split; reflexivity.
    + destruct (net _) as [success | message] eqn:E; simpl.
      * split; [left; reflexivity |].
        split; [split; [auto | reflexivity] |].
        split; [reflexivity |].
        split; [congruence |]. split; [intros _ H; lia |].
        split; [reflexivity |].
        split; [destruct success; split; try discriminate; auto;
                intros [_ H]; discriminate |].
        split; [discriminate |]. split; reflexivity.
      * split; [left; reflexivity |].
        split; [split; [auto | reflexivity] |].
        split; [reflexivity |].
        split; [congruence |]. split; [intros _ H; lia |].
        split; [reflexivity |].
        split; [split; [discriminate | intros [_ H]; discriminate] |].
        split; [intros _ H; injection H as ->; reflexivity |].
        split; reflexivity.
  - split; [right; reflexivity |].
    split; [split; [discriminate | intros [H _]; contradiction] |].
    split; [reflexivity |].
    split; [auto |]. split; [congruence |].
    split; [discriminate |].
    split; [split; [discriminate | intros [H _]; discriminate] |].
    split; [discriminate |]. split; reflexivity.
Qed.

Lemma invitation_submit_guard_witness :
  Invitation.error
    (fst (fst (Invitation.handleSubmit
                 (fun _ => Invitation.Answered true) (VStr "7")
                 (VStr "asha@lakeside.example")
                 (Invitation.State "abc" "abd" "" false))))
  = "Passwords do not match".
Proof.
  destruct (invitation_submit_guard
              (fun _ => Invitation.Answered true) (VStr "7")
              (VStr "asha@lakeside.example")
              (Invitation.State "abc" "abd" "" false))
    as (_ & _ & _ & Hmismatch & _).
  destruct Hmismatch as [Herr _]; [discriminate | exact Herr].
Defined.

End ApiMore.
